(** * Repurchase and seller-metrics aggregation pipeline

    A shallow embedding of the aggregation code of the dashboard
    ([app.py]: [load_data], [calculate_seller_metrics], the overview and
    lifecycle counts), of the batch script ([eda_script.py]:
    [get_region_from_zipcode], [calculate_repurchase],
    [load_and_preprocess], the customer insight of [main]) and of the
    per-seller repurchase report ([seller_repurchase_analysis.py]:
    [analyze_seller_repurchase]), together with the properties the
    specification states about them and further properties of the code.

    Data frames are maps from column names to columns of dynamically typed
    cells; floating-point values are IEEE 754 binary64 numbers
    ([spec_float] at precision 53); code that assigns columns of its
    argument runs in a state-and-exception monad over the frame. *)

From Stdlib Require Import ZArith List String Ascii Sorting.Permutation Sorting.Sorted.
From Stdlib Require Import SpecFloat.
From stdpp Require Import gmap strings list.

Local Open Scope string_scope.
Local Open Scope list_scope.
Local Open Scope Z_scope.

(* ===================================================================== *)
(** * Binary64 arithmetic *)
(* ===================================================================== *)

Module F64.

Definition prec : Z := 53.
Definition emax : Z := 1024.

Definition of_Z (z : Z) : spec_float := binary_normalize prec emax z 0 false.
Definition add : spec_float -> spec_float -> spec_float := SFadd prec emax.
Definition sub : spec_float -> spec_float -> spec_float := SFsub prec emax.
Definition mul : spec_float -> spec_float -> spec_float := SFmul prec emax.
Definition div : spec_float -> spec_float -> spec_float := SFdiv prec emax.

Definition zero : spec_float := S754_zero false.
Definition hundred : spec_float := Eval vm_compute in of_Z 100.

Definition is_nan (f : spec_float) : bool :=
  match f with S754_nan => true | _ => false end.
Definition is_inf (f : spec_float) : bool :=
  match f with S754_infinity _ => true | _ => false end.
Definition is_zero (f : spec_float) : bool :=
  match f with S754_zero _ => true | _ => false end.
Definition is_finite (f : spec_float) : bool :=
  match f with S754_zero _ | S754_finite _ _ _ => true | _ => false end.

(** [x >= y] as numpy compares float64 values (false on NaN). *)
Definition geb (x y : spec_float) : bool :=
  match SFcompare x y with Some (Gt | Eq) => true | _ => false end.

(** The value [(-1)^s * m * 10^e], correctly rounded. *)
Definition of_decimal (s : bool) (m : Z) (e : Z) : spec_float :=
  match m with
  | Zpos p =>
      match e with
      | Zneg k => div (S754_finite s p 0) (S754_finite false (10 ^ k)%positive 0)
      | _ => binary_normalize prec emax (if s then - (m * 10 ^ e) else m * 10 ^ e) 0 s
      end
  | _ => S754_zero s
  end.

End F64.

#[global] Instance spec_float_eq_dec : EqDecision spec_float.
Proof. solve_decision. Defined.

(* ===================================================================== *)
(** * Text: the characters the cleaners look at, and float parsing *)
(* ===================================================================== *)

Definition is_digit (c : ascii) : bool :=
  let n := nat_of_ascii c in (48 <=? n)%nat && (n <=? 57)%nat.

Definition digit_val (c : ascii) : Z := Z.of_nat (nat_of_ascii c) - 48.

(** Characters that [str.strip] (and [float]) treat as white space. *)
Definition is_space (c : ascii) : bool :=
  let n := nat_of_ascii c in ((9 <=? n)%nat && (n <=? 13)%nat) || (n =? 32)%nat.

Definition ascii_lower (c : ascii) : ascii :=
  let n := nat_of_ascii c in
  if (65 <=? n)%nat && (n <=? 90)%nat then ascii_of_nat (n + 32) else c.

Definition chars : string -> list ascii := list_ascii_of_string.
Definition text : list ascii -> string := string_of_list_ascii.

(** [s.replace(',', '')] *)
Definition remove_commas (s : string) : string :=
  text (List.filter (fun c => negb (Ascii.eqb c ",")) (chars s)).

(** [re.sub(r'[^\d\.-]', '', s)]: keep decimal digits, ['.'] and ['-']. *)
Definition keep_numeric_char (c : ascii) : bool :=
  is_digit c || Ascii.eqb c "." || Ascii.eqb c "-".

Definition strip_non_numeric (s : string) : string :=
  text (List.filter keep_numeric_char (chars s)).

Fixpoint drop_spaces (l : list ascii) : list ascii :=
  match l with
  | c :: l' => if is_space c then drop_spaces l' else l
  | [] => []
  end.

Definition strip_spaces (l : list ascii) : list ascii :=
  rev (drop_spaces (rev (drop_spaces l))).

(** A run of decimal digits; with [us] a single underscore may separate
    two digits (Python's [float] accepts ["1_000"], the pandas parser does
    not).  Returns the digit values and the unread input. *)
Fixpoint scan_digits (us prev : bool) (l : list ascii) : list Z * list ascii :=
  match l with
  | c :: l' =>
      if is_digit c then
        let '(ds, r) := scan_digits us true l' in (digit_val c :: ds, r)
      else if us && prev && Ascii.eqb c "_" then
        match l' with
        | d :: _ => if is_digit d then scan_digits us false l' else ([], l)
        | [] => ([], l)
        end
      else ([], l)
  | [] => ([], [])
  end.

Definition digits_value (ds : list Z) : Z :=
  fold_left (fun acc d => 10 * acc + d) ds 0.

Definition scan_sign (l : list ascii) : bool * list ascii :=
  match l with
  | c :: l' =>
      if Ascii.eqb c "-" then (true, l')
      else if Ascii.eqb c "+" then (false, l')
      else (false, l)
  | [] => (false, [])
  end.

(** Optional exponent part: [None] when malformed. *)
Definition scan_exponent (us : bool) (l : list ascii) : option (Z * list ascii) :=
  match l with
  | c :: l' =>
      if Ascii.eqb (ascii_lower c) "e" then
        let '(neg, l1) := scan_sign l' in
        let '(ds, r) := scan_digits us false l1 in
        match ds with
        | [] => None
        | _ => Some (if neg then - digits_value ds else digits_value ds, r)
        end
      else Some (0, l)
  | [] => Some (0, [])
  end.

(** The decimal literal grammar shared by Python's [float(str)] and the
    pandas numeric parser: white space, sign, ["inf"], ["infinity"],
    ["nan"] in any case, or digits with an optional fraction and exponent.
    [None] is a value the parser rejects. *)
Definition parse_float (us : bool) (s : string) : option spec_float :=
  let '(neg, l) := scan_sign (strip_spaces (chars s)) in
  let low := text (List.map ascii_lower l) in
  if String.eqb low "inf" || String.eqb low "infinity" then Some (S754_infinity neg)
  else if String.eqb low "nan" then Some S754_nan
  else
    let '(ip, l1) := scan_digits us false l in
    let '(fp, l2) :=
      match l1 with
      | c :: l1' => if Ascii.eqb c "." then scan_digits us false l1' else ([], l1)
      | [] => ([], [])
      end in
    match ip ++ fp with
    | [] => None
    | ds =>
        match scan_exponent us l2 with
        | Some (e, []) =>
            Some (F64.of_decimal neg (digits_value ds) (e - Z.of_nat (length fp)))
        | _ => None
        end
    end.

(** [float(s)]: raises [ValueError] (here [None]) on a malformed string. *)
Definition py_float (s : string) : option spec_float := parse_float true s.

(** The pandas numeric parser ([pd.to_numeric]) reads the same literals
    without the underscore extension. *)
Definition pd_parse (s : string) : option spec_float := parse_float false s.

(** Decimal rendering of an integer, as [str(int)] prints it. *)
Fixpoint digits_of_pos (fuel : nat) (n : Z) (acc : list ascii) : list ascii :=
  match fuel with
  | O => acc
  | S fuel' =>
      let acc' := ascii_of_nat (Z.to_nat (n mod 10) + 48) :: acc in
      if n <? 10 then acc' else digits_of_pos fuel' (n / 10) acc'
  end.

Definition str_of_Z (z : Z) : string :=
  let body := text (digits_of_pos (S (Z.to_nat (Z.log2 (Z.abs z)))) (Z.abs z) []) in
  if z <? 0 then String "-" body else body.

(* ===================================================================== *)
(** * Cells, columns and frames *)
(* ===================================================================== *)

(** One value of a column.  [NA] is the missing value of an object or
    datetime column ([None], [NaN], [NaT]); a float column stores its
    missing values as [Num S754_nan].  [Ts] is an instant of a
    [datetime64[ns]] column in nanoseconds since the epoch, [Day] a
    [datetime.date] in days since the epoch. *)
Inductive cell :=
| NA
| Str (s : string)
| Int (z : Z)
| Num (f : spec_float)
| Ts (t : Z)
| Day (d : Z).

#[global] Instance cell_eq_dec : EqDecision cell.
Proof. solve_decision. Defined.

Definition isna (c : cell) : bool :=
  match c with
  | NA => true
  | Num f => F64.is_nan f
  | _ => false
  end.

Definition notna (c : cell) : bool := negb (isna c).

Inductive Dtype := object | float64 | int64 | datetime64.

#[global] Instance Dtype_eq_dec : EqDecision Dtype.
Proof. solve_decision. Defined.

Record Series := mkSeries { dtype : Dtype; values : list cell }.

#[global] Instance Series_eq_dec : EqDecision Series.
Proof. solve_decision. Defined.

(** A frame: its number of rows and its columns by name. *)
Record DataFrame := mkFrame { nrows : nat; columns : gmap string Series }.

#[global] Instance DataFrame_eq_dec : EqDecision DataFrame.
Proof. solve_decision. Defined.

(** ** Exceptions *)

Inductive exn :=
| KeyError (col : string)
| ValueError
| TypeError
| AttributeError.

Inductive result (A : Type) :=
| Ok (a : A)
| Raise (e : exn).

Arguments Ok {A} a.
Arguments Raise {A} e.

#[global] Instance result_ret : MRet result := fun A a => Ok a.
#[global] Instance result_bind : MBind result := fun A B f r =>
  match r with
  | Ok a => f a
  | Raise e => Raise e
  end.

(** [mapM] in [result]: the first exception wins. *)
Fixpoint traverse {A B} (f : A -> result B) (l : list A) : result (list B) :=
  match l with
  | [] => Ok []
  | x :: l' =>
      match f x with
      | Ok y =>
          match traverse f l' with
          | Ok ys => Ok (y :: ys)
          | Raise e => Raise e
          end
      | Raise e => Raise e
      end
  end.

(** ** Code that assigns columns of the frame it was given

    [df[c] = ...] updates the caller's object, and an exception leaves the
    assignments made so far in place. *)
Definition M (A : Type) : Type := DataFrame -> DataFrame * result A.

#[global] Instance M_ret : MRet M := fun A a df => (df, Ok a).
#[global] Instance M_bind : MBind M := fun A B f m df =>
  match m df with
  | (df', Ok a) => f a df'
  | (df', Raise e) => (df', Raise e)
  end.

Definition lift {A} (r : result A) : M A := fun df => (df, r).

Definition skip : M unit := fun df => (df, Ok tt).

(** A computation that reads the frame without assigning to it. *)
Definition reading {A} (f : DataFrame -> result A) : M A := fun df => (df, f df).

(** [c in df.columns] *)
Definition has_column (df : DataFrame) (c : string) : bool :=
  bool_decide (is_Some (columns df !! c)).

(** [df[c]] *)
Definition column (df : DataFrame) (c : string) : result Series :=
  match columns df !! c with
  | Some s => Ok s
  | None => Raise (KeyError c)
  end.

Definition contains (c : string) : M bool := fun df => (df, Ok (has_column df c)).
Definition getitem (c : string) : M Series := fun df => (df, column df c).

(** [df[c] = s] *)
Definition assign (c : string) (s : Series) (df : DataFrame) : DataFrame :=
  mkFrame (nrows df) (<[c := s]> (columns df)).

Definition setitem (c : string) (s : Series) : M unit :=
  fun df => (assign c s df, Ok tt).

(** [df[c] = v] for a scalar [v], broadcast to every row. *)
Definition broadcast (dt : Dtype) (v : cell) (n : nat) : Series :=
  mkSeries dt (replicate n v).

Definition setitem_scalar (c : string) (dt : Dtype) (v : cell) : M unit :=
  fun df => (assign c (broadcast dt v (nrows df)) df, Ok tt).

(* ===================================================================== *)
(** * The pandas operations the scripts call *)
(* ===================================================================== *)

(** ** Element-wise conversions *)

(** [s.str.replace(',', '')]: cells that are not strings become missing. *)
Definition str_replace_commas (s : Series) : Series :=
  mkSeries object
    (map (fun c => match c with Str x => Str (remove_commas x) | _ => NA end) (values s)).

(** [s.str.replace(r'[^\d\.-]', '', regex=True)] *)
Definition str_replace_non_numeric (s : Series) : Series :=
  mkSeries object
    (map (fun c => match c with Str x => Str (strip_non_numeric x) | _ => NA end) (values s)).

(** [s.astype(float)]: [float(x)] on every cell, raising on the first
    malformed string. *)
Definition astype_float_cell (c : cell) : result cell :=
  match c with
  | Str x =>
      match py_float x with
      | Some f => Ok (Num f)
      | None => Raise ValueError
      end
  | NA => Ok (Num S754_nan)
  | Int z => Ok (Num (F64.of_Z z))
  | Num f => Ok (Num f)
  | Ts _ | Day _ => Raise TypeError
  end.

Definition astype_float (s : Series) : result Series :=
  vs ← traverse astype_float_cell (values s);
  mret (mkSeries float64 vs).

(** [pd.to_numeric(s, errors='coerce')].

    A numeric column is returned as it is (a datetime column as its
    integers). *)
Definition to_numeric_cell (c : cell) : cell :=
  match c with
  | Str x =>
      match pd_parse x with
      | Some f => Num f
      | None => Num S754_nan
      end
  | NA => Num S754_nan
  | Int z => Int z
  | Num f => Num f
  | Ts t => Int t
  | Day _ => Num S754_nan
  end.

(** An integer literal as the pandas parser reads it: a literal of
    [pd_parse] with neither fraction nor exponent. *)
Definition pd_parse_int (s : string) : option Z :=
  let '(neg, l) := scan_sign (strip_spaces (chars s)) in
  let '(ds, r) := scan_digits false false l in
  match ds, r with
  | _ :: _, [] => Some (if neg then - digits_value ds else digits_value ds)
  | _, _ => None
  end.

Definition in_int64 (z : Z) : bool := (- 2 ^ 63 <=? z) && (z <? 2 ^ 63).

(** The parser goes through the cells of an object column keeping an
    integer and a float reading of each, and returns the integers when
    every cell is an integer (a Python integer or an integer literal
    within int64) and the floats otherwise, a cell that does not parse
    being NaN.  (Columns of unsigned integers beyond int64 are not
    modelled: such a cell makes the column float64.) *)
Definition to_int_cell (c : cell) : option Z :=
  match c with
  | Str x =>
      match pd_parse_int x with
      | Some z => if in_int64 z then Some z else None
      | None => None
      end
  | Int z => Some z
  | NA | Num _ | Ts _ | Day _ => None
  end.

Definition to_float_cell (c : cell) : cell :=
  match c with
  | Str x =>
      match pd_parse x with
      | Some f => Num f
      | None => Num S754_nan
      end
  | Int z => Num (F64.of_Z z)
  | Num f => Num f
  | NA | Ts _ | Day _ => Num S754_nan
  end.

Definition to_numeric_coerce (s : Series) : Series :=
  match dtype s with
  | object =>
      match mapM to_int_cell (values s) with
      | Some zs => mkSeries int64 (map Int zs)
      | None => mkSeries float64 (map to_float_cell (values s))
      end
  | float64 => mkSeries float64 (map to_numeric_cell (values s))
  | int64 | datetime64 => mkSeries int64 (map to_numeric_cell (values s))
  end.

(** [s.fillna(0)] *)
Definition fillna0 (s : Series) : Series :=
  let z := match dtype s with float64 => Num F64.zero | _ => Int 0 end in
  mkSeries (dtype s) (map (fun c => if isna c then z else c) (values s)).

(** The float64 value of a numeric cell in arithmetic. *)
Definition to_f64 (c : cell) : result spec_float :=
  match c with
  | Int z => Ok (F64.of_Z z)
  | Num f => Ok f
  | NA => Ok S754_nan
  | Str _ | Ts _ | Day _ => Raise TypeError
  end.

Definition cell_binop (op : spec_float -> spec_float -> spec_float)
    (p : cell * cell) : result cell :=
  x ← to_f64 (fst p);
  y ← to_f64 (snd p);
  mret (Num (op x y)).

(** [a * b] and [a - b] on two columns of one frame. *)
Definition series_binop (op : spec_float -> spec_float -> spec_float)
    (a b : Series) : result Series :=
  vs ← traverse (cell_binop op) (zip (values a) (values b));
  mret (mkSeries float64 vs).

(** [s.dt.date]: only a datetime column has the [.dt] accessor. *)
Definition ns_per_day : Z := 86400 * 10 ^ 9.

Definition date_of_cell (c : cell) : cell :=
  match c with
  | Ts t => Day (t / ns_per_day)
  | _ => NA
  end.

Definition dt_date (s : Series) : result Series :=
  match dtype s with
  | datetime64 => Ok (mkSeries object (map date_of_cell (values s)))
  | _ => Raise AttributeError
  end.

(** ** Selection, distinct values and sums *)

(** [s == k] *)
Definition eq_scalar (vs : list cell) (k : cell) : list bool :=
  map (fun c => notna c && bool_decide (c = k)) vs.

(** [s[mask]] *)
Definition select (m : list bool) (vs : list cell) : list cell :=
  map snd (List.filter fst (zip m vs)).

Definition dropna (vs : list cell) : list cell := List.filter notna vs.

(** [s.unique()]: distinct values in order of first appearance. *)
Fixpoint unique (vs : list cell) : list cell :=
  match vs with
  | [] => []
  | c :: vs' => c :: List.filter (fun x => negb (bool_decide (x = c))) (unique vs')
  end.

(** [s.nunique()]: missing values are not counted. *)
Definition nunique (vs : list cell) : Z := Z.of_nat (length (unique (dropna vs))).

Definition count_eq (k : cell) (vs : list cell) : Z :=
  Z.of_nat (length (List.filter (fun x => bool_decide (x = k)) vs)).

(** [s.value_counts()]: each distinct non-missing value with its number
    of rows.  (pandas lists them by decreasing count; the callers only
    take lengths.) *)
Definition value_counts (vs : list cell) : list (cell * Z) :=
  map (fun k => (k, count_eq k vs)) (unique (dropna vs)).

(** Float sum that skips NaN, as [sum] does by default. *)
Definition sum_float64 (vs : list cell) : result spec_float :=
  fs ← traverse to_f64 vs;
  mret (fold_left (fun acc f => if F64.is_nan f then acc else F64.add acc f) fs F64.zero).

Definition wrap64 (z : Z) : Z := (z + 2 ^ 63) mod 2 ^ 64 - 2 ^ 63.

(** Sum of an int64 column. *)
Definition sum_int64 (vs : list cell) : Z :=
  wrap64 (fold_left (fun acc c => match c with Int z => acc + z | _ => acc end) vs 0).

(** ** Ordering of keys *)

Definition kind_rank (c : cell) : Z :=
  match c with
  | Int _ | Num _ => 0
  | Str _ => 1
  | Ts _ => 2
  | Day _ => 3
  | NA => 4
  end.

Definition float_cmp (x y : spec_float) : comparison :=
  match SFcompare x y with
  | Some c => c
  | None => Eq
  end.

(** Numbers by value, strings by code unit, dates by day; missing values
    after everything else. *)
Definition cell_cmp (a b : cell) : comparison :=
  match a, b with
  | Str x, Str y => String.compare x y
  | Int x, Int y => Z.compare x y
  | Num x, Num y => float_cmp x y
  | Int x, Num y => float_cmp (F64.of_Z x) y
  | Num x, Int y => float_cmp x (F64.of_Z y)
  | Ts x, Ts y => Z.compare x y
  | Day x, Day y => Z.compare x y
  | _, _ => Z.compare (kind_rank a) (kind_rank b)
  end.

Definition cell_leb (a b : cell) : bool :=
  match cell_cmp a b with
  | Gt => false
  | _ => true
  end.

Fixpoint insert_by {A} (leb : A -> A -> bool) (x : A) (l : list A) : list A :=
  match l with
  | [] => [x]
  | y :: l' => if leb x y then x :: l else y :: insert_by leb x l'
  end.

(** A stable sort. *)
Fixpoint sort_by {A} (leb : A -> A -> bool) (l : list A) : list A :=
  match l with
  | [] => []
  | x :: l' => insert_by leb x (sort_by leb l')
  end.

(** [df.groupby(c)]: the distinct non-missing keys, sorted. *)
Definition group_keys (vs : list cell) : list cell :=
  sort_by cell_leb (unique (dropna vs)).

(** [df.groupby(k)[v].nunique()] *)
Definition groupby_nunique (ks vs : list cell) : list (cell * Z) :=
  map (fun k => (k, nunique (select (eq_scalar ks k) vs))) (group_keys ks).

Fixpoint assoc (k : cell) (tbl : list (cell * Z)) : option Z :=
  match tbl with
  | [] => None
  | (k', v) :: tbl' => if bool_decide (k' = k) then Some v else assoc k tbl'
  end.

(** [s.map(tbl)]: a key that is not in the table maps to a missing value. *)
Definition map_lookup (tbl : list (cell * Z)) (vs : list cell) : list cell :=
  map (fun c => match assoc c tbl with Some n => Int n | None => NA end) vs.

(** ** [df.sort_values(by=[a, b])]

    With several keys pandas sorts lexicographically and stably, missing
    keys last. *)
Definition lex_leb (p q : cell * cell * nat) : bool :=
  match cell_cmp (fst (fst p)) (fst (fst q)) with
  | Lt => true
  | Gt => false
  | Eq => cell_leb (snd (fst p)) (snd (fst q))
  end.

Definition argsort2 (k1 k2 : list cell) : list nat :=
  map snd (sort_by lex_leb (zip (zip k1 k2) (seq 0 (length k1)))).

(** [s.take(idx)] *)
Definition take_rows (idx : list nat) (vs : list cell) : list cell :=
  omap (fun i => vs !! i) idx.

Definition reorder (idx : list nat) (df : DataFrame) : DataFrame :=
  mkFrame (length idx)
    ((fun s => mkSeries (dtype s) (take_rows idx (values s))) <$> columns df).

Definition sort_values2 (a b : string) (df : DataFrame) : result DataFrame :=
  k1 ← column df a;
  k2 ← column df b;
  mret (reorder (argsort2 (values k1) (values k2)) df).

(** [df[k].map(counts) - 1], then [.fillna(0).astype(int)].  The
    counts are integers; pandas holds them as floats while missing values
    are among them and [astype(int)] makes them integers again, the model
    keeps them as integers throughout. *)
Definition minus_one (c : cell) : cell :=
  match c with
  | Int n => Int (n - 1)
  | _ => NA
  end.

Definition fillna0_astype_int (c : cell) : cell :=
  if isna c then Int 0 else c.

(** The four assignments both repurchase annotators make on the sorted
    frame ([eda_script.py] lines 68-79 with [date = 'OrderDate'] and
    [out = '재구매 횟수'], [app.py] lines 53-56 with [date = 'Date'] and
    [out = 'RepurchaseCount']). *)
Definition repurchase_columns (date out : string) (df : DataFrame) : result DataFrame :=
  contact ← column df "주문자연락처";
  dates ← column df date;
  let user_order_counts := groupby_nunique (values contact) (values dates) in
  let df := assign "UserTotalOrders"
              (mkSeries float64 (map_lookup user_order_counts (values contact))) df in
  total ← column df "UserTotalOrders";
  let df := assign out (mkSeries float64 (map minus_one (values total))) df in
  count ← column df out;
  mret (assign out (mkSeries int64 (map fillna0_astype_int (values count))) df).

(** ** Rows of the seller summary *)

Record SellerRow := mkSellerRow {
  seller : cell;
  TotalRevenue : spec_float;
  TotalMargin : spec_float;
  OrderCount : Z;
  TotalQty : spec_float;
  CancelCount : Z;
  MarginRate : spec_float;
  CancelRate : spec_float;
  AOV : spec_float;
  RepurchaseRate : spec_float;
  FirstOrderDate : cell;
  LastOrderDate : cell;
  TenureDays : option Z;
  RecencyDays : option Z
}.

(** ** [df.sort_values(by=key, ascending=False)]

    With one key pandas computes the new order of the rows with
    [nargsort] and the default [kind='quicksort'], which it documents as
    not stable.  [sort_values_desc] is what every implementation of the
    sort delivers: some rearrangement of the rows in which each row is
    followed by a row of smaller or equal key, rows with a NaN key
    last. *)
Definition desc_step (a b : spec_float) : Prop :=
  F64.is_nan b = true \/ (F64.is_nan a = false /\ F64.geb a b = true).

Definition sort_values_desc {A} (key : A -> spec_float) (l out : list A) : Prop :=
  Permutation l out /\ Sorted (fun a b => desc_step (key a) (key b)) out.

(** [nargsort(items, kind='quicksort', ascending=False,
    na_position='last')] of [pandas/core/sorting.py]: the positions of
    the keys that are not NaN are reversed, sorted in ascending order by
    [argsort] and reversed again; the positions of the NaN keys follow. *)
Definition nargsort_desc (argsort : list spec_float -> list nat)
    (items : list spec_float) : list nat :=
  let rows := zip (seq 0 (length items)) items in
  let non_nan := rev (List.filter (fun r => negb (F64.is_nan (snd r))) rows) in
  let nan_idx := fst <$> List.filter (fun r => F64.is_nan (snd r)) rows in
  let indexer := omap (fun p => fst <$> non_nan !! p) (argsort (snd <$> non_nan)) in
  rev indexer ++ nan_idx.

(** [df.sort_values(by=key, ascending=False)]: the rows taken at the
    positions [nargsort] returns. *)
Definition sort_values_by_desc {A} (argsort : list spec_float -> list nat)
    (key : A -> spec_float) (l : list A) : list A :=
  omap (fun i => l !! i) (nargsort_desc argsort (key <$> l)).

(** ** [ndarray.argsort(kind='quicksort')] on a float64 array

    The generic kernel of numpy, [aquicksort_<Tag>] of
    [npysort/quicksort.cpp] with [aheapsort_<Tag>] of
    [npysort/heapsort.cpp]: an introsort on the array [tosort] of
    positions, which partitions ranges of more than 17 elements around
    the median of three, sorts shorter ranges by insertion and falls back
    to heapsort when the depth limit is reached.  Positions [pl], [pr],
    [pi], ... are offsets into [tosort].  (A build of numpy that
    dispatches to a vectorised kernel runs a sorting network in its
    place, which does not keep the order of equal keys either.) *)
Module numpy.

(** [npy::double_tag::less]: NaN sorts to the end. *)
Definition less (a b : spec_float) : bool :=
  SFltb a b || (F64.is_nan b && negb (F64.is_nan a)).

Definition get (tosort : list nat) (p : Z) : nat := nth (Z.to_nat p) tosort 0%nat.

Definition set (tosort : list nat) (p : Z) (x : nat) : list nat :=
  <[Z.to_nat p := x]> tosort.

(** [v[*p]] *)
Definition val (v : list spec_float) (tosort : list nat) (p : Z) : spec_float :=
  nth (get tosort p) v F64.zero.

(** [INTP_SWAP] of the cells at [p] and [q]. *)
Definition swap (tosort : list nat) (p q : Z) : list nat :=
  set (set tosort p (get tosort q)) q (get tosort p).

Definition SMALL_QUICKSORT : Z := 16.

(** [npy_get_msb]: the position of the highest bit set. *)
Definition npy_get_msb (n : Z) : Z := if 0 <? n then Z.log2 n else 0.

(** [do { ++pi; } while (less(v[*pi], vp));] *)
Fixpoint scan_up (fuel : nat) (v : list spec_float) (tosort : list nat)
    (vp : spec_float) (pi : Z) : Z :=
  match fuel with
  | O => pi
  | S fuel' =>
      let pi := pi + 1 in
      if less (val v tosort pi) vp then scan_up fuel' v tosort vp pi else pi
  end.

(** [do { --pj; } while (less(vp, v[*pj]));] *)
Fixpoint scan_down (fuel : nat) (v : list spec_float) (tosort : list nat)
    (vp : spec_float) (pj : Z) : Z :=
  match fuel with
  | O => pj
  | S fuel' =>
      let pj := pj - 1 in
      if less vp (val v tosort pj) then scan_down fuel' v tosort vp pj else pj
  end.

(** The [for (;;)] loop of the partition; it returns the array and [pi]. *)
Fixpoint partition (fuel : nat) (v : list spec_float) (vp : spec_float)
    (tosort : list nat) (pi pj : Z) : list nat * Z :=
  match fuel with
  | O => (tosort, pi)
  | S fuel' =>
      let pi := scan_up (length tosort) v tosort vp pi in
      let pj := scan_down (length tosort) v tosort vp pj in
      if pj <=? pi then (tosort, pi)
      else partition fuel' v vp (swap tosort pi pj) pi pj
  end.

(** The three conditional swaps that leave the median at [pm]. *)
Definition median_of_three (v : list spec_float) (tosort : list nat) (pl pm pr : Z)
    : list nat :=
  let tosort :=
    if less (val v tosort pm) (val v tosort pl) then swap tosort pm pl else tosort in
  let tosort :=
    if less (val v tosort pr) (val v tosort pm) then swap tosort pr pm else tosort in
  if less (val v tosort pm) (val v tosort pl) then swap tosort pm pl else tosort.

(** A range still to be sorted, with its depth budget. *)
Definition range : Type := Z * Z * Z.

(** [while ((pr - pl) > SMALL_QUICKSORT) { ... }]: partition, push the
    larger part, go on with the smaller one. *)
Fixpoint partition_loop (fuel : nat) (v : list spec_float) (tosort : list nat)
    (pl pr cdepth : Z) (stack : list range) : list nat * Z * Z * list range :=
  match fuel with
  | O => (tosort, pl, pr, stack)
  | S fuel' =>
      if SMALL_QUICKSORT <? pr - pl then
        let pm := pl + Z.shiftr (pr - pl) 1 in
        let tosort := median_of_three v tosort pl pm pr in
        let vp := val v tosort pm in
        let tosort := swap tosort pm (pr - 1) in
        let '(tosort, pi) := partition (length tosort) v vp tosort pl (pr - 1) in
        let tosort := swap tosort pi (pr - 1) in
        let cdepth := cdepth - 1 in
        if pi - pl <? pr - pi then
          partition_loop fuel' v tosort pl (pi - 1) cdepth ((pi + 1, pr, cdepth) :: stack)
        else
          partition_loop fuel' v tosort (pi + 1) pr cdepth ((pl, pi - 1, cdepth) :: stack)
      else (tosort, pl, pr, stack)
  end.

(** [while (pj > pl && less(vp, v[*pk])) { *pj-- = *pk--; }] *)
Fixpoint shift_up (fuel : nat) (v : list spec_float) (tosort : list nat)
    (vp : spec_float) (pl pj : Z) : list nat * Z :=
  match fuel with
  | O => (tosort, pj)
  | S fuel' =>
      if (pl <? pj) && less vp (val v tosort (pj - 1)) then
        shift_up fuel' v (set tosort pj (get tosort (pj - 1))) vp pl (pj - 1)
      else (tosort, pj)
  end.

(** [for (pi = pl + 1; pi <= pr; ++pi) { ... }] *)
Fixpoint insertion_loop (fuel : nat) (v : list spec_float) (tosort : list nat)
    (pl pi pr : Z) : list nat :=
  match fuel with
  | O => tosort
  | S fuel' =>
      if pi <=? pr then
        let vi := get tosort pi in
        let vp := nth vi v F64.zero in
        let '(tosort, pj) := shift_up (length tosort) v tosort vp pl pi in
        insertion_loop fuel' v (set tosort pj vi) pl (pi + 1) pr
      else tosort
  end.

Definition insertion_sort (v : list spec_float) (tosort : list nat) (pl pr : Z)
    : list nat :=
  insertion_loop (length tosort) v tosort pl (pl + 1) pr.

(** The sift loop of [aheapsort_]; [a = tosort + off] is indexed from 1. *)
Fixpoint sift (fuel : nat) (v : list spec_float) (tosort : list nat)
    (off : Z) (tmp : nat) (n i j : Z) : list nat :=
  match fuel with
  | O => set tosort (off + i) tmp
  | S fuel' =>
      if j <=? n then
        let j :=
          if (j <? n) && less (val v tosort (off + j)) (val v tosort (off + j + 1))
          then j + 1 else j in
        if less (nth tmp v F64.zero) (val v tosort (off + j)) then
          sift fuel' v (set tosort (off + i) (get tosort (off + j))) off tmp n j (j + j)
        else set tosort (off + i) tmp
      else set tosort (off + i) tmp
  end.

(** [for (l = n >> 1; l > 0; --l) { ... }] *)
Fixpoint heapify (fuel : nat) (v : list spec_float) (tosort : list nat)
    (off n l : Z) : list nat :=
  match fuel with
  | O => tosort
  | S fuel' =>
      if 0 <? l then
        let tmp := get tosort (off + l) in
        heapify fuel' v (sift (length tosort) v tosort off tmp n l (Z.shiftl l 1)) off n (l - 1)
      else tosort
  end.

(** [for (; n > 1;) { ... }] *)
Fixpoint extract (fuel : nat) (v : list spec_float) (tosort : list nat)
    (off n : Z) : list nat :=
  match fuel with
  | O => tosort
  | S fuel' =>
      if 1 <? n then
        let tmp := get tosort (off + n) in
        let tosort := set tosort (off + n) (get tosort (off + 1)) in
        let n := n - 1 in
        extract fuel' v (sift (length tosort) v tosort off tmp n 1 2) off n
      else tosort
  end.

(** [aheapsort_(vv, pl, n)] *)
Definition aheapsort (v : list spec_float) (tosort : list nat) (pl n : Z) : list nat :=
  let off := pl - 1 in
  let tosort := heapify (length tosort) v tosort off n (Z.shiftr n 1) in
  extract (length tosort) v tosort off n.

(** The outer [while (1)] loop: one range per turn, until the stack is
    empty. *)
Fixpoint sort_loop (fuel : nat) (v : list spec_float) (tosort : list nat)
    (pl pr cdepth : Z) (stack : list range) : option (list nat) :=
  match fuel with
  | O => None
  | S fuel' =>
      let '(tosort, stack) :=
        if cdepth <? 0 then (aheapsort v tosort pl (pr - pl + 1), stack)
        else
          let '(tosort, pl, pr, stack) :=
            partition_loop (length tosort) v tosort pl pr cdepth stack in
          (insertion_sort v tosort pl pr, stack) in
      match stack with
      | [] => Some tosort
      | (pl, pr, cdepth) :: stack => sort_loop fuel' v tosort pl pr cdepth stack
      end
  end.

(** [aquicksort_(vv, tosort, num)], with [tosort] holding [0 .. num-1] as
    [argsort] sets it up.  There are at most [num] ranges, so the loop
    has turns to spare. *)
Definition aquicksort (v : list spec_float) : option (list nat) :=
  let num := Z.of_nat (length v) in
  sort_loop (S (length v)) v (seq 0 (length v)) 0 (num - 1) (npy_get_msb num * 2) [].

(** [v.argsort(kind='quicksort')] *)
Definition argsort (v : list spec_float) : list nat :=
  default (seq 0 (length v)) (aquicksort v).

End numpy.

(** Rows of the report of [analyze_seller_repurchase]. *)
Module Report.
Record row := mk {
  Seller : cell;
  TotalCustomers : Z;
  RepurchasingCustomers : Z;
  RepurchaseRate : spec_float;
  TotalRevenue : spec_float
}.
End Report.

Fixpoint ts_fold (f : Z -> Z -> Z) (acc : option Z) (vs : list cell) : option Z :=
  match vs with
  | [] => acc
  | Ts t :: vs' => ts_fold f (Some (match acc with Some a => f a t | None => t end)) vs'
  | _ :: vs' => ts_fold f acc vs'
  end.

(** [min] and [max] of a datetime column; [None] is [NaT]. *)
Definition ts_min (vs : list cell) : option Z := ts_fold Z.min None vs.
Definition ts_max (vs : list cell) : option Z := ts_fold Z.max None vs.

Definition ts_cell (o : option Z) : cell :=
  match o with
  | Some t => Ts t
  | None => NA
  end.

(** [(b - a).dt.days] *)
Definition days_between (a b : option Z) : option Z :=
  match a, b with
  | Some x, Some y => Some ((y - x) / ns_per_day)
  | _, _ => None
  end.

(** [x.fillna(0)] on one float. *)
Definition nan_to_zero (x : spec_float) : spec_float :=
  if F64.is_nan x then F64.zero else x.

(** [a / b * 100] *)
Definition percent (a b : spec_float) : spec_float :=
  F64.mul (F64.div a b) F64.hundred.

(* ===================================================================== *)
(** * The scripts *)
(* ===================================================================== *)

Section Scripts.

(** Two library functions are left abstract: how Python prints a float or
    a date ([str(x)], used by [astype(str)]), and how [pd.to_datetime]
    reads a date string ([None] when it raises). *)
Variable py_repr : cell -> string.
Variable parse_datetime : string -> option Z.

Definition py_str (c : cell) : string :=
  match c with
  | Str x => x
  | Int z => str_of_Z z
  | NA => "nan"
  | Num f => if F64.is_nan f then "nan" else py_repr c
  | Ts _ | Day _ => py_repr c
  end.

(** [s.astype(str)] *)
Definition astype_str (s : Series) : Series :=
  mkSeries object (map (fun c => Str (py_str c)) (values s)).

(** [pd.to_datetime(s)] on a column of date strings, missing values or
    instants; number cells are outside the modelled inputs. *)
Definition to_datetime_cell (c : cell) : result cell :=
  match c with
  | Str x =>
      match parse_datetime x with
      | Some t => Ok (Ts t)
      | None => Raise ValueError
      end
  | NA => Ok NA
  | Ts t => Ok (Ts t)
  | Int _ | Num _ | Day _ => Raise TypeError
  end.

Definition to_datetime (s : Series) : result Series :=
  vs ← traverse to_datetime_cell (values s);
  mret (mkSeries datetime64 vs).

(** ** [eda_script.py]: [calculate_repurchase] *)

Definition calculate_repurchase : M DataFrame :=
  has_contact ← contains "주문자연락처";
  has_date ← contains "주문일";
  if negb has_contact || negb has_date then
    reading Ok
  else
    d ← getitem "주문일";
    day ← lift (dt_date d);
    setitem "OrderDate" day;;
    reading (fun df =>
      sorted ← sort_values2 "주문자연락처" "OrderDate" df;
      repurchase_columns "OrderDate" "재구매 횟수" sorted).

(** ** [app.py]: [load_data] *)

Definition price_cols : list string :=
  ["결제금액"; "주문취소 금액"; "실결제 금액"; "판매단가"; "공급가 총합"].

(** One round of the loop over [price_cols]. *)
Definition clean_price_col (df : DataFrame) (col : string) : result DataFrame :=
  match columns df !! col with
  | Some s =>
      if bool_decide (dtype s = object) then
        s' ← astype_float (str_replace_commas s);
        mret (assign col s' df)
      else Ok df
  | None => Ok df
  end.

Fixpoint for_each {A S} (body : S -> A -> result S) (l : list A) (s : S) : result S :=
  match l with
  | [] => Ok s
  | x :: l' => s' ← body s x; for_each body l' s'
  end.

(** The argument is the frame [pd.read_csv] returns, [None] when the file
    does not exist. *)
Definition load_data (file : option DataFrame) : result (option DataFrame) :=
  match file with
  | None => Ok None
  | Some df =>
      df ← (if has_column df "주문일" then
              d ← column df "주문일";
              order_date ← to_datetime d;
              let df := assign "OrderDate" order_date df in
              day ← dt_date order_date;
              mret (assign "Date" day df)
            else Ok df);
      df ← for_each clean_price_col price_cols df;
      df ← (if has_column df "주문자연락처" && has_column df "OrderDate" then
              sorted ← sort_values2 "주문자연락처" "Date" df;
              repurchase_columns "Date" "RepurchaseCount" sorted
            else Ok df);
      mret (Some df)
  end.

(** ** [app.py]: [calculate_seller_metrics] *)

(** Lines 87-91: the paid amount made numeric. *)
Definition clean_paid_amount : M unit :=
  has_paid ← contains "실결제 금액";
  if has_paid : bool then
    s ← getitem "실결제 금액";
    (if bool_decide (dtype s = object) then
       setitem "실결제 금액" (str_replace_non_numeric (astype_str s))
     else skip);;
    s ← getitem "실결제 금액";
    setitem "실결제 금액" (fillna0 (to_numeric_coerce s))
  else skip.

(** Lines 94-102: supply cost and margin per row. *)
Definition derive_margin : M unit :=
  has_supply ← contains "공급단가";
  if has_supply : bool then
    sp ← getitem "공급단가";
    let supply_price_clean :=
      fillna0 (to_numeric_coerce (str_replace_non_numeric (astype_str sp))) in
    qty ← getitem "주문수량";
    cost ← lift (series_binop F64.mul supply_price_clean qty);
    setitem "SupplyCost" cost;;
    paid ← getitem "실결제 금액";
    cost ← getitem "SupplyCost";
    margin ← lift (series_binop F64.sub paid cost);
    setitem "Margin" margin
  else setitem_scalar "Margin" int64 (Int 0).

(** Line 104: [1 if x == 'Y' else 0] on every row, or the scalar 0. *)
Definition is_cancelled (x : cell) : cell :=
  if bool_decide (x = Str "Y") then Int 1 else Int 0.

(** [s.apply(f)] for an [f] that returns integers: an int64 column;
    an empty column comes back with the dtype it has. *)
Definition apply_int (f : cell -> cell) (s : Series) : Series :=
  mkSeries match values s with [] => dtype s | _ :: _ => int64 end (map f (values s)).

Definition flag_cancelled : M unit :=
  has_flag ← contains "취소여부";
  if has_flag : bool then
    flag ← getitem "취소여부";
    setitem "IsCancelled" (apply_int is_cancelled flag)
  else setitem_scalar "IsCancelled" int64 (Int 0).

(** Lines 85-104: the cleaning, which assigns columns of the argument. *)
Definition clean_and_derive : M unit :=
  clean_paid_amount;; derive_margin;; flag_cancelled.

(** Lines 124-131: the rate of one seller. *)
Definition repurchase_rate (sellers contacts : list cell) (k : cell) : spec_float :=
  let user_counts := value_counts (select (eq_scalar sellers k) contacts) in
  let total_users := Z.of_nat (length user_counts) in
  let re_users := Z.of_nat (length (List.filter (fun kv => 1 <? snd kv) user_counts)) in
  if 0 <? total_users then percent (F64.of_Z re_users) (F64.of_Z total_users)
  else F64.zero.

(** One row of [seller_stats]: the aggregation of the rows of seller [k]
    (lines 107-113), the derived rates (116-119), the repurchase rate
    (123-134) and the lifecycle columns (137-154).  [contacts] and
    [order_date] are [None] when the column is absent. *)
Definition seller_row (sellers paid margin order_id qty cancelled : list cell)
    (contacts order_date : option (list cell)) (k : cell) : result SellerRow :=
  let rows := eq_scalar sellers k in
  total_revenue ← sum_float64 (select rows paid);
  total_margin ← sum_float64 (select rows margin);
  let order_count := nunique (select rows order_id) in
  total_qty ← sum_float64 (select rows qty);
  let cancel_count := sum_int64 (select rows cancelled) in
  let margin_rate := nan_to_zero (percent total_margin total_revenue) in
  let cancel_rate := percent (F64.of_Z cancel_count) (F64.of_Z order_count) in
  let aov := F64.div total_revenue (F64.of_Z order_count) in
  let rate :=
    match contacts with
    | Some cs => repurchase_rate sellers cs k
    | None => F64.zero
    end in
  mret
    match order_date with
    | Some od =>
        let first := ts_min (select rows od) in
        let last := ts_max (select rows od) in
        let max_date := ts_max od in
        mkSellerRow k total_revenue total_margin order_count total_qty cancel_count
          margin_rate cancel_rate aov rate (ts_cell first) (ts_cell last)
          ((fun d => d + 1) <$> days_between first last)
          (days_between last max_date)
    | None =>
        mkSellerRow k total_revenue total_margin order_count total_qty cancel_count
          margin_rate cancel_rate aov rate NA NA (Some 0) (Some 0)
    end.

Definition optional_column (df : DataFrame) (c : string) : option (list cell) :=
  values <$> columns df !! c.

(** Lines 107-154 on the cleaned frame. *)
Definition summarize (df : DataFrame) : result (list SellerRow) :=
  sellers ← column df "셀러명";
  paid ← column df "실결제 금액";
  margin ← column df "Margin";
  order_id ← column df "주문번호";
  qty ← column df "주문수량";
  cancelled ← column df "IsCancelled";
  order_date ←
    match columns df !! "OrderDate" with
    | Some od =>
        if bool_decide (dtype od = datetime64) then Ok (Some (values od))
        else Raise TypeError
    | None => Ok None
    end;
  traverse
    (seller_row (values sellers) (values paid) (values margin) (values order_id)
       (values qty) (values cancelled) (optional_column df "주문자연락처") order_date)
    (group_keys (values sellers)).

(** Everything before the final [sort_values]. *)
Definition seller_stats : M (list SellerRow) :=
  clean_and_derive;;
  reading summarize.

(** The body of [calculate_seller_metrics] (lines 85-156) on [df] leaves
    the frame as [df'] and returns [out], whatever order the final sort
    gives to rows of equal revenue. *)
Definition calculate_seller_metrics (df df' : DataFrame) (out : result (list SellerRow)) : Prop :=
  match seller_stats df with
  | (d, Ok stats) =>
      df' = d /\ exists rows, out = Ok rows /\ sort_values_desc TotalRevenue stats rows
  | (d, Raise e) => df' = d /\ out = Raise e
  end.

(** The same body, run with [argsort] as the kernel of the final sort:
    the frame it leaves and what it returns. *)
Definition calculate_seller_metrics_with (argsort : list spec_float -> list nat)
    (df : DataFrame) : DataFrame * result (list SellerRow) :=
  match seller_stats df with
  | (d, Ok stats) => (d, Ok (sort_values_by_desc argsort TotalRevenue stats))
  | (d, Raise e) => (d, Raise e)
  end.

(** Line 83: the function is decorated with [@st.cache_data].  Streamlit
    hashes the argument before the call ([digest]); when a value is
    stored under that key the body does not run, the argument is left as
    it is and a copy of the stored value is returned; otherwise the body
    runs on the caller's frame and the value it returns is stored.  An
    exception is passed on and nothing is stored. *)
Definition cached_calculate_seller_metrics (digest : DataFrame -> string)
    (cache : gmap string (list SellerRow)) (df : DataFrame)
    (cache' : gmap string (list SellerRow)) (df' : DataFrame)
    (out : result (list SellerRow)) : Prop :=
  match cache !! digest df with
  | Some rows => cache' = cache /\ df' = df /\ out = Ok rows
  | None =>
      calculate_seller_metrics df df' out /\
      cache' = match out with
               | Ok rows => <[digest df := rows]> cache
               | Raise _ => cache
               end
  end.

(** ** [seller_repurchase_analysis.py]: [analyze_seller_repurchase] *)

Definition required_cols : list string :=
  ["셀러명"; "주문자연락처"; "Date"; "실결제 금액"].

(** Lines 52-74: the body of the loop over sellers. *)
Definition report_row (sellers contacts dates : list cell) (paid : Series) (k : cell)
    : result Report.row :=
  let rows := eq_scalar sellers k in
  let total_customers := nunique (select rows contacts) in
  let customer_date_counts :=
    groupby_nunique (select rows contacts) (select rows dates) in
  let repurchasing_customers :=
    Z.of_nat (length (List.filter (fun kv => 1 <? snd kv) customer_date_counts)) in
  let repurchase_rate :=
    if 0 <? total_customers
    then percent (F64.of_Z repurchasing_customers) (F64.of_Z total_customers)
    else F64.zero in
  amounts ← astype_float
    (str_replace_commas (astype_str (mkSeries (dtype paid) (select rows (values paid)))));
  total_revenue ← sum_float64 (values amounts);
  mret (Report.mk k total_customers repurchasing_customers repurchase_rate total_revenue).

(** The function prints and plots its [results]; the model returns them,
    [None] when it returns early.  Lines 76-87 build the report frame
    from [results], select its sellers with ten customers or more and
    sort it for the two printed tables: a frame built from the empty list
    has no column, and line 79 reads ['TotalCustomers'].  (The chart of
    lines 89-96 is not modelled.) *)
Definition analyze_seller_repurchase (file : option DataFrame)
    : result (option (list Report.row)) :=
  match file with
  | None => Ok None
  | Some df =>
      if has_column df "주문일" then
        d ← column df "주문일";
        order_date ← to_datetime d;
        let df := assign "OrderDate" order_date df in
        day ← dt_date order_date;
        let df := assign "Date" day df in
        if forallb (has_column df) required_cols then
          sellers ← column df "셀러명";
          contacts ← column df "주문자연락처";
          dates ← column df "Date";
          paid ← column df "실결제 금액";
          results ← traverse
            (report_row (values sellers) (values contacts) (values dates) paid)
            (unique (values sellers));
          match results with
          | [] => Raise (KeyError "TotalCustomers")
          | _ :: _ => mret (Some results)
          end
        else Ok None
      else Ok None
  end.

End Scripts.

(* ===================================================================== *)
(** * Vocabulary of the specification *)
(* ===================================================================== *)

(** The columns [calculate_seller_metrics] assigns in its argument. *)
Definition assigned_columns : list string :=
  ["실결제 금액"; "SupplyCost"; "Margin"; "IsCancelled"].

(** What lines 89-91 leave in the paid-amount column. *)
Definition cleaned_paid_amount (py_repr : cell -> string) (s : Series) : Series :=
  fillna0 (to_numeric_coerce
    (if bool_decide (dtype s = object)
     then str_replace_non_numeric (astype_str py_repr s) else s)).

(** What line 104 assigns to [IsCancelled]. *)
Definition cancelled_column (df : DataFrame) : Series :=
  match columns df !! "취소여부" with
  | Some flag => apply_int is_cancelled flag
  | None => broadcast int64 (Int 0) (nrows df)
  end.

(** The number of rows of the table whose seller is [k] and whose cell in
    the second column is [c]. *)
Definition rows_with (ks vs : list cell) (k c : cell) : nat :=
  length (List.filter (fun p => bool_decide (p = (k, c))) (zip ks vs)).

(** A number or a missing value. *)
Definition numeric (c : cell) : bool :=
  match c with
  | Int _ | Num _ | NA => true
  | Str _ | Ts _ | Day _ => false
  end.

(** The columns the aggregation reads are there, and the quantities are
    numbers or missing. *)
Definition aggregable (df : DataFrame) : Prop :=
  is_Some (columns df !! "셀러명") /\
  is_Some (columns df !! "실결제 금액") /\
  is_Some (columns df !! "주문번호") /\
  exists qty, columns df !! "주문수량" = Some qty /\ forallb numeric (values qty) = true.

(** The count the annotators attach to a row with customer identity [c],
    [ks] and [ds] being the identity and date columns. *)
Definition annotation (ks ds : list cell) (c : cell) : cell :=
  fillna0_astype_int
    (minus_one
       match assoc c (groupby_nunique ks ds) with
       | Some n => Int n
       | None => NA
       end).

(** [K'], [D'], [C'] (identity, date and count columns of the annotated
    frame) annotate the table with identity column [K] and date column
    [D]: the rows are those of the table in some order; a row without
    identity carries 0; a row with identity [c] carries the number of
    distinct non-missing dates of [c] minus 1, which is not negative when
    some row of [c] has a date. *)
Definition annotated (K D K' D' C' : list cell) : Prop :=
  zip K' D' ≡ₚ zip K D /\
  length C' = length K' /\
  forall i c, K' !! i = Some c ->
    (isna c = true -> C' !! i = Some (Int 0)) /\
    (isna c = false ->
     forall ds, NoDup ds ->
       (forall d, d ∈ ds <-> notna d = true /\ (c, d) ∈ zip K D) ->
       C' !! i = Some (Int (Z.of_nat (length ds) - 1))) /\
    (isna c = false ->
     forall d, notna d = true -> (c, d) ∈ zip K D ->
       exists n, C' !! i = Some (Int n) /\ 0 <= n).

(** The order dates on the rows of seller [k] and customer [c]. *)
Definition dates_with (sellers contacts dates : list cell) (k c : cell) : list cell :=
  map snd
    (List.filter (fun p => bool_decide (fst p = (k, c)))
       (zip (zip sellers contacts) dates)).

(** ** The claims of the specification that the code does not satisfy,
    as the specification states them *)

(** §4.3: "No side effects; pure function of the input table": the table
    handed to the aggregator is the same after the call, whatever the
    cache holds. *)
Definition spec_no_side_effects (digest : DataFrame -> string)
    (py_repr : cell -> string) (df : DataFrame) : Prop :=
  forall cache cache' df' out,
    cached_calculate_seller_metrics py_repr digest cache df cache' df' out -> df' = df.

(** [a] stands at an earlier position of [l] than [b]. *)
Definition comes_before {A} (a b : A) (l : list A) : Prop :=
  exists i j, (i < j)%nat /\ l !! i = Some a /\ l !! j = Some b.

(** §8: "seller summary output is sorted by [TotalRevenue] descending;
    ties retain stable relative order", the order before sorting being
    that of [seller_stats] and the sort running with the kernel
    [argsort]. *)
Definition spec_sorted_stable (argsort : list spec_float -> list nat)
    (py_repr : cell -> string) (df : DataFrame) : Prop :=
  forall df' stats out,
    seller_stats py_repr df = (df', Ok stats) ->
    calculate_seller_metrics_with py_repr argsort df = (df', Ok out) ->
    (forall a b, comes_before a b out ->
       F64.geb (TotalRevenue a) (TotalRevenue b) = true) /\
    (forall a b, TotalRevenue a = TotalRevenue b ->
       comes_before a b stats -> comes_before a b out).

(** What [nargsort] relies on: on keys without NaN, [argsort] returns the
    positions of the keys, each once, no key followed by a smaller
    one. *)
Definition argsort_ok (argsort : list spec_float -> list nat) : Prop :=
  forall v, Forall (fun x => F64.is_nan x = false) v ->
    argsort v ≡ₚ seq 0 (length v) /\
    Sorted (fun p q => F64.geb (nth q v F64.zero) (nth p v F64.zero) = true) (argsort v).

(** A kernel that keeps the order of equal keys ([kind='stable']). *)
Definition argsort_stable (v : list spec_float) : list nat :=
  snd <$> sort_by (fun p q => F64.geb (fst q) (fst p)) (zip v (seq 0 (length v))).

(* ===================================================================== *)
(** * Example tables *)
(* ===================================================================== *)

Definition frame (n : nat) (cols : list (string * Series)) : DataFrame :=
  mkFrame n (list_to_map cols).

(** Instances of the two abstract library functions for the examples,
    whose tables hold no float cell and no date string. *)
Definition repr0 : cell -> string := fun _ => "nan".
Definition parse0 : string -> option Z := fun _ => None.

(** Seller A sells at cost; seller B was paid nothing for goods that cost
    500; the rows of seller C carry no order id. *)
Definition rates_table : DataFrame :=
  frame 3
    [("셀러명", mkSeries object [Str "A"; Str "B"; Str "C"]);
     ("실결제 금액", mkSeries object [Str "1,000"; Str "0"; Str "0"]);
     ("공급단가", mkSeries object [Str "500"; Str "500"; Str "0"]);
     ("주문수량", mkSeries int64 [Int 2; Int 1; Int 1]);
     ("주문번호", mkSeries object [Str "o1"; Str "o2"; NA])].

(** A digest that tells no two tables apart. *)
Definition digest0 : DataFrame -> string := fun _ => "".

(** Sellers A to X, one order each, with revenues of 100, 200 and 300. *)
Definition ties_table : DataFrame :=
  frame 24
    [("셀러명", mkSeries object
        (Str <$> ["A"; "B"; "C"; "D"; "E"; "F"; "G"; "H"; "I"; "J"; "K"; "L";
                  "M"; "N"; "O"; "P"; "Q"; "R"; "S"; "T"; "U"; "V"; "W"; "X"]));
     ("실결제 금액", mkSeries int64
        (Int <$> [300; 100; 200; 100; 300; 200; 200; 100; 300; 300; 100; 200;
                  100; 200; 300; 100; 300; 200; 200; 300; 100; 100; 200; 300]));
     ("주문수량", mkSeries int64 (replicate 24 (Int 1)));
     ("주문번호", mkSeries object
        (Str <$> ["o01"; "o02"; "o03"; "o04"; "o05"; "o06"; "o07"; "o08";
                  "o09"; "o10"; "o11"; "o12"; "o13"; "o14"; "o15"; "o16";
                  "o17"; "o18"; "o19"; "o20"; "o21"; "o22"; "o23"; "o24"]))].

(** One customer, one seller, one order of two line items placed on a
    single day (at 09:00 and at 10:00 of day 19723). *)
Definition same_day_table : DataFrame :=
  frame 2
    [("셀러명", mkSeries object [Str "X"; Str "X"]);
     ("주문자연락처", mkSeries object [Str "010-1234-5678"; Str "010-1234-5678"]);
     ("주문일", mkSeries datetime64
        [Ts (19723 * ns_per_day + 9 * 3600 * 10 ^ 9);
         Ts (19723 * ns_per_day + 10 * 3600 * 10 ^ 9)]);
     ("실결제 금액", mkSeries object [Str "6,000"; Str "4,000"]);
     ("주문수량", mkSeries int64 [Int 1; Int 1]);
     ("주문번호", mkSeries object [Str "o1"; Str "o1"])].

(** A price column with a thousands separator, and one with a cell that
    is not a number. *)
Definition price_table : DataFrame :=
  frame 1 [("결제금액", mkSeries object [Str "12,345"])].

Definition bad_price_table : DataFrame :=
  frame 2 [("결제금액", mkSeries object [Str "12,345"; Str "abc"])].

(** A customer whose only order has no date. *)
Definition undated_table : DataFrame :=
  frame 1
    [("주문자연락처", mkSeries object [Str "A"]);
     ("주문일", mkSeries datetime64 [NA])].

(** §8 scenario: customer A orders twice on day 19723, customer B on
    days 19723 and 19754; a last row has no customer identity. *)
Definition two_customers_table : DataFrame :=
  frame 5
    [("주문자연락처", mkSeries object [Str "B"; Str "A"; NA; Str "A"; Str "B"]);
     ("주문일", mkSeries datetime64
        [Ts (19754 * ns_per_day); Ts (19723 * ns_per_day);
         Ts (19723 * ns_per_day); Ts (19723 * ns_per_day + 3600 * 10 ^ 9);
         Ts (19723 * ns_per_day)])].

(** Seller X with orders at noon of day 19723 and in the morning of day
    19726, seller Y with one order on day 19730. *)
Definition lifecycle_table : DataFrame :=
  frame 3
    [("셀러명", mkSeries object [Str "X"; Str "Y"; Str "X"]);
     ("실결제 금액", mkSeries float64
        [Num (F64.of_Z 300); Num (F64.of_Z 100); Num (F64.of_Z 200)]);
     ("주문수량", mkSeries int64 [Int 1; Int 1; Int 1]);
     ("주문번호", mkSeries object [Str "o1"; Str "o2"; Str "o3"]);
     ("OrderDate", mkSeries datetime64
        [Ts (19723 * ns_per_day + 12 * 3600 * 10 ^ 9);
         Ts (19730 * ns_per_day);
         Ts (19726 * ns_per_day + 9 * 3600 * 10 ^ 9)])].

(** One seller with a cancelled row, a row flagged ["N"], a row flagged
    with a lower-case ["y"] and a row without flag. *)
Definition cancel_table : DataFrame :=
  frame 4
    [("셀러명", mkSeries object [Str "X"; Str "X"; Str "X"; Str "X"]);
     ("실결제 금액", mkSeries object [Str "100"; Str "100"; Str "100"; Str "100"]);
     ("주문수량", mkSeries int64 [Int 1; Int 1; Int 1; Int 1]);
     ("주문번호", mkSeries object [Str "o1"; Str "o2"; Str "o3"; Str "o4"]);
     ("취소여부", mkSeries object [Str "Y"; Str "N"; Str "y"; NA])].

(* ===================================================================== *)
(** * Auxiliary definitions of the proofs *)
(* ===================================================================== *)

(** A key whose lexicographic order is the order of the floats. *)
Definition float_key (x : spec_float) : Z * Z * Z :=
  match x with
  | S754_infinity true => (-2, 0, 0)
  | S754_finite true m e => (-1, - e, - Z.pos m)
  | S754_zero _ | S754_nan => (0, 0, 0)
  | S754_finite false m e => (1, e, Z.pos m)
  | S754_infinity false => (2, 0, 0)
  end.

Definition key_ge (a b : Z * Z * Z) : Prop :=
  let '(a1, a2, a3) := a in
  let '(b1, b2, b3) := b in
  b1 < a1 \/ (a1 = b1 /\ (b2 < a2 \/ (a2 = b2 /\ b3 <= a3))).

(** [desc_step] as a test. *)
Definition desc_leb (a b : spec_float) : bool :=
  F64.is_nan b || (negb (F64.is_nan a) && F64.geb a b).

Definition all_numeric (vs : list cell) : Prop :=
  forall c, c ∈ vs -> numeric c = true.

(* ===================================================================== *)
(** * [eda_script.py]: regions, preprocessing and the customer insight *)
(* ===================================================================== *)

(** [int(s)] on a string: white space, a sign, decimal digits with single
    underscores between them; [None] is a [ValueError].  (Strings are
    read as ASCII.) *)
Definition parse_int (s : string) : option Z :=
  let '(neg, l) := scan_sign (strip_spaces (chars s)) in
  let '(ds, r) := scan_digits true false l in
  match ds, r with
  | _ :: _, [] => Some (if neg then - digits_value ds else digits_value ds)
  | _, _ => None
  end.

(** [int(f)] on a float truncates towards zero and raises on NaN and on
    the infinities. *)
Definition trunc_float (f : spec_float) : option Z :=
  match f with
  | S754_zero _ => Some 0
  | S754_finite s m e =>
      let v := if 0 <=? e then Zpos m * 2 ^ e else Zpos m / 2 ^ (- e) in
      Some (if s then - v else v)
  | S754_infinity _ | S754_nan => None
  end.

(** [int(x)] on the value of a cell; [None] when it raises. *)
Definition py_int (c : cell) : option Z :=
  match c with
  | Int z => Some z
  | Num f => trunc_float f
  | Str s => parse_int s
  | NA | Ts _ | Day _ => None
  end.

(** [s.zfill(width)]: zeros on the left, after a leading sign. *)
Definition zfill (width : nat) (s : string) : string :=
  let l := chars s in
  let pad := replicate (width - length l) "0"%char in
  match l with
  | c :: l' =>
      if Ascii.eqb c "-" || Ascii.eqb c "+" then text (c :: pad ++ l')
      else text (pad ++ l)
  | [] => text pad
  end.

(** [s[:n]] *)
Definition prefix_chars (n : nat) (s : string) : string :=
  text (firstn n (chars s)).

(** Lines 24-41: the table of two-digit prefixes. *)
Definition region_of_prefix (prefix : Z) : string :=
  if (1 <=? prefix) && (prefix <=? 9) then "서울"
  else if (10 <=? prefix) && (prefix <=? 20) then "경기"
  else if (21 <=? prefix) && (prefix <=? 23) then "인천"
  else if (24 <=? prefix) && (prefix <=? 26) then "강원"
  else if (27 <=? prefix) && (prefix <=? 29) then "충북"
  else if prefix =? 30 then "세종"
  else if (31 <=? prefix) && (prefix <=? 33) then "충남"
  else if (34 <=? prefix) && (prefix <=? 35) then "대전"
  else if (36 <=? prefix) && (prefix <=? 39) then "경북"
  else if (40 <=? prefix) && (prefix <=? 43) then "대구"
  else if (44 <=? prefix) && (prefix <=? 45) then "울산"
  else if (46 <=? prefix) && (prefix <=? 49) then "부산"
  else if (50 <=? prefix) && (prefix <=? 53) then "경남"
  else if (54 <=? prefix) && (prefix <=? 56) then "전북"
  else if (57 <=? prefix) && (prefix <=? 60) then "전남"
  else if (61 <=? prefix) && (prefix <=? 62) then "광주"
  else if prefix =? 63 then "제주"
  else "기타".

(** The [try] block returns a region; every exception inside it is
    caught and gives ["Unknown"]. *)
Definition get_region_from_zipcode (zipcode : cell) : string :=
  match py_int zipcode with
  | Some z =>
      let zipcode := zfill 5 (str_of_Z z) in
      match parse_int (prefix_chars 2 zipcode) with
      | Some prefix => region_of_prefix prefix
      | None => "Unknown"
      end
  | None => "Unknown"
  end.

(** [s.apply(get_region_from_zipcode)] *)
Definition map_regions (s : Series) : Series :=
  mkSeries object (map (fun c => Str (get_region_from_zipcode c)) (values s)).

(** [s.fillna('Unknown')]: a column that had missing values holds
    objects afterwards. *)
Definition fillna_unknown (s : Series) : Series :=
  mkSeries (if forallb notna (values s) then dtype s else object)
    (map (fun c => if isna c then Str "Unknown" else c) (values s)).

Definition cat_cols : list string := ["주문경로"; "감귤 세부"; "품종"].

Definition fill_cat_col (df : DataFrame) (col : string) : DataFrame :=
  match columns df !! col with
  | Some s => assign col (fillna_unknown s) df
  | None => df
  end.

(** Lines 104-114. *)
Definition map_region_columns (df : DataFrame) : DataFrame :=
  match columns df !! "우편번호" with
  | Some z =>
      let df := assign "MappedRegion" (map_regions z) df in
      match columns df !! "MappedRegion" with
      | Some mapped => assign "광역지역" mapped df
      | None => df
      end
  | None => df
  end.

(** [s > 0] on a column of numbers. *)
Definition gt_zero (c : cell) : result bool :=
  match c with
  | Int z => Ok (0 <? z)
  | Num f => Ok (match SFcompare f F64.zero with Some Gt => true | _ => false end)
  | NA => Ok false
  | Str _ | Ts _ | Day _ => Raise TypeError
  end.

(** [df[df[count] > 0]['주문자연락처'].nunique()] *)
Definition repurchasing_customers (count : string) (df : DataFrame) : result Z :=
  rc ← column df count;
  mask ← traverse gt_zero (values rc);
  contact ← column df "주문자연락처";
  mret (nunique (select mask (values contact))).

(** What a run of straight-line code ends in: a value, a pandas
    exception, or the [ZeroDivisionError] of [/] on two integers. *)
Inductive outcome (A : Type) :=
| Returned (a : A)
| Raised (e : exn)
| ZeroDivisionError.

Arguments Returned {A} a.
Arguments Raised {A} e.
Arguments ZeroDivisionError {A}.

(** [main], lines 432-436: the number of customers, and with the
    annotation the number of repurchasing customers and their share. *)
Definition customer_insight (df : DataFrame)
    : outcome (Z * option (Z * spec_float)) :=
  match column df "주문자연락처" with
  | Raise e => Raised e
  | Ok contact =>
      let unique_customers := nunique (values contact) in
      if has_column df "재구매 횟수" then
        match repurchasing_customers "재구매 횟수" df with
        | Raise e => Raised e
        | Ok re_customers =>
            let total_customers := nunique (values contact) in
            if total_customers =? 0 then ZeroDivisionError
            else Returned (unique_customers,
                   Some (re_customers,
                         percent (F64.of_Z re_customers) (F64.of_Z total_customers)))
        end
      else Returned (unique_customers, None)
  end.

(* ===================================================================== *)
(** * [app.py]: the overview and the lifecycle counts *)
(* ===================================================================== *)

(** Lines 178-183: customers and the overall repurchase rate. *)
Definition overview_repurchase (df : DataFrame) : result (Z * spec_float) :=
  let total_users :=
    match columns df !! "주문자연락처" with
    | Some contact => nunique (values contact)
    | None => 0
    end in
  if has_column df "RepurchaseCount" && (0 <? total_users) then
    re_users ← repurchasing_customers "RepurchaseCount" df;
    mret (total_users, percent (F64.of_Z re_users) (F64.of_Z total_users))
  else Ok (total_users, F64.zero).

(** [s <= 30] and [s > 30] on [RecencyDays]; both are false on NaN. *)
Definition within_30 (d : option Z) : bool :=
  match d with
  | Some n => n <=? 30
  | None => false
  end.

Definition beyond_30 (d : option Z) : bool :=
  match d with
  | Some n => 30 <? n
  | None => false
  end.

(** Lines 550-552. *)
Definition active_count (metrics : list SellerRow) : Z :=
  Z.of_nat (length (List.filter (fun r => within_30 (RecencyDays r)) metrics)).

Definition churn_risk_count (metrics : list SellerRow) : Z :=
  Z.of_nat (length metrics) - active_count metrics.

(** Line 586, before the sort and [head(10)]. *)
Definition risk_sellers (metrics : list SellerRow) : list SellerRow :=
  List.filter (fun r => beyond_30 (RecencyDays r)) metrics.

Section Preprocessing.

Variable parse_datetime : string -> option Z.

(** [load_and_preprocess] on the frame [pd.read_csv] returns. *)
Definition load_and_preprocess (raw : DataFrame) : result DataFrame :=
  df ← (if has_column raw "주문일" then
          d ← column raw "주문일";
          t ← to_datetime parse_datetime d;
          mret (assign "주문일" t raw)
        else Ok raw);
  df ← for_each clean_price_col price_cols df;
  df ← snd (calculate_repurchase df);
  mret (fold_left fill_cat_col cat_cols (map_region_columns df)).

End Preprocessing.

(** ** Auxiliary definitions of the proofs about decimal text *)

(** The character of a decimal digit. *)
Definition digit_char (d : Z) : ascii := ascii_of_nat (Z.to_nat d + 48).

Definition is_decimal_digit (d : Z) : Prop := 0 <= d <= 9.

(** Every column of the frame has as many cells as the frame has rows. *)
Definition well_formed (df : DataFrame) : Prop :=
  forall c s, columns df !! c = Some s -> length (values s) = nrows df.

(** ** Further example tables *)

(** Three orders with postal codes: Busan, Seoul (the leading zero is
    lost in the integer 6234), Jeju; the region column of the file
    disagrees or is empty. *)
Definition postal_table : DataFrame :=
  frame 3
    [("주문자연락처", mkSeries object [Str "B"; Str "A"; Str "A"]);
     ("주문일", mkSeries datetime64
        [Ts (19754 * ns_per_day); Ts (19723 * ns_per_day); Ts (19730 * ns_per_day)]);
     ("우편번호", mkSeries int64 [Int 48000; Int 6234; Int 63000]);
     ("광역지역", mkSeries object [Str "서울"; NA; Str "제주"]);
     ("주문경로", mkSeries object [NA; Str "web"; Str "app"])].

(** An annotated table in which no row has a customer identity. *)
Definition anonymous_table : DataFrame :=
  frame 2
    [("주문자연락처", mkSeries object [NA; NA]);
     ("재구매 횟수", mkSeries int64 [Int 0; Int 0]);
     ("RepurchaseCount", mkSeries int64 [Int 0; Int 0])].

(** Customer A came back once, customer B did not. *)
Definition returning_table : DataFrame :=
  frame 3
    [("주문자연락처", mkSeries object [Str "A"; Str "A"; Str "B"]);
     ("RepurchaseCount", mkSeries int64 [Int 1; Int 1; Int 0])].

(** A file that was saved with an ['OrderDate'] column and without
    ['주문일']. *)
Definition stale_table : DataFrame :=
  frame 1
    [("주문자연락처", mkSeries object [Str "A"]);
     ("OrderDate", mkSeries object [Str "2024-01-01 09:00:00"])].

(** An order date that is no date. *)
Definition text_dates_table : DataFrame :=
  frame 1
    [("셀러명", mkSeries object [Str "X"]);
     ("주문자연락처", mkSeries object [Str "A"]);
     ("주문일", mkSeries object [Str "soon"]);
     ("실결제 금액", mkSeries object [Str "1,000"])].

(** A file with the columns of the report and no row. *)
Definition header_only_table : DataFrame :=
  frame 0
    [("셀러명", mkSeries object []);
     ("주문자연락처", mkSeries object []);
     ("주문일", mkSeries object []);
     ("실결제 금액", mkSeries object [])].

(** Two orders, the second without a seller name. *)
Definition nameless_table : DataFrame :=
  frame 2
    [("셀러명", mkSeries object [Str "X"; NA]);
     ("주문자연락처", mkSeries object [Str "A"; Str "B"]);
     ("주문일", mkSeries datetime64 [Ts (19723 * ns_per_day); Ts (19724 * ns_per_day)]);
     ("실결제 금액", mkSeries object [Str "1,000"; Str "2,000"])].

(* ===================================================================== *)
(** * Facts about binary64 arithmetic *)
(* ===================================================================== *)

Lemma iter_pos_invariant {A} (P : A -> Prop) (f : A -> A) :
  (forall x, P x -> P (f x)) -> forall p x, P x -> P (SpecFloat.iter_pos f p x).
Proof.
  intros Hf. induction p as [p IH|p IH|]; simpl; intros x Hx; auto.
Qed.

Lemma shr_1_nonneg mrs : 0 <= shr_m mrs -> 0 <= shr_m (shr_1 mrs).
Proof.
  destruct mrs as [m r s]. simpl.
  destruct m as [|[p|p|]|[p|p|]]; simpl; lia.
Qed.

Lemma shr_nonneg mrs e n : 0 <= shr_m mrs -> 0 <= shr_m (fst (shr mrs e n)).
Proof.
  intros H. destruct n as [|p|p]; simpl; try assumption.
  apply (iter_pos_invariant (fun x => 0 <= shr_m x)); [apply shr_1_nonneg|assumption].
Qed.

Lemma shr_record_of_loc_m m l : shr_m (shr_record_of_loc m l) = m.
Proof. destruct l as [|[]]; reflexivity. Qed.

Lemma shr_fexp_nonneg m e l :
  0 <= m -> 0 <= shr_m (fst (shr_fexp F64.prec F64.emax m e l)).
Proof.
  intros H. unfold shr_fexp. apply shr_nonneg. rewrite shr_record_of_loc_m. assumption.
Qed.

Lemma round_nearest_even_nonneg m l : 0 <= m -> 0 <= round_nearest_even m l.
Proof.
  intros H. destruct l as [|[]]; simpl; try assumption; try lia.
  destruct (Z.even m); lia.
Qed.

(** Rounding a non-negative mantissa never produces NaN. *)
Lemma binary_round_aux_not_nan s m e l :
  0 <= m -> F64.is_nan (binary_round_aux F64.prec F64.emax s m e l) = false.
Proof.
  intros H. unfold binary_round_aux.
  pose proof (shr_fexp_nonneg m e l H) as H1.
  destruct (shr_fexp F64.prec F64.emax m e l) as [mrs' e'].
  simpl in H1.
  pose proof (shr_fexp_nonneg _ e' loc_Exact
                (round_nearest_even_nonneg _ (loc_of_shr_record mrs') H1)) as H2.
  destruct (shr_fexp F64.prec F64.emax _ e' loc_Exact) as [mrs'' e''].
  simpl in H2.
  destruct (shr_m mrs'') as [|p|p]; [reflexivity| |lia].
  destruct (e'' <=? F64.emax - F64.prec); reflexivity.
Qed.

Lemma of_Z_not_nan z : F64.is_nan (F64.of_Z z) = false.
Proof.
  unfold F64.of_Z, binary_normalize, binary_round.
  destruct z as [|p|p]; [reflexivity| |];
    destruct (shl_align _ _ _) as [mz ez]; apply binary_round_aux_not_nan; lia.
Qed.

Lemma div_not_nan x y :
  F64.is_finite x = true -> F64.is_finite y = true -> F64.is_zero y = false ->
  F64.is_nan (F64.div x y) = false.
Proof.
  destruct x as [sx|sx| |sx mx ex], y as [sy|sy| |sy my ey];
    simpl; try discriminate; try reflexivity.
  intros _ _ _. unfold F64.div, SFdiv, SFdiv_core_binary.
  set (m' := match _ - _ - _ with Z0 => _ | Zpos _ => _ | Zneg _ => _ end).
  assert (0 <= m') as Hm'.
  { subst m'. destruct (_ - _ - _); try lia. apply Z.shiftl_nonneg. lia. }
  pose proof (Z.div_pos m' (Z.pos my) Hm' eq_refl) as Hq.
  unfold Z.div in Hq. destruct (Z.div_eucl m' (Z.pos my)) as [q r].
  apply binary_round_aux_not_nan. assumption.
Qed.

Lemma mul_hundred_not_nan x :
  F64.is_nan x = false -> F64.is_nan (F64.mul x F64.hundred) = false.
Proof.
  destruct x as [sx|sx| |sx mx ex]; simpl; try discriminate; try reflexivity.
  intros _. apply binary_round_aux_not_nan. lia.
Qed.

Lemma percent_not_nan x y :
  F64.is_finite x = true -> F64.is_finite y = true -> F64.is_zero y = false ->
  F64.is_nan (percent x y) = false.
Proof. intros. apply mul_hundred_not_nan, div_not_nan; assumption. Qed.

Lemma digits2_pos_iter_xO p k :
  Z.pos (digits2_pos (Pos.iter xO p k)) = Z.pos (digits2_pos p) + Z.pos k.
Proof.
  induction k as [|k IH] using Pos.peano_ind.
  - simpl. lia.
  - rewrite Pos.iter_succ. simpl. lia.
Qed.

Lemma digits2_pos_bound p n :
  0 <= n -> Z.pos p < 2 ^ n -> Z.pos (digits2_pos p) <= n.
Proof.
  revert n. induction p as [p IH|p IH|]; intros n Hn Hp; simpl.
  - assert (0 < n) by (destruct (Z.eq_dec n 0) as [->|]; [simpl in Hp|]; lia).
    replace n with (Z.succ (n - 1)) in Hp by lia. rewrite Z.pow_succ_r in Hp by lia.
    specialize (IH (n - 1)). lia.
  - assert (0 < n) by (destruct (Z.eq_dec n 0) as [->|]; [simpl in Hp|]; lia).
    replace n with (Z.succ (n - 1)) in Hp by lia. rewrite Z.pow_succ_r in Hp by lia.
    specialize (IH (n - 1)). lia.
  - destruct (Z.eq_dec n 0) as [->|]; [simpl in Hp|]; lia.
Qed.

(** An integer of at most 53 bits converts exactly, to a finite non-zero
    float. *)
Lemma of_Z_small_finite z :
  0 < z < 2 ^ 53 -> exists m e, F64.of_Z z = S754_finite false m e.
Proof.
  intros [Hz Hlt]. destruct z as [|p|p]; try lia.
  unfold F64.of_Z, binary_normalize, binary_round.
  pose proof (digits2_pos_bound p 53 ltac:(lia) Hlt) as Hd.
  set (d := Z.pos (digits2_pos p)) in *.
  assert (Hfexp : forall k, 1 <= k <= 53 ->
            fexp F64.prec F64.emax k = k - 53).
  { intros k Hk. unfold fexp, emin, F64.prec, F64.emax. lia. }
  assert (1 <= d) by (subst d; lia).
  rewrite Z.add_0_r, Hfexp by lia.
  unfold shl_align.
  assert (Haux : forall mz ez,
            Z.pos (digits2_pos mz) + ez = d -> ez = d - 53 ->
            binary_round_aux F64.prec F64.emax false (Z.pos mz) ez loc_Exact =
            S754_finite false mz ez).
  { intros mz ez Hdig Hez. unfold binary_round_aux, shr_fexp. simpl Zdigits2.
    rewrite Hdig, Hfexp by lia. rewrite <- Hez, Z.sub_diag. simpl.
    rewrite Hdig, Hfexp by lia. rewrite <- Hez, Z.sub_diag. simpl.
    destruct (Z.leb_spec ez (F64.emax - F64.prec)); [reflexivity|].
    unfold F64.emax, F64.prec in *. lia. }
  destruct (d - 53 - 0) as [|k|k] eqn:Hk; try lia.
  - eexists _, _. apply Haux; fold d; lia.
  - eexists _, _. apply Haux; [|reflexivity].
    rewrite digits2_pos_iter_xO. fold d. lia.
Qed.

(** ** The order of float64 values *)

Lemma geb_key x y :
  F64.is_nan x = false -> F64.is_nan y = false ->
  (F64.geb x y = true <-> key_ge (float_key x) (float_key y)).
Proof.
  unfold F64.geb.
  destruct x as [sx|sx| |sx mx ex], y as [sy|sy| |sy my ey];
    try discriminate; intros _ _;
    try destruct sx; try destruct sy; simpl;
    try change (Pos.compare_cont Eq mx my) with (Pos.compare mx my);
    try destruct (Z.compare_spec ex ey); try destruct (Pos.compare_spec mx my);
    simpl; split; intros; try lia; try reflexivity; try discriminate.
Qed.

Lemma key_ge_trans a b c : key_ge a b -> key_ge b c -> key_ge a c.
Proof.
  destruct a as [[a1 a2] a3], b as [[b1 b2] b3], c as [[c1 c2] c3].
  unfold key_ge. lia.
Qed.

Lemma key_ge_total a b : key_ge a b \/ key_ge b a.
Proof.
  destruct a as [[a1 a2] a3], b as [[b1 b2] b3]. unfold key_ge. lia.
Qed.

Lemma geb_nan_l x y : F64.geb x y = true -> F64.is_nan x = false.
Proof. destruct x; [reflexivity..|discriminate|reflexivity]. Qed.

Lemma geb_nan_r x y : F64.geb x y = true -> F64.is_nan y = false.
Proof. destruct x, y; try reflexivity; discriminate. Qed.

Lemma geb_trans x y z :
  F64.geb x y = true -> F64.geb y z = true -> F64.geb x z = true.
Proof.
  intros Hxy Hyz.
  pose proof (geb_nan_l _ _ Hxy). pose proof (geb_nan_l _ _ Hyz).
  pose proof (geb_nan_r _ _ Hyz).
  apply geb_key in Hxy, Hyz; try assumption.
  apply geb_key; try assumption. eapply key_ge_trans; eassumption.
Qed.

Lemma geb_total x y :
  F64.is_nan x = false -> F64.is_nan y = false ->
  F64.geb x y = true \/ F64.geb y x = true.
Proof.
  intros Hx Hy. rewrite !geb_key by assumption. apply key_ge_total.
Qed.

Lemma desc_step_trans a b c : desc_step a b -> desc_step b c -> desc_step a c.
Proof.
  intros Hab [Hc|[Hb Hbc]]; [left; assumption|].
  destruct Hab as [Hb'|[Ha Hab]]; [congruence|].
  right. split; [assumption|]. eapply geb_trans; eassumption.
Qed.

Lemma desc_step_total a b : desc_step a b \/ desc_step b a.
Proof.
  unfold desc_step.
  destruct (F64.is_nan a) eqn:Ha; [right; left; reflexivity|].
  destruct (F64.is_nan b) eqn:Hb; [left; left; reflexivity|].
  destruct (geb_total a b Ha Hb); auto.
Qed.

(** ** Sorting *)

Lemma insert_by_Permutation {A} (leb : A -> A -> bool) x l :
  insert_by leb x l ≡ₚ x :: l.
Proof.
  induction l as [|y l IH]; simpl; [reflexivity|].
  destruct (leb x y); [reflexivity|].
  rewrite IH. apply perm_swap.
Qed.

Lemma sort_by_Permutation {A} (leb : A -> A -> bool) l : sort_by leb l ≡ₚ l.
Proof.
  induction l as [|x l IH]; simpl; [reflexivity|].
  rewrite insert_by_Permutation, IH. reflexivity.
Qed.


(** ** Sorting in descending order is always possible *)

Lemma desc_leb_true a b : desc_leb a b = true -> desc_step a b.
Proof.
  unfold desc_leb, desc_step. intros [H|[H1 H2]%andb_true_iff]%orb_true_iff; [auto|].
  right. split; [|assumption]. apply negb_true_iff. assumption.
Qed.

Lemma desc_leb_false a b : desc_leb a b = false -> desc_step b a.
Proof.
  intros H. destruct (desc_step_total b a) as [|Hab]; [assumption|].
  exfalso. unfold desc_leb in H. apply orb_false_iff in H as [Hb H].
  destruct Hab as [Hb'|[Ha Hab]]; [congruence|].
  rewrite Ha, Hab in H. discriminate.
Qed.

Lemma insert_by_HdRel {A} (R : A -> A -> Prop) leb y x l :
  R y x -> HdRel R y l -> HdRel R y (insert_by leb x l).
Proof.
  intros Hyx Hl. destruct l as [|z l]; simpl; [constructor; assumption|].
  destruct (leb x z); constructor; [assumption|].
  inversion Hl; assumption.
Qed.

Lemma insert_by_Sorted {A} (R : A -> A -> Prop) leb x l :
  (forall a b, leb a b = true -> R a b) ->
  (forall a b, leb a b = false -> R b a) ->
  Sorted R l -> Sorted R (insert_by leb x l).
Proof.
  intros Ht Hf. induction 1 as [|y l Hs IH Hhd]; simpl.
  - repeat constructor.
  - destruct (leb x y) eqn:E.
    + constructor; [constructor; assumption|]. constructor. apply Ht, E.
    + constructor; [assumption|]. apply insert_by_HdRel; [apply Hf, E|assumption].
Qed.

Lemma sort_by_Sorted {A} (R : A -> A -> Prop) leb l :
  (forall a b, leb a b = true -> R a b) ->
  (forall a b, leb a b = false -> R b a) ->
  Sorted R (sort_by leb l).
Proof.
  intros Ht Hf. induction l as [|x l IH]; simpl; [constructor|].
  apply insert_by_Sorted; assumption.
Qed.

Lemma sort_values_desc_exists {A} (key : A -> spec_float) l :
  exists out, sort_values_desc key l out.
Proof.
  exists (sort_by (fun a b => desc_leb (key a) (key b)) l). split.
  - symmetry. apply sort_by_Permutation.
  - apply sort_by_Sorted.
    + intros a b. apply desc_leb_true.
    + intros a b. apply desc_leb_false.
Qed.

(** ** The final sort of the seller summary *)

Lemma Sorted_snoc {A} (R : A -> A -> Prop) l x :
  Sorted R l -> (forall a, last l = Some a -> R a x) -> Sorted R (l ++ [x]).
Proof.
  induction 1 as [|a l Hs IH Hd]; intros Hlast; simpl.
  - repeat constructor.
  - constructor.
    + apply IH. intros b Hb. apply Hlast. destruct l; [discriminate|exact Hb].
    + destruct Hd as [|b l' Hab]; simpl; constructor; [|assumption].
      apply Hlast. reflexivity.
Qed.

Lemma Sorted_rev {A} (R : A -> A -> Prop) l :
  Sorted R l -> Sorted (fun a b => R b a) (rev l).
Proof.
  induction 1 as [|a l Hs IH Hd]; simpl; [constructor|].
  apply Sorted_snoc; [assumption|].
  intros b Hb. destruct Hd as [|c l' Hac]; [discriminate|].
  simpl in Hb. rewrite last_app in Hb. simpl in Hb. injection Hb as <-. assumption.
Qed.

Lemma Sorted_app {A} (R : A -> A -> Prop) l1 l2 :
  Sorted R l1 -> Sorted R l2 -> (forall a b, a ∈ l1 -> b ∈ l2 -> R a b) ->
  Sorted R (l1 ++ l2).
Proof.
  induction 1 as [|a l Hs IH Hd]; intros H2 Hall; simpl; [assumption|].
  constructor.
  - apply IH; [assumption|]. intros x y Hx Hy. apply Hall; [right; assumption|assumption].
  - destruct Hd as [|b l' Hab]; simpl.
    + destruct l2 as [|b l2]; constructor. apply Hall; left.
    + constructor. assumption.
Qed.

Lemma Sorted_fmap {A B} (R : B -> B -> Prop) (f : A -> B) l :
  Sorted (fun a b => R (f a) (f b)) l <-> Sorted R (f <$> l).
Proof.
  induction l as [|a l IH]; simpl.
  - split; constructor.
  - split; intros H; inversion H as [|? ? Hs Hd]; subst; constructor;
      try (apply IH; assumption).
    + destruct Hd; simpl; constructor; assumption.
    + destruct l; simpl in *; inversion Hd; subst; constructor; assumption.
Qed.

Lemma Sorted_impl {A} (P : A -> Prop) (R R' : A -> A -> Prop) l :
  (forall a b, P a -> P b -> R a b -> R' a b) -> Forall P l -> Sorted R l -> Sorted R' l.
Proof.
  intros HR HP Hs. induction Hs as [|a l Hs IH Hd]; [constructor|].
  inversion HP as [|? ? Ha Hl]; subst.
  constructor; [apply IH; assumption|].
  destruct Hd as [|b l' Hab]; constructor.
  inversion Hl; subst. apply HR; assumption.
Qed.

Lemma omap_lookup_seq {A} (l : list A) k :
  omap (fun i => l !! i) (seq k (length l - k)) = drop k l.
Proof.
  remember (length l - k)%nat as n eqn:Hn. revert k Hn.
  induction n as [|n IH]; intros k Hn; simpl.
  - rewrite drop_ge by lia. reflexivity.
  - destruct (l !! k) as [a|] eqn:E.
    + rewrite IH by lia. symmetry. erewrite drop_S by eassumption. reflexivity.
    + apply lookup_ge_None in E. lia.
Qed.

Lemma omap_lookup_all {A} (l : list A) :
  omap (fun i => l !! i) (seq 0 (length l)) = l.
Proof.
  pose proof (omap_lookup_seq l 0) as H. rewrite Nat.sub_0_r in H. exact H.
Qed.

Lemma filter_split_Permutation {A} (p : A -> bool) l :
  List.filter (fun x => negb (p x)) l ++ List.filter p l ≡ₚ l.
Proof.
  induction l as [|a l IH]; simpl; [reflexivity|].
  destruct (p a); simpl.
  - rewrite <- Permutation_middle. constructor. assumption.
  - constructor. assumption.
Qed.

Lemma elem_of_zip_seq {A} (l : list A) i x :
  (i, x) ∈ zip (seq 0 (length l)) l -> l !! i = Some x.
Proof.
  intros (k & Hk)%list_elem_of_lookup.
  apply lookup_zip_with_Some in Hk as (i' & x' & [= <- <-] & Hi & Hx).
  apply lookup_seq in Hi as [-> _]. exact Hx.
Qed.

Lemma fst_zip_seq {A} (l : list A) : fst <$> zip (seq 0 (length l)) l = seq 0 (length l).
Proof. apply fst_zip. rewrite length_seq. reflexivity. Qed.

Lemma omap_lookup_keys {A} (key : A -> spec_float) (l : list A) idx :
  Forall (fun i => (i < length l)%nat) idx ->
  key <$> omap (fun i => l !! i) idx = (fun i => nth i (key <$> l) F64.zero) <$> idx.
Proof.
  induction 1 as [|i idx Hi _ IH]; [reflexivity|].
  destruct (lookup_lt_is_Some_2 l i Hi) as [a Ha].
  cbn [omap list_omap]. rewrite Ha, !fmap_cons, IH. f_equal.
  symmetry. apply nth_lookup_Some. rewrite list_lookup_fmap, Ha. reflexivity.
Qed.

Lemma Sorted_all_nan l :
  Forall (fun x => F64.is_nan x = true) l -> Sorted desc_step l.
Proof.
  induction 1 as [|x l Hx Hl IH]; constructor; [assumption|].
  destruct Hl; constructor. left. assumption.
Qed.

Section Nargsort.

Variable argsort : list spec_float -> list nat.
Hypothesis Hargsort : argsort_ok argsort.

Lemma non_nan_keys (items : list spec_float) :
  Forall (fun x => F64.is_nan x = false)
    (snd <$> rev (List.filter (fun r => negb (F64.is_nan (snd r)))
                   (zip (seq 0 (length items)) items))).
Proof.
  apply Forall_fmap, Forall_forall. intros r Hr.
  apply list_elem_of_In, in_rev, filter_In in Hr as [_ Hr].
  simpl. destruct (F64.is_nan (snd r)); [discriminate|reflexivity].
Qed.

(** The fancy indexing [non_nan_idx[argsort(...)]] stays in range. *)
Lemma indexer_fmap {A} (nn : list (nat * A)) (order : list nat) :
  order ≡ₚ seq 0 (length nn) ->
  exists rows, omap (fun p => nn !! p) order = rows /\ length rows = length order /\
    omap (fun p => fst <$> nn !! p) order = fst <$> rows /\
    Forall2 (fun p r => nn !! p = Some r) order rows /\ rows ≡ₚ nn.
Proof.
  intros Hp. eexists. split; [reflexivity|].
  assert (Hin : Forall (fun p => (p < length nn)%nat) order).
  { apply Forall_forall. intros p Hp'. rewrite Hp in Hp'.
    apply elem_of_seq in Hp'. lia. }
  split; [|split; [|split]].
  - clear Hp. induction Hin as [|p order Hlt _ IH]; simpl; [reflexivity|].
    destruct (lookup_lt_is_Some_2 nn p Hlt) as [r ->]. simpl. f_equal. exact IH.
  - clear Hp. induction Hin as [|p order Hlt _ IH]; simpl; [reflexivity|].
    destruct (lookup_lt_is_Some_2 nn p Hlt) as [r ->]. simpl. f_equal. exact IH.
  - clear Hp. induction Hin as [|p order Hlt _ IH]; simpl; [constructor|].
    destruct (lookup_lt_is_Some_2 nn p Hlt) as [r Hr]. rewrite Hr.
    constructor; assumption.
  - rewrite Hp. rewrite omap_lookup_all. reflexivity.
Qed.

Lemma nargsort_desc_Permutation items :
  nargsort_desc argsort items ≡ₚ seq 0 (length items).
Proof.
  unfold nargsort_desc.
  set (rows := zip (seq 0 (length items)) items).
  set (nn := rev (List.filter (fun r => negb (F64.is_nan (snd r))) rows)).
  destruct (Hargsort (snd <$> nn)) as [Hperm _]; [apply non_nan_keys|].
  rewrite length_fmap in Hperm.
  destruct (indexer_fmap nn _ Hperm) as (R & _ & _ & -> & _ & HR).
  rewrite <- Permutation_rev, HR. unfold nn.
  rewrite <- Permutation_rev, <- fmap_app, filter_split_Permutation.
  apply reflexive_eq, fst_zip_seq.
Qed.

Lemma nargsort_desc_Sorted items :
  Sorted desc_step ((fun i => nth i items F64.zero) <$> nargsort_desc argsort items).
Proof.
  unfold nargsort_desc.
  set (rows := zip (seq 0 (length items)) items).
  set (nn := rev (List.filter (fun r => negb (F64.is_nan (snd r))) rows)).
  assert (Hnn : forall r, r ∈ nn ->
            F64.is_nan (snd r) = false /\ nth (fst r) items F64.zero = snd r).
  { intros [i x] Hr. apply list_elem_of_In, in_rev, filter_In in Hr as [Hr Hx].
    apply list_elem_of_In, elem_of_zip_seq in Hr. simpl in *. split.
    - destruct (F64.is_nan x); [discriminate|reflexivity].
    - apply nth_lookup_Some. assumption. }
  destruct (Hargsort (snd <$> nn)) as [Hperm Hsorted]; [apply non_nan_keys|].
  rewrite length_fmap in Hperm.
  destruct (indexer_fmap nn _ Hperm) as (R & _ & _ & -> & HF & HR).
  rewrite fmap_app. apply Sorted_app.
  - assert (Hk0 : (fun i => nth i items F64.zero) <$> (fst <$> R) =
                  (fun p => nth p (snd <$> nn) F64.zero) <$> argsort (snd <$> nn)).
    { clear Hperm Hsorted HR. induction HF as [|p r order R' Hp _ IH]; [reflexivity|].
      rewrite !fmap_cons, IH. f_equal.
      destruct (Hnn r) as [_ ->]; [eapply list_elem_of_lookup_2; eassumption|].
      symmetry. apply nth_lookup_Some. rewrite list_lookup_fmap, Hp. reflexivity. }
    assert (Hkeys : (fun i => nth i items F64.zero) <$> rev (fst <$> R) =
                    rev ((fun p => nth p (snd <$> nn) F64.zero) <$> argsort (snd <$> nn))).
    { rewrite <- Hk0. apply map_rev. }
    rewrite Hkeys.
    apply (Sorted_impl (fun x => F64.is_nan x = false) (fun a b => F64.geb a b = true)).
    + intros a b Ha Hb Hab. right. split; assumption.
    + apply Forall_forall. intros x Hx.
      apply list_elem_of_In, in_rev, list_elem_of_In, list_elem_of_fmap in Hx
        as (p & -> & Hp).
      rewrite Hperm in Hp. apply elem_of_seq in Hp.
      destruct (lookup_lt_is_Some_2 nn p) as [r Hr]; [lia|].
      erewrite nth_lookup_Some by (rewrite list_lookup_fmap, Hr; reflexivity).
      apply Hnn. eapply list_elem_of_lookup_2; eassumption.
    + apply (Sorted_rev (fun a b => F64.geb b a = true)).
      apply Sorted_fmap. exact Hsorted.
  - apply Sorted_all_nan, Forall_forall. intros x Hx.
    apply list_elem_of_fmap in Hx as (i & -> & Hi).
    apply list_elem_of_fmap in Hi as ([i' y] & -> & Hi).
    apply list_elem_of_In, filter_In in Hi as [Hi Hy].
    apply list_elem_of_In, elem_of_zip_seq in Hi. simpl in *.
    erewrite nth_lookup_Some by eassumption. assumption.
  - intros a b _ Hb. left.
    apply list_elem_of_fmap in Hb as (i & -> & Hi).
    apply list_elem_of_fmap in Hi as ([i' y] & -> & Hi).
    apply list_elem_of_In, filter_In in Hi as [Hi Hy].
    apply list_elem_of_In, elem_of_zip_seq in Hi. simpl in *.
    erewrite nth_lookup_Some by eassumption. assumption.
Qed.

Lemma sort_values_by_desc_sorts {A} (key : A -> spec_float) (l : list A) :
  sort_values_desc key l (sort_values_by_desc argsort key l).
Proof.
  unfold sort_values_desc, sort_values_by_desc.
  pose proof (nargsort_desc_Permutation (key <$> l)) as Hperm.
  rewrite length_fmap in Hperm. split.
  - rewrite Hperm, omap_lookup_all. reflexivity.
  - apply Sorted_fmap. rewrite omap_lookup_keys.
    + apply nargsort_desc_Sorted.
    + apply Forall_forall. intros i Hi. rewrite Hperm in Hi.
      apply elem_of_seq in Hi. lia.
Qed.

End Nargsort.

Lemma elem_of_zip_with_seq {A} (l : list A) i x :
  (x, i) ∈ zip l (seq 0 (length l)) -> l !! i = Some x.
Proof.
  intros (k & Hk)%list_elem_of_lookup.
  apply lookup_zip_with_Some in Hk as (x' & i' & [= <- <-] & Hx & Hi).
  apply lookup_seq in Hi as [-> _]. exact Hx.
Qed.

Lemma argsort_stable_ok : argsort_ok argsort_stable.
Proof.
  intros v Hv. unfold argsort_stable.
  set (leb := fun p q : spec_float * nat => F64.geb (fst q) (fst p)).
  set (rows := zip v (seq 0 (length v))).
  split.
  - rewrite sort_by_Permutation. apply reflexive_eq, snd_zip.
    rewrite length_seq. reflexivity.
  - apply Sorted_fmap.
    apply (Sorted_impl
             (fun p => nth (snd p) v F64.zero = fst p /\ F64.is_nan (fst p) = false)
             (fun p q => F64.geb (fst q) (fst p) = true \/
                         F64.is_nan (fst p) = true \/ F64.is_nan (fst q) = true)).
    + intros p q [-> Hp] [-> Hq] [H|[H|H]]; [assumption|congruence..].
    + apply Forall_forall. intros [x i] Hp. rewrite sort_by_Permutation in Hp.
      apply elem_of_zip_with_seq in Hp. simpl. split.
      * apply nth_lookup_Some. assumption.
      * rewrite Forall_forall in Hv. apply Hv. eapply list_elem_of_lookup_2. eassumption.
    + apply sort_by_Sorted.
      * intros p q H. left. exact H.
      * intros p q H. unfold leb in H.
        destruct (F64.is_nan (fst p)) eqn:Hp; [auto|].
        destruct (F64.is_nan (fst q)) eqn:Hq; [auto|].
        left. destruct (geb_total (fst p) (fst q) Hp Hq) as [H'|H']; [assumption|congruence].
Qed.


(* ===================================================================== *)
(** * Facts about decimal text *)
(* ===================================================================== *)


Lemma decimal_digit_cases d :
  is_decimal_digit d ->
  d = 0 \/ d = 1 \/ d = 2 \/ d = 3 \/ d = 4 \/ d = 5 \/ d = 6 \/ d = 7 \/ d = 8 \/ d = 9.
Proof. unfold is_decimal_digit. lia. Qed.

Ltac each_digit H :=
  apply decimal_digit_cases in H;
  repeat (destruct H as [H|H]); subst.

Lemma digit_char_scanned d :
  is_decimal_digit d ->
  is_digit (digit_char d) = true /\ digit_val (digit_char d) = d.
Proof. intros H. each_digit H; split; reflexivity. Qed.

Lemma digit_char_plain d :
  is_decimal_digit d ->
  is_space (digit_char d) = false /\
  Ascii.eqb (digit_char d) "-" = false /\
  Ascii.eqb (digit_char d) "+" = false /\
  Ascii.eqb (digit_char d) "," = false /\
  ascii_lower (digit_char d) = digit_char d.
Proof. intros H. each_digit H; repeat split; reflexivity. Qed.

Lemma digits_value_from (ds : list Z) (a : Z) :
  fold_left (fun acc d => 10 * acc + d) ds a =
  a * 10 ^ Z.of_nat (length ds) + digits_value ds.
Proof.
  unfold digits_value. revert a.
  induction ds as [|d ds IH]; intros a; simpl fold_left.
  - simpl. lia.
  - rewrite IH, (IH (10 * 0 + d)).
    change (length (d :: ds)) with (S (length ds)).
    rewrite Nat2Z.inj_succ, Z.pow_succ_r by lia. lia.
Qed.

Lemma digits_value_cons d ds :
  digits_value (d :: ds) = d * 10 ^ Z.of_nat (length ds) + digits_value ds.
Proof.
  unfold digits_value at 1. simpl fold_left. rewrite digits_value_from. lia.
Qed.

Lemma digits_value_snoc ds d :
  digits_value (ds ++ [d]) = 10 * digits_value ds + d.
Proof. unfold digits_value. rewrite fold_left_app. reflexivity. Qed.

Lemma digits_value_bound ds :
  Forall is_decimal_digit ds -> 0 <= digits_value ds < 10 ^ Z.of_nat (length ds).
Proof.
  induction ds as [|d ds IH] using rev_ind; intros H.
  - cbn. lia.
  - apply Forall_app in H as [H1 H2]. inversion H2 as [|? ? Hd _]; subst.
    specialize (IH H1). rewrite digits_value_snoc, length_app. simpl length.
    replace (Z.of_nat (length ds + 1)) with (Z.succ (Z.of_nat (length ds))) by lia.
    rewrite Z.pow_succ_r by lia. unfold is_decimal_digit in Hd. lia.
Qed.

Lemma digits_value_zeros n ds :
  digits_value (replicate n 0 ++ ds) = digits_value ds.
Proof.
  induction n as [|n IH]; [reflexivity|].
  simpl. rewrite digits_value_cons, IH. lia.
Qed.

Lemma digits_value_firstn k ds :
  Forall is_decimal_digit ds -> (k <= length ds)%nat ->
  digits_value (firstn k ds) = digits_value ds / 10 ^ Z.of_nat (length ds - k).
Proof.
  induction ds as [|d ds IH] using rev_ind; intros H Hk.
  - simpl in Hk. replace k with 0%nat by lia. reflexivity.
  - apply Forall_app in H as [H1 H2]. inversion H2 as [|? ? Hd _]; subst.
    assert (Hlen : length (ds ++ [d]) = (length ds + 1)%nat)
      by (rewrite length_app; reflexivity).
    rewrite Hlen in *.
    destruct (decide (k = length ds + 1)%nat) as [->|Hne].
    + rewrite firstn_all2 by lia.
      replace (length ds + 1 - (length ds + 1))%nat with 0%nat by lia.
      rewrite Z.div_1_r. reflexivity.
    + rewrite firstn_app.
      replace (k - length ds)%nat with 0%nat by lia.
      simpl firstn. rewrite app_nil_r, IH by (assumption || lia).
      rewrite digits_value_snoc.
      replace (Z.of_nat (length ds + 1 - k)) with (Z.succ (Z.of_nat (length ds - k))) by lia.
      rewrite Z.pow_succ_r by lia.
      rewrite <- Z.div_div by lia.
      f_equal. unfold is_decimal_digit in Hd.
      rewrite (Z.mul_comm 10), Z.div_add_l by lia.
      rewrite (Z.div_small d 10) by lia. lia.
Qed.

(** [str(int)] writes the decimal digits of the absolute value, most
    significant first and without leading zeros. *)
Lemma digits_of_pos_spec fuel n acc :
  (0 < fuel)%nat -> 0 <= n < 10 ^ Z.of_nat fuel ->
  exists ds,
    digits_of_pos fuel n acc = map digit_char ds ++ acc /\
    Forall is_decimal_digit ds /\ digits_value ds = n /\
    (1 <= length ds)%nat /\ 10 ^ (Z.of_nat (length ds) - 1) <= Z.max n 1.
Proof.
  revert n acc. induction fuel as [|fuel IH]; intros n acc Hf Hn; [lia|].
  simpl digits_of_pos. destruct (n <? 10) eqn:Hlt.
  - apply Z.ltb_lt in Hlt. exists [n]. rewrite Z.mod_small by lia.
    split; [reflexivity|]. split.
    { repeat constructor; unfold is_decimal_digit; lia. }
    split; [cbn; lia|]. split; [simpl; lia|]. simpl. lia.
  - apply Z.ltb_ge in Hlt.
    rewrite Nat2Z.inj_succ, Z.pow_succ_r in Hn by lia.
    assert (Hq : 0 <= n / 10 < 10 ^ Z.of_nat fuel).
    { split; [apply Z.div_pos; lia|apply Z.div_lt_upper_bound; lia]. }
    assert (Hq1 : 1 <= n / 10) by (apply Z.div_le_lower_bound; lia).
    assert (Hfuel : (0 < fuel)%nat).
    { destruct fuel; [simpl in Hq; lia|lia]. }
    destruct (IH (n / 10) (ascii_of_nat (Z.to_nat (n mod 10) + 48) :: acc) Hfuel Hq)
      as (ds & Heq & Hok & Hval & Hlen & Hlow).
    exists (ds ++ [n mod 10]).
    rewrite Heq, map_app, <- app_assoc. simpl.
    split; [reflexivity|]. split.
    { apply Forall_app. split; [assumption|].
      constructor; [|constructor]. unfold is_decimal_digit.
      pose proof (Z.mod_pos_bound n 10). lia. }
    split.
    { rewrite digits_value_snoc, Hval. pose proof (Z.div_mod n 10). lia. }
    rewrite length_app. simpl length. split; [lia|].
    replace (Z.of_nat (length ds + 1) - 1) with (Z.succ (Z.of_nat (length ds) - 1)) by lia.
    rewrite Z.pow_succ_r by lia.
    pose proof (Z.mul_div_le n 10). lia.
Qed.

Lemma str_of_Z_fuel n :
  0 <= n -> n < 10 ^ Z.of_nat (S (Z.to_nat (Z.log2 n))).
Proof.
  intros Hn. rewrite Nat2Z.inj_succ, Z2Nat.id by apply Z.log2_nonneg.
  destruct (decide (n = 0)) as [->|Hne]; [reflexivity|].
  pose proof (Z.log2_spec n ltac:(lia)) as [_ Hlt].
  eapply Z.lt_le_trans; [exact Hlt|].
  apply Z.pow_le_mono_l. pose proof (Z.log2_nonneg n). lia.
Qed.

Lemma str_of_Z_nonneg z :
  0 <= z ->
  exists ds,
    str_of_Z z = text (map digit_char ds) /\
    Forall is_decimal_digit ds /\ digits_value ds = z /\
    (1 <= length ds)%nat /\ 10 ^ (Z.of_nat (length ds) - 1) <= Z.max z 1.
Proof.
  intros Hz. unfold str_of_Z.
  destruct (z <? 0) eqn:Hneg; [apply Z.ltb_lt in Hneg; lia|].
  rewrite Z.abs_eq by assumption.
  destruct (digits_of_pos_spec (S (Z.to_nat (Z.log2 z))) z [])
    as (ds & Heq & H); [lia|split; [assumption|apply str_of_Z_fuel; assumption]|].
  exists ds. rewrite Heq, app_nil_r. split; [reflexivity|exact H].
Qed.

Lemma str_of_Z_neg z :
  z < 0 ->
  exists ds,
    str_of_Z z = String "-" (text (map digit_char ds)) /\
    Forall is_decimal_digit ds /\ digits_value ds = - z /\
    (1 <= length ds)%nat /\ 10 ^ (Z.of_nat (length ds) - 1) <= - z.
Proof.
  intros Hz. unfold str_of_Z.
  destruct (z <? 0) eqn:Hneg; [|apply Z.ltb_ge in Hneg; lia].
  rewrite Z.abs_neq by lia.
  destruct (digits_of_pos_spec (S (Z.to_nat (Z.log2 (- z)))) (- z) [])
    as (ds & Heq & Hok & Hval & Hlen & Hlow);
    [lia|split; [lia|apply str_of_Z_fuel; lia]|].
  exists ds. rewrite Heq, app_nil_r. repeat split; try assumption. lia.
Qed.

Lemma chars_text l : chars (text l) = l.
Proof. apply list_ascii_of_string_of_list_ascii. Qed.

Arguments digit_char : simpl never.

Lemma replicate_zero_chars n :
  replicate n "0"%char = map digit_char (replicate n 0).
Proof. induction n as [|n IH]; simpl; [reflexivity|f_equal; exact IH]. Qed.

Lemma zfill_digits w ds :
  Forall is_decimal_digit ds -> (1 <= length ds)%nat ->
  chars (zfill w (text (map digit_char ds))) =
  map digit_char (replicate (w - length ds) 0 ++ ds).
Proof.
  intros Hok Hlen. unfold zfill. rewrite chars_text, length_map.
  destruct ds as [|d ds]; [simpl in Hlen; lia|].
  inversion Hok as [|? ? Hd _]; subst.
  destruct (digit_char_plain d Hd) as (_ & Hm & Hp & _).
  cbn [map]. rewrite Hm, Hp. cbn [orb].
  rewrite chars_text, map_app, replicate_zero_chars. reflexivity.
Qed.


Lemma parse_int_two_digits a b :
  is_decimal_digit a -> is_decimal_digit b ->
  parse_int (text [digit_char a; digit_char b]) = Some (10 * a + b).
Proof. intros Ha Hb. each_digit Ha; each_digit Hb; reflexivity. Qed.



Lemma region_of_prefix_nonpos p : p <= 0 -> region_of_prefix p = "기타".
Proof.
  intros Hp. unfold region_of_prefix.
  repeat match goal with
         | |- context [?a <=? ?b] => destruct (Z.leb_spec a b); try lia
         | |- context [?a =? ?b] => destruct (Z.eqb_spec a b); try lia
         end; reflexivity.
Qed.

(** The region of a non-negative integer code: the table at the two
    leading digits of the code padded to [n] digits. *)
Lemma get_region_nonneg z :
  0 <= z ->
  exists n : nat,
    (5 <= n)%nat /\ z < 10 ^ Z.of_nat n /\
    (n = 5%nat \/ 10 ^ (Z.of_nat n - 1) <= z) /\
    get_region_from_zipcode (Int z) = region_of_prefix (z / 10 ^ (Z.of_nat n - 2)).
Proof.
  intros Hz.
  destruct (str_of_Z_nonneg z Hz) as (ds & Hs & Hok & Hval & Hlen & Hlow).
  pose proof (digits_value_bound ds Hok) as Hb. rewrite Hval in Hb.
  remember (replicate (5 - length ds) 0 ++ ds) as padded eqn:Hpad.
  assert (Hpok : Forall is_decimal_digit padded).
  { subst padded. apply Forall_app. split; [|assumption].
    apply Forall_forall. intros x Hx. apply elem_of_replicate in Hx as [-> _].
    unfold is_decimal_digit. lia. }
  assert (Hplen : length padded = Nat.max 5 (length ds)).
  { subst padded. rewrite length_app, length_replicate. lia. }
  assert (Hpval : digits_value padded = z).
  { subst padded. rewrite digits_value_zeros. exact Hval. }
  exists (length padded). split; [lia|]. split.
  { pose proof (digits_value_bound padded Hpok). lia. }
  split.
  { destruct (decide (length ds <= 5)%nat); [left; lia|right].
    replace (length padded) with (length ds) by lia.
    assert (10 ^ 5 <= 10 ^ (Z.of_nat (length ds) - 1)) by (apply Z.pow_le_mono_r; lia).
    change (10 ^ 5) with 100000 in *. lia. }
  unfold get_region_from_zipcode. cbn [py_int]. cbv zeta.
  unfold prefix_chars. rewrite Hs, zfill_digits, <- Hpad, firstn_map by assumption.
  pose proof (digits_value_firstn 2 padded Hpok ltac:(lia)) as Hfirst.
  rewrite Hpval in Hfirst.
  replace (Z.of_nat (length padded - 2)) with (Z.of_nat (length padded) - 2) in Hfirst by lia.
  rewrite <- Hfirst.
  destruct padded as [|a [|b rest]]; try (simpl in Hplen; lia).
  inversion Hpok as [|? ? Ha Hrest]; subst. inversion Hrest as [|? ? Hb' _]; subst.
  cbn [firstn map]. rewrite parse_int_two_digits by assumption.
  reflexivity.
Qed.


(** An integer postal code of at most five digits is padded with zeros
    on the left, so its region is that of its thousands: 6234 stands
    for 06234 and maps as prefix 6, and a code below 1000 has prefix 0,
    which is in no range of the table. *)
Theorem region_of_short_code z :
  0 <= z < 100000 ->
  get_region_from_zipcode (Int z) = region_of_prefix (z / 1000).
Proof.
  intros [Hz Hlt].
  destruct (get_region_nonneg z Hz) as (n & Hn & _ & Hlow & ->).
  assert (n = 5%nat) as ->; [|reflexivity].
  destruct Hlow as [->|Hlow]; [reflexivity|].
  destruct (decide (n = 5%nat)); [assumption|]. exfalso.
  assert (10 ^ 5 <= 10 ^ (Z.of_nat n - 1)) by (apply Z.pow_le_mono_r; lia).
  change (10 ^ 5) with 100000 in *. lia.
Qed.



Lemma get_region_by_int c z :
  py_int c = Some z -> get_region_from_zipcode c = get_region_from_zipcode (Int z).
Proof. intros H. unfold get_region_from_zipcode. rewrite H. reflexivity. Qed.


Lemma region_of_prefix_high p : 64 <= p -> region_of_prefix p = "기타".
Proof.
  intros Hp. unfold region_of_prefix.
  repeat match goal with
         | |- context [?a <=? ?b] => destruct (Z.leb_spec a b); try lia
         | |- context [?a =? ?b] => destruct (Z.eqb_spec a b); try lia
         end; reflexivity.
Qed.

Lemma region_of_prefix_named_upto n :
  forallb (fun i => negb (String.eqb (region_of_prefix (Z.of_nat i)) "기타"))
    (seq 1 n) = true ->
  forall p, 1 <= p <= Z.of_nat n -> region_of_prefix p <> "기타".
Proof.
  intros H p Hp. rewrite forallb_forall in H.
  specialize (H (Z.to_nat p)). rewrite Z2Nat.id in H by lia.
  assert (Hin : In (Z.to_nat p) (seq 1 n)) by (apply in_seq; lia).
  apply H, negb_true_iff, String.eqb_neq in Hin. exact Hin.
Qed.

(** The table has no gap: the prefixes 1 to 63 all have a named region,
    every other prefix is ["기타"]. *)
Theorem region_table_has_no_gap p :
  region_of_prefix p = "기타" <-> ~ (1 <= p <= 63).
Proof.
  split.
  - intros H Hp. revert H. apply (region_of_prefix_named_upto 63); [|exact Hp].
    vm_compute. reflexivity.
  - intros H. destruct (Z.le_gt_cases p 0).
    + apply region_of_prefix_nonpos. assumption.
    + apply region_of_prefix_high. lia.
Qed.

Lemma pos_iter_xO_value p k : Z.pos (Pos.iter xO p k) = Z.pos p * 2 ^ Z.pos k.
Proof.
  induction k as [|k IH] using Pos.peano_ind.
  - simpl. lia.
  - rewrite Pos.iter_succ, Pos2Z.inj_xO, IH, Pos2Z.inj_succ, Z.pow_succ_r by lia. lia.
Qed.

(** An integer of at most 53 bits is a float64 value. *)
Lemma binary_round_exact s p :
  Z.pos p < 2 ^ 53 ->
  exists m e,
    binary_round F64.prec F64.emax s p 0 = S754_finite s m e /\
    e <= 0 /\ Z.pos m = Z.pos p * 2 ^ (- e).
Proof.
  intros Hlt. unfold binary_round.
  pose proof (digits2_pos_bound p 53 ltac:(lia) Hlt) as Hd.
  set (d := Z.pos (digits2_pos p)) in *.
  assert (Hfexp : forall k, 1 <= k <= 53 ->
            fexp F64.prec F64.emax k = k - 53).
  { intros k Hk. unfold fexp, emin, F64.prec, F64.emax. lia. }
  assert (1 <= d) by (subst d; lia).
  rewrite Z.add_0_r, Hfexp by lia.
  unfold shl_align.
  assert (Haux : forall mz ez,
            Z.pos (digits2_pos mz) + ez = d -> ez = d - 53 ->
            binary_round_aux F64.prec F64.emax s (Z.pos mz) ez loc_Exact =
            S754_finite s mz ez).
  { intros mz ez Hdig Hez. unfold binary_round_aux, shr_fexp. simpl Zdigits2.
    rewrite Hdig, Hfexp by lia. rewrite <- Hez, Z.sub_diag. simpl.
    rewrite Hdig, Hfexp by lia. rewrite <- Hez, Z.sub_diag. simpl.
    destruct (Z.leb_spec ez (F64.emax - F64.prec)); [reflexivity|].
    unfold F64.emax, F64.prec in *. lia. }
  destruct (d - 53 - 0) as [|k|k] eqn:Hk; try lia.
  - exists p, 0. split; [apply Haux; fold d; lia|]. simpl. lia.
  - exists (Pos.iter xO p k), (d - 53). split.
    + apply Haux; [|reflexivity]. rewrite digits2_pos_iter_xO. fold d. lia.
    + split; [lia|]. rewrite pos_iter_xO_value. do 2 f_equal. lia.
Qed.

Lemma trunc_float_of_Z z :
  Z.abs z < 2 ^ 53 -> trunc_float (F64.of_Z z) = Some z.
Proof.
  intros Hz. unfold F64.of_Z, binary_normalize.
  destruct z as [|p|p]; [reflexivity| |].
  - destruct (binary_round_exact false p) as (m & e & -> & He & Hm); [lia|].
    unfold trunc_float. f_equal.
    destruct (Z.leb_spec 0 e).
    + replace e with 0 in * by lia. simpl in Hm. lia.
    + rewrite Hm, Z.div_mul; [reflexivity|]. apply Z.pow_nonzero; lia.
  - destruct (binary_round_exact true p) as (m & e & -> & He & Hm); [lia|].
    unfold trunc_float. f_equal.
    destruct (Z.leb_spec 0 e).
    + replace e with 0 in * by lia. simpl in Hm. lia.
    + rewrite Hm, Z.div_mul; [lia|]. apply Z.pow_nonzero; lia.
Qed.

(** A postal code read as a float (the column has missing cells) maps
    as the integer it stands for. *)
Theorem region_of_float_code z :
  Z.abs z < 2 ^ 53 ->
  get_region_from_zipcode (Num (F64.of_Z z)) = get_region_from_zipcode (Int z).
Proof.
  intros Hz. apply get_region_by_int. cbn [py_int]. apply trunc_float_of_Z, Hz.
Qed.

(** ** Reading back what [str(int)] wrote *)

Lemma scan_digits_all us prev ds :
  Forall is_decimal_digit ds -> scan_digits us prev (map digit_char ds) = (ds, []).
Proof.
  intros H. revert prev. induction H as [|d ds Hd _ IH]; intros prev; [reflexivity|].
  destruct (digit_char_scanned d Hd) as [Hdig Hv].
  cbn [map scan_digits]. rewrite Hdig, IH, Hv. reflexivity.
Qed.

Lemma drop_spaces_plain l :
  Forall (fun c => is_space c = false) l -> drop_spaces l = l.
Proof. intros H. destruct H as [|c l Hc _]; [reflexivity|]. simpl. rewrite Hc. reflexivity. Qed.

Lemma strip_spaces_plain l :
  Forall (fun c => is_space c = false) l -> strip_spaces l = l.
Proof.
  intros H. unfold strip_spaces.
  rewrite (drop_spaces_plain l H), drop_spaces_plain, rev_involutive; [reflexivity|].
  apply Forall_rev, H.
Qed.

Lemma digit_chars_plain ds :
  Forall is_decimal_digit ds ->
  Forall (fun c => is_space c = false) (map digit_char ds) /\
  map ascii_lower (map digit_char ds) = map digit_char ds /\
  List.filter (fun c => negb (Ascii.eqb c ",")) (map digit_char ds) = map digit_char ds /\
  List.filter keep_numeric_char (map digit_char ds) = map digit_char ds.
Proof.
  induction 1 as [|d ds Hd _ (IH1 & IH2 & IH3 & IH4)]; [repeat split; constructor|].
  destruct (digit_char_plain d Hd) as (Hs & _ & _ & Hc & Hl).
  destruct (digit_char_scanned d Hd) as [Hdig _].
  cbn [map List.filter]. unfold keep_numeric_char at 1.
  rewrite Hc, Hdig, Hl, IH2, IH3, IH4. cbn [negb orb].
  repeat split. constructor; assumption.
Qed.

Lemma digits_not_keyword d rest :
  is_decimal_digit d ->
  String.eqb (text (digit_char d :: rest)) "inf" = false /\
  String.eqb (text (digit_char d :: rest)) "infinity" = false /\
  String.eqb (text (digit_char d :: rest)) "nan" = false.
Proof. intros Hd. each_digit Hd; repeat split; reflexivity. Qed.

Lemma of_decimal_integer z :
  F64.of_decimal (z <? 0) (Z.abs z) 0 = F64.of_Z z.
Proof.
  destruct z as [|p|p]; [reflexivity| |].
  - change (Z.abs (Z.pos p)) with (Z.pos p). change (Z.pos p <? 0) with false.
    unfold F64.of_decimal. rewrite Z.pow_0_r, Z.mul_1_r. reflexivity.
  - change (Z.abs (Z.neg p)) with (Z.pos p). change (Z.neg p <? 0) with true.
    unfold F64.of_decimal. rewrite Z.pow_0_r, Z.mul_1_r. reflexivity.
Qed.

Lemma parse_float_digits us (neg : bool) ds :
  Forall is_decimal_digit ds -> (1 <= length ds)%nat ->
  parse_float us (text ((if neg then ["-"%char] else []) ++ map digit_char ds)) =
  Some (F64.of_decimal neg (digits_value ds) 0).
Proof.
  intros Hok Hlen. unfold parse_float. rewrite chars_text.
  destruct (digit_chars_plain ds Hok) as (Hsp & Hlow & _ & _).
  rewrite strip_spaces_plain
    by (destruct neg; [constructor; [reflexivity|assumption]|assumption]).
  assert (Hsign : scan_sign ((if neg then ["-"%char] else []) ++ map digit_char ds) =
                  (neg, map digit_char ds)).
  { destruct neg; [reflexivity|].
    destruct ds as [|d ds]; [reflexivity|]. inversion Hok as [|? ? Hd _]; subst.
    destruct (digit_char_plain d Hd) as (_ & Hm & Hp & _).
    cbn [app map scan_sign]. rewrite Hm, Hp. reflexivity. }
  rewrite Hsign, Hlow, scan_digits_all by assumption.
  destruct ds as [|d ds]; [simpl in Hlen; lia|].
  inversion Hok as [|? ? Hd _]; subst.
  cbn [map].
  destruct (digits_not_keyword d (map digit_char ds) Hd) as (-> & -> & ->).
  cbn [orb app scan_exponent length]. rewrite app_nil_r. reflexivity.
Qed.

Lemma str_of_Z_digits z :
  exists ds,
    str_of_Z z = text ((if z <? 0 then ["-"%char] else []) ++ map digit_char ds) /\
    Forall is_decimal_digit ds /\ digits_value ds = Z.abs z /\ (1 <= length ds)%nat.
Proof.
  destruct (Z.ltb_spec z 0) as [Hneg|Hpos].
  - destruct (str_of_Z_neg z Hneg) as (ds & Hs & Hok & Hval & Hlen & _).
    exists ds. rewrite Hs. repeat split; try assumption. lia.
  - destruct (str_of_Z_nonneg z Hpos) as (ds & Hs & Hok & Hval & Hlen & _).
    exists ds. rewrite Hs. repeat split; try assumption. lia.
Qed.

Lemma parse_float_str_of_Z us z : parse_float us (str_of_Z z) = Some (F64.of_Z z).
Proof.
  destruct (str_of_Z_digits z) as (ds & -> & Hok & Hval & Hlen).
  rewrite parse_float_digits, Hval by assumption.
  f_equal. apply of_decimal_integer.
Qed.

Lemma remove_commas_str_of_Z z : remove_commas (str_of_Z z) = str_of_Z z.
Proof.
  destruct (str_of_Z_digits z) as (ds & -> & Hok & _).
  destruct (digit_chars_plain ds Hok) as (_ & _ & Hc & _).
  unfold remove_commas. rewrite chars_text. f_equal.
  destruct (z <? 0); cbn [app List.filter Ascii.eqb negb]; rewrite Hc; reflexivity.
Qed.

Lemma strip_non_numeric_str_of_Z z : strip_non_numeric (str_of_Z z) = str_of_Z z.
Proof.
  destruct (str_of_Z_digits z) as (ds & -> & Hok & _).
  destruct (digit_chars_plain ds Hok) as (_ & _ & _ & Hk).
  unfold strip_non_numeric. rewrite chars_text. f_equal.
  destruct (z <? 0); cbn [app List.filter]; rewrite Hk; reflexivity.
Qed.

Lemma pd_parse_int_str_of_Z z : pd_parse_int (str_of_Z z) = Some z.
Proof.
  destruct (str_of_Z_digits z) as (ds & -> & Hok & Hval & Hlen).
  unfold pd_parse_int. rewrite chars_text.
  destruct (digit_chars_plain ds Hok) as (Hsp & _).
  rewrite strip_spaces_plain
    by (destruct (z <? 0); [constructor; [reflexivity|assumption]|assumption]).
  assert (Hsign : scan_sign ((if z <? 0 then ["-"%char] else []) ++ map digit_char ds) =
                  (z <? 0, map digit_char ds)).
  { destruct (z <? 0); [reflexivity|].
    destruct ds as [|d ds]; [reflexivity|]. inversion Hok as [|? ? Hd _]; subst.
    destruct (digit_char_plain d Hd) as (_ & Hm & Hp & _).
    cbn [app map scan_sign]. rewrite Hm, Hp. reflexivity. }
  rewrite Hsign, scan_digits_all by assumption.
  destruct ds as [|d ds]; [simpl in Hlen; lia|].
  rewrite Hval. f_equal. destruct (Z.ltb_spec z 0); lia.
Qed.

(* ===================================================================== *)
(** * Facts about the pandas operations *)
(* ===================================================================== *)

(** ** [traverse] *)

Lemma traverse_Ok_inv {A B} (f : A -> result B) l ys :
  traverse f l = Ok ys -> Forall2 (fun x y => f x = Ok y) l ys.
Proof.
  revert ys. induction l as [|x l IH]; simpl; intros ys H.
  - injection H as <-. constructor.
  - destruct (f x) as [y|] eqn:Hx; [|discriminate].
    destruct (traverse f l) as [ys'|]; [|discriminate].
    injection H as <-. constructor; auto.
Qed.

Lemma traverse_Ok_elem {A B} (f : A -> result B) l ys y :
  traverse f l = Ok ys -> y ∈ ys -> exists x, x ∈ l /\ f x = Ok y.
Proof.
  intros H%traverse_Ok_inv. induction H as [|x y' l ys' Hxy _ IH].
  - intros []%elem_of_nil.
  - intros [->|Hy]%elem_of_cons; [exists x; split; [left|assumption]|].
    destruct (IH Hy) as (x' & ? & ?). exists x'; split; [right|]; assumption.
Qed.

Lemma traverse_Ok_intro {A B} (f : A -> result B) l :
  (forall x, x ∈ l -> exists y, f x = Ok y) -> exists ys, traverse f l = Ok ys.
Proof.
  induction l as [|x l IH]; simpl; intros H.
  - eexists; reflexivity.
  - destruct (H x) as [y ->]; [left|].
    destruct IH as [ys ->]; [intros; apply H; right; assumption|].
    eexists; reflexivity.
Qed.

(** ** Masks and selections *)

Lemma eq_scalar_true_iff c k : notna c && bool_decide (c = k) = true <-> c = k /\ notna k = true.
Proof.
  rewrite andb_true_iff, bool_decide_eq_true. split.
  - intros [? ->]. auto.
  - intros [-> ?]. auto.
Qed.

Lemma select_eq_scalar ks k vs :
  select (eq_scalar ks k) vs =
  map snd (List.filter (fun p => notna (fst p) && bool_decide (fst p = k)) (zip ks vs)).
Proof.
  unfold select, eq_scalar. revert vs.
  induction ks as [|c ks IH]; intros [|v vs]; simpl; try reflexivity.
  destruct (notna c && bool_decide (c = k)); simpl; rewrite IH; reflexivity.
Qed.

Lemma elem_of_select ks k vs d :
  d ∈ select (eq_scalar ks k) vs <-> notna k = true /\ (k, d) ∈ zip ks vs.
Proof.
  rewrite !list_elem_of_In, select_eq_scalar, in_map_iff. split.
  - intros ([c d'] & <- & [Hin Hc]%filter_In). simpl in *.
    apply eq_scalar_true_iff in Hc as [-> ?]. auto.
  - intros [Hk Hin]. exists (k, d). split; [reflexivity|].
    apply filter_In. split; [assumption|]. simpl.
    apply eq_scalar_true_iff. auto.
Qed.

(** How many selected cells satisfy [p]. *)
Lemma count_select ks k vs (p : cell -> bool) :
  notna k = true ->
  length (List.filter p (select (eq_scalar ks k) vs)) =
  length (List.filter (fun q => bool_decide (fst q = k) && p (snd q)) (zip ks vs)).
Proof.
  intros Hk. rewrite select_eq_scalar.
  induction (zip ks vs) as [|[c v] l IH]; simpl; [reflexivity|].
  destruct (bool_decide_reflect (c = k)) as [->|Hne]; simpl.
  - rewrite Hk. simpl. destruct (p v); simpl; rewrite IH; reflexivity.
  - rewrite andb_false_r. simpl. exact IH.
Qed.

(** ** Membership in the lists the code builds *)

Lemma elem_of_filter_bool {A} (p : A -> bool) (l : list A) x :
  x ∈ List.filter p l <-> x ∈ l /\ p x = true.
Proof. rewrite !list_elem_of_In. apply filter_In. Qed.

Lemma elem_of_map {A B} (f : A -> B) (l : list A) y :
  y ∈ map f l <-> exists x, f x = y /\ x ∈ l.
Proof.
  rewrite list_elem_of_In, in_map_iff.
  split; intros (x & ? & ?); exists x; rewrite ?list_elem_of_In in *; auto.
Qed.

Lemma NoDup_filter_bool {A} (p : A -> bool) (l : list A) :
  NoDup l -> NoDup (List.filter p l).
Proof.
  induction 1 as [|x l Hx _ IH]; simpl; [constructor|].
  destruct (p x); [|assumption].
  constructor; [|assumption]. rewrite elem_of_filter_bool. tauto.
Qed.

(** ** Distinct values *)

Lemma elem_of_unique vs x : x ∈ unique vs <-> x ∈ vs.
Proof.
  induction vs as [|c vs IH]; simpl; [tauto|].
  rewrite elem_of_cons, elem_of_filter_bool, IH, negb_true_iff, bool_decide_eq_false.
  rewrite elem_of_cons.
  destruct (decide (x = c)) as [->|]; intuition congruence.
Qed.

Lemma NoDup_unique vs : NoDup (unique vs).
Proof.
  induction vs as [|c vs IH]; simpl; constructor.
  - rewrite elem_of_filter_bool, negb_true_iff, bool_decide_eq_false. tauto.
  - apply NoDup_filter_bool, IH.
Qed.

Lemma elem_of_dropna vs x : x ∈ dropna vs <-> x ∈ vs /\ notna x = true.
Proof. unfold dropna. apply elem_of_filter_bool. Qed.

(** Two duplicate-free lists with the same members have the same length. *)
Lemma NoDup_same_length {A} (l k : list A) :
  NoDup l -> NoDup k -> (forall x, x ∈ l <-> x ∈ k) -> length l = length k.
Proof.
  intros Hl Hk H. apply Permutation_length, NoDup_Permutation; assumption.
Qed.

(** [nunique] counts the distinct non-missing cells. *)
Lemma nunique_spec vs ds :
  NoDup ds -> (forall d, d ∈ ds <-> notna d = true /\ d ∈ vs) ->
  nunique vs = Z.of_nat (length ds).
Proof.
  intros Hnd Hds. unfold nunique. f_equal.
  apply NoDup_same_length; [apply NoDup_unique|assumption|].
  intros x. rewrite elem_of_unique, elem_of_dropna, Hds. tauto.
Qed.

(** ** Grouping *)

Lemma elem_of_group_keys vs k : k ∈ group_keys vs <-> k ∈ vs /\ notna k = true.
Proof.
  unfold group_keys. rewrite sort_by_Permutation, elem_of_unique.
  apply elem_of_dropna.
Qed.

Lemma NoDup_group_keys vs : NoDup (group_keys vs).
Proof.
  unfold group_keys. rewrite sort_by_Permutation. apply NoDup_unique.
Qed.

(* ===================================================================== *)
(** * Properties of the scripts *)
(* ===================================================================== *)

Section Properties.

Set Default Proof Using "Type".

Variable py_repr : cell -> string.

(** [tauto] without the section variables in its way. *)
Ltac section_tauto :=
  repeat match goal with
         | x : cell -> string |- _ => clear x
         | x : string -> option Z |- _ => clear x
         end;
  tauto.

(** ** What a successful run of [calculate_seller_metrics] consists of *)

Lemma seller_stats_inv df df' stats :
  seller_stats py_repr df = (df', Ok stats) ->
  clean_and_derive py_repr df = (df', Ok tt) /\ summarize df' = Ok stats.
Proof.
  unfold seller_stats, mbind, M_bind, reading.
  destruct (clean_and_derive py_repr df) as [d [[]|e]]; intros [= <- H]; auto.
Qed.

Lemma calculate_seller_metrics_inv df df' out :
  calculate_seller_metrics py_repr df df' (Ok out) ->
  exists stats,
    seller_stats py_repr df = (df', Ok stats) /\
    sort_values_desc TotalRevenue stats out.
Proof.
  unfold calculate_seller_metrics.
  destruct (seller_stats py_repr df) as [d [stats|e]].
  - intros (-> & rows & [= ->] & Hs). eauto.
  - intros [_ [=]].
Qed.

Lemma calculate_seller_metrics_intro df df' stats out :
  seller_stats py_repr df = (df', Ok stats) ->
  sort_values_desc TotalRevenue stats out ->
  calculate_seller_metrics py_repr df df' (Ok out).
Proof.
  unfold calculate_seller_metrics. intros -> Hs. eauto.
Qed.

(** Every row returned is the row [seller_row] builds for one key of the
    grouping. *)
Lemma summarize_row d stats r :
  summarize d = Ok stats -> r ∈ stats ->
  exists sellers paid margin order_id qty cancelled order_date,
    columns d !! "셀러명" = Some sellers /\
    columns d !! "실결제 금액" = Some paid /\
    columns d !! "Margin" = Some margin /\
    columns d !! "주문번호" = Some order_id /\
    columns d !! "주문수량" = Some qty /\
    columns d !! "IsCancelled" = Some cancelled /\
    order_date = match columns d !! "OrderDate" with
                 | Some od => Some (values od)
                 | None => None
                 end /\
    seller r ∈ group_keys (values sellers) /\
    seller_row (values sellers) (values paid) (values margin) (values order_id)
      (values qty) (values cancelled) (optional_column d "주문자연락처") order_date
      (seller r) = Ok r.
Proof.
  unfold summarize, column, mbind, result_bind.
  destruct (columns d !! "셀러명") as [sellers|]; [|discriminate].
  destruct (columns d !! "실결제 금액") as [paid|]; [|discriminate].
  destruct (columns d !! "Margin") as [margin|]; [|discriminate].
  destruct (columns d !! "주문번호") as [order_id|]; [|discriminate].
  destruct (columns d !! "주문수량") as [qty|]; [|discriminate].
  destruct (columns d !! "IsCancelled") as [cancelled|]; [|discriminate].
  intros H Hr.
  assert (exists od, od = match columns d !! "OrderDate" with
                          | Some od => Some (values od) | None => None end /\
            traverse (seller_row (values sellers) (values paid) (values margin)
              (values order_id) (values qty) (values cancelled)
              (optional_column d "주문자연락처") od) (group_keys (values sellers)) = Ok stats)
    as (od & Hod & Ht).
  { destruct (columns d !! "OrderDate") as [od|]; [|eauto].
    destruct (bool_decide (dtype od = datetime64)); [eauto|discriminate]. }
  destruct (traverse_Ok_elem _ _ _ _ Ht Hr) as (k & Hk & Hrow).
  assert (seller r = k) as <-.
  { revert Hrow. unfold seller_row, mbind, result_bind.
    repeat (match goal with |- context [sum_float64 ?x] => destruct (sum_float64 x) end;
            [|discriminate]).
    unfold mret, result_ret. destruct od; intros [= <-]; reflexivity. }
  exists sellers, paid, margin, order_id, qty, cancelled, od. auto 10.
Qed.

(** The fields of a row in terms of the seller's rows. *)
Lemma seller_row_fields sellers paid margin order_id qty cancelled contacts od k r :
  seller_row sellers paid margin order_id qty cancelled contacts od k = Ok r ->
  let rows := eq_scalar sellers k in
  sum_float64 (select rows paid) = Ok (TotalRevenue r) /\
  sum_float64 (select rows margin) = Ok (TotalMargin r) /\
  OrderCount r = nunique (select rows order_id) /\
  CancelCount r = sum_int64 (select rows cancelled) /\
  MarginRate r = nan_to_zero (percent (TotalMargin r) (TotalRevenue r)) /\
  CancelRate r = percent (F64.of_Z (CancelCount r)) (F64.of_Z (OrderCount r)) /\
  AOV r = F64.div (TotalRevenue r) (F64.of_Z (OrderCount r)) /\
  RepurchaseRate r = match contacts with
                     | Some cs => repurchase_rate sellers cs k
                     | None => F64.zero
                     end /\
  TenureDays r = match od with
                 | Some od => (fun d => d + 1) <$>
                     days_between (ts_min (select rows od)) (ts_max (select rows od))
                 | None => Some 0
                 end /\
  RecencyDays r = match od with
                  | Some od => days_between (ts_max (select rows od)) (ts_max od)
                  | None => Some 0
                  end.
Proof.
  unfold seller_row, mbind, result_bind.
  repeat (match goal with |- context [sum_float64 ?x] => destruct (sum_float64 x) end;
          [|discriminate]).
  unfold mret, result_ret. destruct od; intros [= <-]; simpl; auto 12.
Qed.

(** ** The assignments of the cleaning phase *)

Lemma has_column_Some df c s : columns df !! c = Some s -> has_column df c = true.
Proof. intros H. unfold has_column. rewrite H. reflexivity. Qed.

Lemma has_column_None df c : columns df !! c = None -> has_column df c = false.
Proof. intros H. unfold has_column. rewrite H. reflexivity. Qed.

Lemma lookup_assign_ne c c' s df :
  c <> c' -> columns (assign c s df) !! c' = columns df !! c'.
Proof. intros. unfold assign. simpl. apply lookup_insert_ne. assumption. Qed.

Lemma lookup_assign_eq c s df : columns (assign c s df) !! c = Some s.
Proof. unfold assign. simpl. apply lookup_insert_eq. Qed.

Lemma clean_paid_amount_run df :
  exists df1,
    clean_paid_amount py_repr df = (df1, Ok tt) /\
    nrows df1 = nrows df /\
    (forall c, c <> "실결제 금액" -> columns df1 !! c = columns df !! c) /\
    columns df1 !! "실결제 금액" =
      cleaned_paid_amount py_repr <$> columns df !! "실결제 금액".
Proof.
  unfold clean_paid_amount, cleaned_paid_amount, mbind, M_bind, contains, getitem, column.
  destruct (columns df !! "실결제 금액") as [s|] eqn:Hs.
  - rewrite (has_column_Some _ _ _ Hs), Hs.
    destruct (bool_decide (dtype s = object)) eqn:Hd; simpl;
      rewrite ?lookup_insert_eq, ?Hs; simpl;
      eexists; (split; [reflexivity|]); simpl;
      rewrite ?insert_insert_eq, lookup_insert_eq, ?Hd;
      (split; [reflexivity|]); (split; [|reflexivity]);
      intros c Hc; rewrite lookup_insert_ne by congruence; reflexivity.
  - rewrite (has_column_None _ _ Hs). unfold skip. eexists. split; [reflexivity|].
    simpl. auto.
Qed.

Lemma derive_margin_run df df2 r :
  derive_margin py_repr df = (df2, r) ->
  nrows df2 = nrows df /\
  (forall c, c <> "SupplyCost" -> c <> "Margin" -> columns df2 !! c = columns df !! c) /\
  (r = Ok tt -> is_Some (columns df2 !! "Margin")).
Proof.
  unfold derive_margin, mbind, M_bind, contains, getitem, column, lift, setitem,
    setitem_scalar.
  destruct (columns df !! "공급단가") as [sp|] eqn:Hsp.
  - rewrite (has_column_Some _ _ _ Hsp), Hsp.
    destruct (columns df !! "주문수량") as [qty|];
      [|intros [= <- <-]; split; [|split]; [reflexivity|reflexivity|discriminate]].
    match goal with |- context [series_binop F64.mul ?a ?b] =>
      destruct (series_binop F64.mul a b) as [cost|] end;
      [|intros [= <- <-]; split; [|split]; [reflexivity|reflexivity|discriminate]].
    simpl. rewrite lookup_insert_ne by discriminate.
    destruct (columns df !! "실결제 금액") as [paid|].
    + rewrite lookup_insert_eq.
      destruct (series_binop F64.sub paid cost) as [margin|]; intros [= <- <-]; simpl.
      * split; [reflexivity|]. split; [|rewrite lookup_insert_eq; eauto].
        intros c H1 H2. rewrite !lookup_insert_ne by congruence. reflexivity.
      * split; [reflexivity|]. split; [|discriminate].
        intros c H1 H2. rewrite !lookup_insert_ne by congruence. reflexivity.
    + intros [= <- <-]; simpl. split; [reflexivity|]. split; [|discriminate].
      intros c H1 H2. rewrite !lookup_insert_ne by congruence. reflexivity.
  - rewrite (has_column_None _ _ Hsp). intros [= <- <-]. simpl.
    split; [reflexivity|]. split; [|rewrite lookup_insert_eq; eauto].
    intros c H1 H2. rewrite !lookup_insert_ne by congruence. reflexivity.
Qed.

Lemma flag_cancelled_run df :
  flag_cancelled df = (assign "IsCancelled" (cancelled_column df) df, Ok tt).
Proof.
  unfold flag_cancelled, cancelled_column, mbind, M_bind, contains, getitem, column,
    setitem, setitem_scalar.
  destruct (columns df !! "취소여부") as [flag|] eqn:Hf.
  - rewrite (has_column_Some _ _ _ Hf), Hf. reflexivity.
  - rewrite (has_column_None _ _ Hf). reflexivity.
Qed.

(** The cleaning phase leaves every other column as it was, and on
    success the flag column it derived is in place. *)
Lemma clean_and_derive_run df df' r :
  clean_and_derive py_repr df = (df', r) ->
  nrows df' = nrows df /\
  (forall c, c ∉ assigned_columns -> columns df' !! c = columns df !! c) /\
  (r = Ok tt ->
     is_Some (columns df' !! "Margin") /\
     columns df' !! "IsCancelled" = Some (cancelled_column df) /\
     columns df' !! "실결제 금액" =
       cleaned_paid_amount py_repr <$> columns df !! "실결제 금액").
Proof.
  unfold clean_and_derive, mbind, M_bind.
  destruct (clean_paid_amount_run df) as (df1 & -> & Hn1 & Hf1 & Hp1).
  destruct (derive_margin py_repr df1) as [df2 r2] eqn:H2.
  apply derive_margin_run in H2 as (Hn2 & Hf2 & Hm2).
  assert (Hother : forall c, c ∉ assigned_columns ->
            columns df2 !! c = columns df !! c).
  { intros c Hc. unfold assigned_columns in Hc.
    rewrite !not_elem_of_cons in Hc. destruct Hc as (? & ? & ? & ? & _).
    rewrite Hf2, Hf1 by assumption. reflexivity. }
  destruct r2 as [[]|e].
  - rewrite flag_cancelled_run. intros [= <- <-]. simpl.
    split; [congruence|]. split; [|intros _; split; [|split]].
    + intros c Hc. pose proof (Hother c Hc) as <-.
      unfold assigned_columns in Hc. rewrite !not_elem_of_cons in Hc.
      apply lookup_insert_ne. intuition congruence.
    + rewrite lookup_insert_ne by discriminate. auto.
    + rewrite lookup_insert_eq. f_equal. unfold cancelled_column.
      rewrite Hn2, Hn1, Hf2, Hf1 by discriminate. reflexivity.
    + rewrite lookup_insert_ne, Hf2 by discriminate. assumption.
  - intros [= <- <-]. split; [congruence|]. split; [assumption|discriminate].
Qed.

(** ** Rows of the summary *)

Lemma run_row df df' out r :
  calculate_seller_metrics py_repr df df' (Ok out) -> r ∈ out ->
  clean_and_derive py_repr df = (df', Ok tt) /\
  exists stats, summarize df' = Ok stats /\ r ∈ stats /\ stats ≡ₚ out.
Proof.
  intros (stats & Hrun & Hperm & _)%calculate_seller_metrics_inv Hr.
  apply seller_stats_inv in Hrun as [Hclean Hsum].
  split; [assumption|]. exists stats. split; [assumption|].
  split; [|assumption]. rewrite Hperm. assumption.
Qed.

Ltac not_assigned :=
  unfold assigned_columns; rewrite !not_elem_of_cons;
  repeat split; try discriminate; apply not_elem_of_nil.

Lemma select_map f m vs : select m (map f vs) = map f (select m vs).
Proof.
  unfold select. revert vs.
  induction m as [|b m IH]; intros [|v vs]; simpl; try reflexivity.
  destruct b; simpl; rewrite IH; reflexivity.
Qed.

Lemma filter_bool_ext_length {A} (p q : A -> bool) l :
  (forall x, p x = q x) -> length (List.filter p l) = length (List.filter q l).
Proof. intros H. rewrite (filter_ext p q H). reflexivity. Qed.

Lemma filter_bool_length_le {A} (p : A -> bool) l :
  (length (List.filter p l) <= length l)%nat.
Proof. induction l as [|x l IH]; simpl; [lia|]. destruct (p x); simpl; lia. Qed.

Lemma zip_length_le (ks vs : list cell) : (length (zip ks vs) <= length ks)%nat.
Proof.
  revert vs. induction ks as [|k ks IH]; intros [|v vs]; simpl; try lia.
  specialize (IH vs). lia.
Qed.

Lemma rows_with_select ks vs k c :
  notna k = true ->
  length (List.filter (fun x => bool_decide (x = c)) (select (eq_scalar ks k) vs)) =
  rows_with ks vs k c.
Proof.
  intros Hk. rewrite count_select by assumption. unfold rows_with.
  apply filter_bool_ext_length. intros [a b]. simpl.
  destruct (bool_decide_reflect (a = k)), (bool_decide_reflect (b = c)),
    (bool_decide_reflect ((a, b) = (k, c))); simpl; congruence.
Qed.

Lemma wrap64_small z : - 2 ^ 63 <= z < 2 ^ 63 -> wrap64 z = z.
Proof. intros H. unfold wrap64. rewrite Z.mod_small; lia. Qed.

(** ** C7: the order count *)

(** C7.  For every row of the seller summary, [OrderCount] is the number
    of distinct order ids among the rows of that seller: whenever [ids]
    lists, without repetition, the non-missing cells of the order-id
    column on the rows of the seller, [OrderCount] is the length of
    [ids], however many rows share an id. *)
Theorem order_count_is_distinct_order_ids df df' out r sellers order_id ids :
  calculate_seller_metrics py_repr df df' (Ok out) ->
  r ∈ out ->
  columns df !! "셀러명" = Some sellers ->
  columns df !! "주문번호" = Some order_id ->
  NoDup ids ->
  (forall x, x ∈ ids <->
     notna x = true /\ (seller r, x) ∈ zip (values sellers) (values order_id)) ->
  OrderCount r = Z.of_nat (length ids).
Proof.
  intros Hrun Hr Hs Ho Hnd Hids.
  destruct (run_row _ _ _ _ Hrun Hr) as (Hclean & stats & Hsum & Hrs & _).
  apply clean_and_derive_run in Hclean as (_ & Hframe & _).
  destruct (summarize_row _ _ _ Hsum Hrs)
    as (s' & paid & margin & o' & qty & canc & od & Hs' & _ & _ & Ho' & _ & _ & _ & Hk & Hrow).
  rewrite Hframe in Hs' by not_assigned. rewrite Hframe in Ho' by not_assigned.
  assert (s' = sellers) as -> by congruence.
  assert (o' = order_id) as -> by congruence.
  apply seller_row_fields in Hrow as (_ & _ & -> & _).
  apply elem_of_group_keys in Hk as [_ Hk].
  apply nunique_spec; [assumption|].
  intros x. rewrite Hids, elem_of_select. section_tauto.
Qed.

(** ** C9: the cancellation count *)

Lemma is_cancelled_Y x : is_cancelled x = Int 1 <-> x = Str "Y".
Proof.
  unfold is_cancelled. destruct (bool_decide_reflect (x = Str "Y")); split;
    intros; try discriminate; try reflexivity; auto; contradiction.
Qed.

Lemma sum_flags_fold l acc :
  fold_left (fun a c => match c with Int z => a + z | _ => a end)
    (map is_cancelled l) acc =
  acc + Z.of_nat (length (List.filter (fun x => bool_decide (x = Str "Y")) l)).
Proof.
  revert acc. induction l as [|x l IH]; intros acc; simpl; [lia|].
  rewrite IH. unfold is_cancelled.
  destruct (bool_decide (x = Str "Y")); simpl; lia.
Qed.

Lemma sum_zeros_fold l acc :
  (forall c, c ∈ l -> c = Int 0) ->
  fold_left (fun a c => match c with Int z => a + z | _ => a end) l acc = acc.
Proof.
  revert acc. induction l as [|x l IH]; intros acc H; simpl; [reflexivity|].
  rewrite (H x) by left. rewrite IH; [lia|]. intros; apply H; right; assumption.
Qed.

Lemma elem_of_select_sub m vs x : x ∈ select m vs -> x ∈ vs.
Proof.
  unfold select. revert vs.
  induction m as [|b m IH]; intros [|v vs]; simpl; try (intros []%elem_of_nil).
  destruct b; simpl.
  - intros [->|H]%elem_of_cons; [left|right; auto].
  - intros H. right. auto.
Qed.

(** C9.  A row counts as cancelled exactly when its flag cell is the
    string ["Y"]: [CancelCount] of a seller is the number of rows of that
    seller whose flag cell is ["Y"] (any other cell, ["N"], ["y"], empty
    or missing, adds nothing), and it is 0 for every seller when the flag
    column is absent.  The table has fewer than 2^63 rows. *)
Theorem cancel_count_is_rows_flagged_Y df df' out r sellers :
  calculate_seller_metrics py_repr df df' (Ok out) ->
  r ∈ out ->
  columns df !! "셀러명" = Some sellers ->
  Z.of_nat (length (values sellers)) < 2 ^ 63 ->
  (forall x, is_cancelled x = Int 1 <-> x = Str "Y") /\
  (forall x, x <> Str "Y" -> is_cancelled x = Int 0) /\
  (forall flag, columns df !! "취소여부" = Some flag ->
     CancelCount r =
       Z.of_nat (rows_with (values sellers) (values flag) (seller r) (Str "Y"))) /\
  (columns df !! "취소여부" = None -> CancelCount r = 0).
Proof.
  intros Hrun Hr Hs Hlen.
  split; [apply is_cancelled_Y|].
  split.
  { intros x Hx. unfold is_cancelled. rewrite bool_decide_eq_false_2; auto. }
  destruct (run_row _ _ _ _ Hrun Hr) as (Hclean & stats & Hsum & Hrs & _).
  apply clean_and_derive_run in Hclean as (_ & Hframe & Hok).
  destruct (Hok eq_refl) as (_ & Hcanc & _).
  destruct (summarize_row _ _ _ Hsum Hrs)
    as (s' & paid & margin & o' & qty & canc & od & Hs' & _ & _ & _ & _ & Hc' & _ & Hk & Hrow).
  rewrite Hframe in Hs' by not_assigned.
  assert (s' = sellers) as -> by congruence.
  assert (canc = cancelled_column df) as -> by congruence.
  apply seller_row_fields in Hrow as (_ & _ & _ & -> & _).
  apply elem_of_group_keys in Hk as [_ Hk].
  unfold cancelled_column, sum_int64. split.
  - intros flag ->. cbn [apply_int values]. rewrite select_map, sum_flags_fold.
    rewrite rows_with_select by assumption. simpl.
    apply wrap64_small.
    pose proof (filter_bool_length_le (fun p => bool_decide (p = (seller r, Str "Y")))
                  (zip (values sellers) (values flag))).
    pose proof (zip_length_le (values sellers) (values flag)).
    unfold rows_with. lia.
  - intros ->. rewrite sum_zeros_fold; [reflexivity|].
    intros c Hc%elem_of_select_sub. simpl in Hc.
    apply elem_of_replicate in Hc as [-> _]. reflexivity.
Qed.

(** ** C3: the repurchase rate of the aggregator *)

Lemma filter_bool_Permutation {A} (p : A -> bool) (l k : list A) :
  l ≡ₚ k -> List.filter p l ≡ₚ List.filter p k.
Proof.
  induction 1 as [|x l k _ IH|x y l|l k m _ IH1 _ IH2]; simpl.
  - reflexivity.
  - destruct (p x); [constructor|]; assumption.
  - destruct (p x), (p y); try reflexivity. apply perm_swap.
  - etransitivity; eassumption.
Qed.

Lemma filter_map_length {A B} (f : A -> B) (p : B -> bool) (l : list A) :
  length (List.filter p (map f l)) = length (List.filter (fun x => p (f x)) l).
Proof.
  induction l as [|x l IH]; simpl; [reflexivity|].
  destruct (p (f x)); simpl; rewrite IH; reflexivity.
Qed.

(** [repurchase_rate] in terms of the rows of the table: [custs] lists the
    distinct customers of seller [k]. *)
Lemma repurchase_rate_spec sellers contacts k custs :
  notna k = true ->
  NoDup custs ->
  (forall c, c ∈ custs <-> notna c = true /\ (k, c) ∈ zip sellers contacts) ->
  repurchase_rate sellers contacts k =
    if decide (custs = []) then F64.zero
    else percent
      (F64.of_Z (Z.of_nat (length
         (List.filter (fun c => (1 <? rows_with sellers contacts k c)%nat) custs))))
      (F64.of_Z (Z.of_nat (length custs))).
Proof.
  intros Hk Hnd Hc. unfold repurchase_rate, value_counts.
  set (X := select (eq_scalar sellers k) contacts).
  assert (HP : unique (dropna X) ≡ₚ custs).
  { apply NoDup_Permutation; [apply NoDup_unique|assumption|].
    intros c. rewrite elem_of_unique, elem_of_dropna, Hc.
    unfold X. rewrite elem_of_select. section_tauto. }
  rewrite length_map, (Permutation_length HP).
  rewrite (filter_map_length (fun k0 => (k0, count_eq k0 X)) (fun kv => 1 <? snd kv)).
  simpl.
  rewrite (Permutation_length (filter_bool_Permutation _ _ _ HP)).
  rewrite (filter_bool_ext_length _
             (fun c => (1 <? rows_with sellers contacts k c)%nat)).
  2:{ intros c. unfold count_eq, X. rewrite rows_with_select by assumption.
      destruct (Nat.ltb_spec 1 (rows_with sellers contacts k c)),
        (Z.ltb_spec 1 (Z.of_nat (rows_with sellers contacts k c))); try reflexivity; lia. }
  destruct custs as [|c custs]; simpl; [reflexivity|].
  destruct (decide (c :: custs = [])) as [|_]; [discriminate|].
  reflexivity.
Qed.

(** C3.  [RepurchaseRate] of a seller is computed over the rows of that
    seller alone, from the number of rows of each customer identity: a
    customer is repurchasing when more than one row carries it, and the
    rate is repurchasing customers / distinct customers * 100, 0 when the
    seller has no customer; it is 0 for every seller when the identity
    column is absent. *)
Theorem repurchase_rate_counts_rows df df' out r sellers :
  calculate_seller_metrics py_repr df df' (Ok out) ->
  r ∈ out ->
  columns df !! "셀러명" = Some sellers ->
  (forall contacts custs,
     columns df !! "주문자연락처" = Some contacts ->
     NoDup custs ->
     (forall c, c ∈ custs <->
        notna c = true /\ (seller r, c) ∈ zip (values sellers) (values contacts)) ->
     let repurchasing :=
       List.filter
         (fun c => (1 <? rows_with (values sellers) (values contacts) (seller r) c)%nat)
         custs in
     RepurchaseRate r =
       if decide (custs = []) then F64.zero
       else percent (F64.of_Z (Z.of_nat (length repurchasing)))
              (F64.of_Z (Z.of_nat (length custs)))) /\
  (columns df !! "주문자연락처" = None -> RepurchaseRate r = F64.zero).
Proof.
  intros Hrun Hr Hs.
  destruct (run_row _ _ _ _ Hrun Hr) as (Hclean & stats & Hsum & Hrs & _).
  apply clean_and_derive_run in Hclean as (_ & Hframe & _).
  destruct (summarize_row _ _ _ Hsum Hrs)
    as (s' & paid & margin & o' & qty & canc & od & Hs' & _ & _ & _ & _ & _ & _ & Hk & Hrow).
  rewrite Hframe in Hs' by not_assigned.
  assert (s' = sellers) as -> by congruence.
  apply seller_row_fields in Hrow as (_ & _ & _ & _ & _ & _ & _ & Hrate & _).
  unfold optional_column in Hrate. rewrite Hframe in Hrate by not_assigned.
  apply elem_of_group_keys in Hk as [_ Hk].
  split.
  - intros contacts custs Hc Hnd Hcusts. rewrite Hc in Hrate. simpl in Hrate.
    rewrite Hrate. apply repurchase_rate_spec; assumption.
  - intros Hc. rewrite Hc in Hrate. exact Hrate.
Qed.

(** ** C5: what the call does to its argument *)

Lemma calculate_seller_metrics_frame df df' out :
  calculate_seller_metrics py_repr df df' out ->
  exists r0, clean_and_derive py_repr df = (df', r0) /\
    (forall rows, out = Ok rows -> r0 = Ok tt).
Proof.
  unfold calculate_seller_metrics, seller_stats, mbind, M_bind, reading.
  destruct (clean_and_derive py_repr df) as [d [[]|e]].
  - destruct (summarize d); [intros (-> & _)|intros (-> & _)]; eauto.
  - intros (-> & ->). eexists. split; [reflexivity|]. discriminate.
Qed.

(** C5 (amended).  A call of [calculate_seller_metrics] that finds no
    stored value under the digest of its argument runs the body, which
    assigns columns of the table it is given: the table keeps its number
    of rows and every column other than [실결제 금액], [SupplyCost],
    [Margin] and [IsCancelled]; when the call returns rows, [Margin] and
    [IsCancelled] are present, [실결제 금액] holds its numeric coercion
    and the rows are stored under the digest.  A call that finds stored
    rows returns them and leaves the table and the cache as they are. *)
Theorem assigns_only_derived_columns digest cache df cache' df' out :
  cached_calculate_seller_metrics py_repr digest cache df cache' df' out ->
  nrows df' = nrows df /\
  (forall c, c ∉ assigned_columns -> columns df' !! c = columns df !! c) /\
  (forall rows, cache !! digest df = Some rows ->
     df' = df /\ cache' = cache /\ out = Ok rows) /\
  (cache !! digest df = None ->
   forall rows, out = Ok rows ->
     is_Some (columns df' !! "Margin") /\
     columns df' !! "IsCancelled" = Some (cancelled_column df) /\
     columns df' !! "실결제 금액" =
       cleaned_paid_amount py_repr <$> columns df !! "실결제 금액" /\
     cache' = <[digest df := rows]> cache).
Proof.
  unfold cached_calculate_seller_metrics.
  destruct (cache !! digest df) as [stored|] eqn:Hkey.
  - intros (-> & -> & ->).
    split; [reflexivity|]. split; [reflexivity|]. split.
    + intros rows [= <-]. auto.
    + discriminate.
  - intros [Hrun ->].
    destruct (calculate_seller_metrics_frame _ _ _ Hrun) as (r0 & Hclean & Hok).
    apply clean_and_derive_run in Hclean as (Hn & Hframe & Hcols).
    split; [assumption|]. split; [assumption|]. split; [discriminate|].
    intros _ rows ->.
    destruct (Hcols (Hok _ eq_refl)) as (Hm & Hc & Hp). auto.
Qed.

(** ** C6: the order of the output *)

Lemma StronglySorted_lookup {A} (R : A -> A -> Prop) l i j a b :
  StronglySorted R l -> (i < j)%nat -> l !! i = Some a -> l !! j = Some b -> R a b.
Proof.
  intros Hs. revert i j. induction Hs as [|x l _ IH Hall]; intros i j Hij Hi Hj.
  - rewrite lookup_nil in Hi. discriminate.
  - destruct j as [|j]; [lia|]. simpl in Hj.
    destruct i as [|i]; simpl in Hi.
    + injection Hi as ->. rewrite List.Forall_forall in Hall. apply Hall.
      apply list_elem_of_In, list_elem_of_lookup. eauto.
    + apply (IH i j); [lia|assumption..].
Qed.

(** With a kernel that sorts, the call is one of the runs
    [calculate_seller_metrics] describes. *)
Lemma calculate_seller_metrics_with_run argsort df df' out :
  argsort_ok argsort ->
  calculate_seller_metrics_with py_repr argsort df = (df', out) ->
  calculate_seller_metrics py_repr df df' out.
Proof.
  intros Hok. unfold calculate_seller_metrics_with, calculate_seller_metrics.
  destruct (seller_stats py_repr df) as [d [stats|e]]; intros [= <- <-].
  - split; [reflexivity|]. eexists. split; [reflexivity|].
    apply sort_values_by_desc_sorts. assumption.
  - split; reflexivity.
Qed.

(** C6 (amended).  Whenever the [argsort] kernel of the final sort
    returns the positions of its keys in ascending order, the seller
    summary holds the rows of the aggregation, each once, in descending
    order of [TotalRevenue]: of two rows, the later one has a smaller or
    equal revenue, rows whose revenue is NaN coming last.  (The order
    among sellers of equal revenue is the one the kernel leaves.) *)
Theorem output_sorted_by_revenue argsort df df' out :
  argsort_ok argsort ->
  calculate_seller_metrics_with py_repr argsort df = (df', Ok out) ->
  (exists stats, seller_stats py_repr df = (df', Ok stats) /\ stats ≡ₚ out) /\
  forall i j a b,
    (i < j)%nat -> out !! i = Some a -> out !! j = Some b ->
    F64.is_nan (TotalRevenue b) = true \/
    (F64.is_nan (TotalRevenue a) = false /\
     F64.geb (TotalRevenue a) (TotalRevenue b) = true).
Proof.
  intros Hok Hrun.
  apply calculate_seller_metrics_with_run in Hrun; [|assumption].
  apply calculate_seller_metrics_inv in Hrun as (stats & Hstats & Hperm & Hsorted).
  split; [eauto|].
  intros i j a b Hij Hi Hj.
  apply Sorted_StronglySorted in Hsorted.
  - exact (StronglySorted_lookup _ _ _ _ _ _ Hsorted Hij Hi Hj).
  - intros x y z. apply desc_step_trans.
Qed.

(** ** C8: tenure and recency *)

Lemma ts_fold_spec (f : Z -> Z -> Z) (R : Z -> Z -> Prop) :
  (forall a t, f a t = a \/ f a t = t) ->
  (forall a t, R (f a t) a) -> (forall a t, R (f a t) t) ->
  (forall a, R a a) -> (forall a b c, R a b -> R b c -> R a c) ->
  forall vs acc,
    match ts_fold f acc vs with
    | Some m =>
        (acc = Some m \/ Ts m ∈ vs) /\
        (forall a, acc = Some a -> R m a) /\
        (forall t, Ts t ∈ vs -> R m t)
    | None => acc = None /\ forall t, Ts t ∉ vs
    end.
Proof.
  intros Hsel Hl Hr Hrefl Htrans.
  induction vs as [|c vs IH]; intros acc.
  - simpl. destruct acc as [a|].
    + split; [auto|]. split; [intros ? [= <-]; apply Hrefl|].
      intros t []%elem_of_nil.
    + split; [reflexivity|]. intros t []%elem_of_nil.
  - assert (Hskip : (forall t, c <> Ts t) ->
        match ts_fold f acc vs with
        | Some m =>
            (acc = Some m \/ Ts m ∈ c :: vs) /\
            (forall a, acc = Some a -> R m a) /\
            (forall t, Ts t ∈ c :: vs -> R m t)
        | None => acc = None /\ forall t, Ts t ∉ c :: vs
        end).
    { intros Hc. specialize (IH acc). destruct (ts_fold f acc vs) as [m|].
      - destruct IH as (H1 & H2 & H3). split; [|split].
        + destruct H1; [left|right; right]; assumption.
        + assumption.
        + intros t [Ht|Ht]%elem_of_cons; [symmetry in Ht; destruct (Hc _ Ht)|auto].
      - destruct IH as [H1 H2]. split; [assumption|].
        intros t [Ht|Ht]%elem_of_cons; [symmetry in Ht; destruct (Hc _ Ht)|].
        exact (H2 _ Ht). }
    destruct c as [|s|z|x|t|d]; try (apply Hskip; discriminate).
    clear Hskip. simpl.
    specialize (IH (Some match acc with Some a => f a t | None => t end)).
    destruct (ts_fold f _ vs) as [m|]; [|destruct IH; discriminate].
    destruct IH as (H1 & H2 & H3).
    pose proof (H2 _ eq_refl) as Hm.
    split; [|split].
    + destruct H1 as [[= H1]|H1]; [|right; right; assumption].
      destruct acc as [a|]; [|right; apply elem_of_cons; left; congruence].
      destruct (Hsel a t) as [E|E]; rewrite E in H1;
        [left|right; apply elem_of_cons; left]; congruence.
    + intros a ->. eapply Htrans; [exact Hm|apply Hl].
    + intros t' [[= ->]|Ht]%elem_of_cons; [|auto].
      destruct acc as [a|]; [|assumption].
      eapply Htrans; [exact Hm|apply Hr].
Qed.

Lemma ts_min_is vs lo :
  Ts lo ∈ vs -> (forall t, Ts t ∈ vs -> lo <= t) -> ts_min vs = Some lo.
Proof.
  intros Hin Hlo. unfold ts_min.
  pose proof (ts_fold_spec Z.min Z.le) as H.
  specialize (H ltac:(lia) ltac:(lia) ltac:(lia) ltac:(lia) ltac:(lia) vs None).
  destruct (ts_fold Z.min None vs) as [m|].
  - destruct H as ([[=]|Hm] & _ & Hall).
    f_equal. pose proof (Hall _ Hin). pose proof (Hlo _ Hm). lia.
  - destruct H as [_ H]. destruct (H _ Hin).
Qed.

Lemma ts_max_is vs hi :
  Ts hi ∈ vs -> (forall t, Ts t ∈ vs -> t <= hi) -> ts_max vs = Some hi.
Proof.
  intros Hin Hhi. unfold ts_max.
  pose proof (ts_fold_spec Z.max Z.ge) as H.
  specialize (H ltac:(lia) ltac:(lia) ltac:(lia) ltac:(lia) ltac:(lia) vs None).
  destruct (ts_fold Z.max None vs) as [m|].
  - destruct H as ([[=]|Hm] & _ & Hall).
    f_equal. pose proof (Hall _ Hin). pose proof (Hhi _ Hm). lia.
  - destruct H as [_ H]. destruct (H _ Hin).
Qed.

(** *** The aggregation returns on a table it can aggregate *)

Lemma to_f64_numeric c : numeric c = true -> exists f, to_f64 c = Ok f.
Proof. destruct c; try discriminate; simpl; eauto. Qed.

Lemma sum_float64_numeric vs : all_numeric vs -> exists f, sum_float64 vs = Ok f.
Proof.
  intros H. unfold sum_float64, mbind, result_bind.
  destruct (traverse_Ok_intro to_f64 vs) as [fs ->].
  - intros c Hc. apply to_f64_numeric, H, Hc.
  - eexists. reflexivity.
Qed.

Lemma all_numeric_select m vs : all_numeric vs -> all_numeric (select m vs).
Proof. intros H c Hc%elem_of_select_sub. apply H, Hc. Qed.

Lemma all_numeric_forallb vs : forallb numeric vs = true -> all_numeric vs.
Proof.
  intros H c Hc. rewrite forallb_forall in H. apply H, list_elem_of_In, Hc.
Qed.

Lemma series_binop_numeric op a b :
  all_numeric (values a) -> all_numeric (values b) ->
  exists s, series_binop op a b = Ok s /\ all_numeric (values s).
Proof.
  intros Ha Hb. unfold series_binop, mbind, result_bind.
  destruct (traverse_Ok_intro (cell_binop op) (zip (values a) (values b))) as [vs Hvs].
  - intros [x y] Hxy. unfold cell_binop, mbind, result_bind. simpl.
    destruct (to_f64_numeric x) as [fx ->]; [eapply Ha, elem_of_zip_l, Hxy|].
    destruct (to_f64_numeric y) as [fy ->]; [eapply Hb, elem_of_zip_r, Hxy|].
    eexists. reflexivity.
  - rewrite Hvs. eexists. split; [reflexivity|]. simpl.
    intros c Hc. destruct (traverse_Ok_elem _ _ _ _ Hvs Hc) as ([x y] & _ & Hxy).
    unfold cell_binop, mbind, result_bind, mret, result_ret in Hxy. simpl in Hxy.
    destruct (to_f64 x); [|discriminate]. destruct (to_f64 y); [|discriminate].
    injection Hxy as <-. reflexivity.
Qed.

Lemma numeric_to_numeric_cell x : numeric (to_numeric_cell x) = true.
Proof. destruct x; simpl; try reflexivity. destruct (pd_parse s); reflexivity. Qed.

Lemma numeric_to_float_cell x : numeric (to_float_cell x) = true.
Proof. destruct x; simpl; try reflexivity. destruct (pd_parse s); reflexivity. Qed.

Lemma all_numeric_to_numeric s : all_numeric (values (to_numeric_coerce s)).
Proof.
  intros c. unfold to_numeric_coerce. destruct (dtype s).
  - destruct (mapM to_int_cell (values s)) as [zs|]; cbn [values].
    + intros (z & <- & _)%elem_of_map. reflexivity.
    + intros (x & <- & _)%elem_of_map. apply numeric_to_float_cell.
  - cbn [values]. intros (x & <- & _)%elem_of_map. apply numeric_to_numeric_cell.
  - cbn [values]. intros (x & <- & _)%elem_of_map. apply numeric_to_numeric_cell.
  - cbn [values]. intros (x & <- & _)%elem_of_map. apply numeric_to_numeric_cell.
Qed.

(** The cleaning of [calculate_seller_metrics] leaves a number in every
    cell, whatever the cell held. *)
Lemma cleaned_cell_defined s c :
  c ∈ values (fillna0 (to_numeric_coerce s)) -> numeric c = true /\ isna c = false.
Proof.
  unfold fillna0. cbn [values]. intros (x & <- & Hx)%elem_of_map.
  destruct (isna x) eqn:E.
  - destruct (dtype (to_numeric_coerce s)); split; reflexivity.
  - split; [|exact E]. apply (all_numeric_to_numeric s), Hx.
Qed.

Lemma all_numeric_cleaned s : all_numeric (values (fillna0 (to_numeric_coerce s))).
Proof. intros c Hc. apply (cleaned_cell_defined s c Hc). Qed.

Lemma all_numeric_cleaned_paid s : all_numeric (values (cleaned_paid_amount py_repr s)).
Proof. apply all_numeric_cleaned. Qed.

Lemma derive_margin_returns df paid qty :
  columns df !! "실결제 금액" = Some paid -> all_numeric (values paid) ->
  columns df !! "주문수량" = Some qty -> all_numeric (values qty) ->
  exists df2 margin,
    derive_margin py_repr df = (df2, Ok tt) /\
    columns df2 !! "Margin" = Some margin /\ all_numeric (values margin).
Proof.
  intros Hp Hpn Hq Hqn.
  unfold derive_margin, mbind, M_bind, contains, getitem, column, lift, setitem,
    setitem_scalar.
  destruct (columns df !! "공급단가") as [sp|] eqn:Hsp.
  - rewrite (has_column_Some _ _ _ Hsp), Hsp, Hq.
    match goal with |- context [series_binop F64.mul ?a qty] =>
      destruct (series_binop_numeric F64.mul a qty) as (cost & -> & Hcn) end.
    { apply all_numeric_cleaned. }
    { assumption. }
    simpl. rewrite lookup_insert_ne by discriminate. rewrite Hp, lookup_insert_eq.
    destruct (series_binop_numeric F64.sub paid cost Hpn Hcn) as (margin & -> & Hmn).
    eexists _, margin. split; [reflexivity|]. simpl.
    rewrite lookup_insert_eq. auto.
  - rewrite (has_column_None _ _ Hsp).
    eexists _, _. split; [reflexivity|]. simpl. rewrite lookup_insert_eq.
    split; [reflexivity|]. simpl.
    intros c [-> _]%elem_of_replicate. reflexivity.
Qed.

Lemma clean_and_derive_returns df :
  aggregable df ->
  exists df' paid margin qty,
    clean_and_derive py_repr df = (df', Ok tt) /\
    columns df' !! "실결제 금액" = Some paid /\ all_numeric (values paid) /\
    columns df' !! "Margin" = Some margin /\ all_numeric (values margin) /\
    columns df' !! "주문수량" = Some qty /\ all_numeric (values qty).
Proof.
  intros (_ & [p Hp] & _ & qty & Hq & Hqn%all_numeric_forallb).
  destruct (clean_paid_amount_run df) as (df1 & H1 & _ & Hf1 & Hp1).
  rewrite Hp in Hp1. simpl in Hp1.
  destruct (derive_margin_returns df1 _ qty Hp1 (all_numeric_cleaned_paid p))
    as (df2 & margin & H2 & Hm & Hmn).
  { rewrite Hf1 by discriminate. assumption. }
  { assumption. }
  pose proof (derive_margin_run _ _ _ H2) as (_ & Hf2 & _).
  exists (assign "IsCancelled" (cancelled_column df2) df2), (cleaned_paid_amount py_repr p),
    margin, qty.
  split.
  { unfold clean_and_derive, mbind, M_bind. rewrite H1, H2. apply flag_cancelled_run. }
  rewrite !lookup_assign_ne by discriminate.
  rewrite (Hf2 "실결제 금액"), (Hf2 "주문수량") by discriminate.
  rewrite (Hf1 "주문수량") by discriminate.
  split; [assumption|]. split; [apply all_numeric_cleaned_paid|].
  split; [assumption|]. split; [assumption|]. split; assumption.
Qed.

Lemma seller_row_returns sellers paid margin order_id qty cancelled contacts od k :
  all_numeric paid -> all_numeric margin -> all_numeric qty ->
  exists r, seller_row sellers paid margin order_id qty cancelled contacts od k = Ok r.
Proof.
  intros Hp Hm Hq. unfold seller_row, mbind, result_bind.
  destruct (sum_float64_numeric (select (eq_scalar sellers k) paid)) as [tr ->];
    [apply all_numeric_select, Hp|].
  destruct (sum_float64_numeric (select (eq_scalar sellers k) margin)) as [tm ->];
    [apply all_numeric_select, Hm|].
  destruct (sum_float64_numeric (select (eq_scalar sellers k) qty)) as [tq ->];
    [apply all_numeric_select, Hq|].
  eexists. reflexivity.
Qed.

(** On a table it can aggregate, and without the date column, the
    aggregation returns a summary. *)
Lemma calculate_seller_metrics_returns df :
  aggregable df -> columns df !! "OrderDate" = None ->
  exists df' out, calculate_seller_metrics py_repr df df' (Ok out).
Proof.
  intros Hagg Hod.
  destruct (clean_and_derive_returns df Hagg)
    as (df' & paid & margin & qty & Hclean & Hp & Hpn & Hm & Hmn & Hq & Hqn).
  pose proof (clean_and_derive_run _ _ _ Hclean) as (_ & Hframe & Hok).
  destruct (Hok eq_refl) as (_ & Hc & _).
  destruct Hagg as ([s Hs] & _ & [o Ho] & _).
  assert (exists stats, summarize df' = Ok stats) as [stats Hstats].
  { unfold summarize, column, mbind, result_bind.
    rewrite (Hframe "셀러명"), Hs by not_assigned.
    rewrite Hp, Hm.
    rewrite (Hframe "주문번호"), Ho by not_assigned.
    rewrite Hq, Hc.
    rewrite (Hframe "OrderDate"), Hod by not_assigned.
    apply traverse_Ok_intro. intros k _.
    apply seller_row_returns; assumption. }
  destruct (sort_values_desc_exists TotalRevenue stats) as [out Hout].
  exists df', out. eapply calculate_seller_metrics_intro; [|exact Hout].
  unfold seller_stats, mbind, M_bind, reading. rewrite Hclean, Hstats. reflexivity.
Qed.

(** C8.  With the order-date column present, [TenureDays] of a seller is
    the number of whole days from its first to its last order date plus
    1, and [RecencyDays] the number of whole days from its last order
    date to the latest order date of the table.  With the column absent,
    both are 0, and the aggregation still returns its summary. *)
Theorem tenure_and_recency df :
  (forall df' out r sellers od first last latest,
     calculate_seller_metrics py_repr df df' (Ok out) ->
     r ∈ out ->
     columns df !! "셀러명" = Some sellers ->
     columns df !! "OrderDate" = Some od ->
     (seller r, Ts first) ∈ zip (values sellers) (values od) ->
     (forall t, (seller r, Ts t) ∈ zip (values sellers) (values od) -> first <= t) ->
     (seller r, Ts last) ∈ zip (values sellers) (values od) ->
     (forall t, (seller r, Ts t) ∈ zip (values sellers) (values od) -> t <= last) ->
     Ts latest ∈ values od ->
     (forall t, Ts t ∈ values od -> t <= latest) ->
     TenureDays r = Some ((last - first) / ns_per_day + 1) /\
     RecencyDays r = Some ((latest - last) / ns_per_day)) /\
  (forall df' out r,
     calculate_seller_metrics py_repr df df' (Ok out) ->
     r ∈ out ->
     columns df !! "OrderDate" = None ->
     TenureDays r = Some 0 /\ RecencyDays r = Some 0) /\
  (aggregable df -> columns df !! "OrderDate" = None ->
   exists df' out, calculate_seller_metrics py_repr df df' (Ok out)).
Proof.
  split; [|split].
  - intros df' out r sellers od first last latest Hrun Hr Hs Hod Hf1 Hf2 Hl1 Hl2 Hm1 Hm2.
    destruct (run_row _ _ _ _ Hrun Hr) as (Hclean & stats & Hsum & Hrs & _).
    apply clean_and_derive_run in Hclean as (_ & Hframe & _).
    destruct (summarize_row _ _ _ Hsum Hrs)
      as (s' & paid & margin & o' & qty & canc & od' & Hs' & _ & _ & _ & _ & _ & Hod'
          & Hk & Hrow).
    rewrite Hframe in Hs' by not_assigned. rewrite Hframe, Hod in Hod' by not_assigned.
    assert (s' = sellers) as -> by congruence. subst od'.
    apply seller_row_fields in Hrow as (_ & _ & _ & _ & _ & _ & _ & _ & -> & ->).
    apply elem_of_group_keys in Hk as [_ Hk].
    rewrite (ts_min_is _ first), (ts_max_is _ last), (ts_max_is _ latest);
      try assumption;
      try (apply elem_of_select; split; assumption);
      try (intros t Ht%elem_of_select; destruct Ht; auto).
    split; reflexivity.
  - intros df' out r Hrun Hr Hod.
    destruct (run_row _ _ _ _ Hrun Hr) as (Hclean & stats & Hsum & Hrs & _).
    apply clean_and_derive_run in Hclean as (_ & Hframe & _).
    destruct (summarize_row _ _ _ Hsum Hrs)
      as (s' & paid & margin & o' & qty & canc & od' & _ & _ & _ & _ & _ & _ & Hod'
          & _ & Hrow).
    rewrite Hframe, Hod in Hod' by not_assigned. subst od'.
    apply seller_row_fields in Hrow as (_ & _ & _ & _ & _ & _ & _ & _ & -> & ->).
    split; reflexivity.
  - apply calculate_seller_metrics_returns.
Qed.

(** ** C10: the two repurchase rates *)

Variable parse_datetime : string -> option Z.

Lemma to_datetime_dtype W T : to_datetime parse_datetime W = Ok T -> dtype T = datetime64.
Proof.
  unfold to_datetime, mbind, result_bind.
  destruct (traverse _ _); [|discriminate]. intros [= <-]. reflexivity.
Qed.


Lemma filter_bool_ext_in_length {A} (p q : A -> bool) l :
  (forall x, x ∈ l -> p x = q x) ->
  length (List.filter p l) = length (List.filter q l).
Proof.
  induction l as [|x l IH]; intros H; simpl; [reflexivity|].
  rewrite <- (H x) by left.
  destruct (p x); simpl; rewrite IH by (intros; apply H; right; assumption);
    reflexivity.
Qed.

Lemma select_nil_r m : select m [] = [].
Proof. destruct m; reflexivity. Qed.

(** Selecting the rows of a customer among the rows of a seller. *)
Lemma select_select S C D k c :
  notna k = true -> notna c = true ->
  select (eq_scalar (select (eq_scalar S k) C) c) (select (eq_scalar S k) D) =
  dates_with S C D k c.
Proof.
  intros Hk Hc. unfold dates_with. revert C D.
  induction S as [|s S IH]; intros C D; [reflexivity|].
  destruct C as [|c0 C]; [reflexivity|].
  destruct D as [|d0 D].
  { rewrite (select_nil_r (eq_scalar (s :: S) k)).
    rewrite (select_nil_r (eq_scalar _ c)). reflexivity. }
  specialize (IH C D). unfold select, eq_scalar in *. simpl.
  destruct (bool_decide_reflect (s = k)) as [->|Hs].
  - rewrite Hk. simpl.
    destruct (bool_decide_reflect (c0 = c)) as [->|Hc0].
    + rewrite Hc. simpl. rewrite bool_decide_eq_true_2 by reflexivity.
      simpl. f_equal. exact IH.
    + rewrite andb_false_r. rewrite bool_decide_eq_false_2 by congruence. exact IH.
  - rewrite andb_false_r. simpl.
    rewrite bool_decide_eq_false_2 by congruence. exact IH.
Qed.

(** The rate [report_row] computes, from the rows of the table: [custs]
    lists the distinct customers of seller [k], and a customer is
    repurchasing when it has more than one distinct order date with
    that seller. *)
Lemma report_row_rate sellers contacts dates paid k r custs :
  report_row py_repr sellers contacts dates paid k = Ok r ->
  notna k = true ->
  NoDup custs ->
  (forall c, c ∈ custs <-> notna c = true /\ (k, c) ∈ zip sellers contacts) ->
  Report.Seller r = k /\
  Report.TotalCustomers r = Z.of_nat (length custs) /\
  Report.RepurchasingCustomers r =
    Z.of_nat (length (List.filter
      (fun c => 1 <? nunique (dates_with sellers contacts dates k c)) custs)) /\
  Report.RepurchaseRate r =
    if decide (custs = []) then F64.zero
    else percent (F64.of_Z (Report.RepurchasingCustomers r))
           (F64.of_Z (Report.TotalCustomers r)).
Proof.
  intros Hrow Hk Hnd Hcusts. revert Hrow.
  unfold report_row, mbind, result_bind.
  destruct (astype_float _) as [amounts|]; [|discriminate].
  destruct (sum_float64 _) as [total|]; [|discriminate].
  unfold mret, result_ret. intros [= <-]. simpl.
  set (X := select (eq_scalar sellers k) contacts).
  set (Y := select (eq_scalar sellers k) dates).
  assert (HP : group_keys X ≡ₚ custs).
  { apply NoDup_Permutation; [apply NoDup_group_keys|assumption|].
    intros c. rewrite elem_of_group_keys, Hcusts. unfold X.
    rewrite elem_of_select. section_tauto. }
  assert (Htotal : nunique X = Z.of_nat (length custs)).
  { apply nunique_spec; [assumption|]. intros c. rewrite Hcusts. unfold X.
    rewrite elem_of_select. section_tauto. }
  assert (Hrep : Z.of_nat (length (List.filter (fun kv => 1 <? snd kv)
                   (groupby_nunique X Y))) =
                 Z.of_nat (length (List.filter
                   (fun c => 1 <? nunique (dates_with sellers contacts dates k c)) custs))).
  { f_equal. unfold groupby_nunique.
    rewrite (filter_map_length (fun c => (c, nunique (select (eq_scalar X c) Y)))
               (fun kv => 1 <? snd kv)). simpl.
    rewrite (filter_bool_ext_in_length _
               (fun c => 1 <? nunique (dates_with sellers contacts dates k c))).
    - apply Permutation_length, filter_bool_Permutation, HP.
    - intros c [_ Hc]%elem_of_group_keys. unfold X, Y.
      rewrite select_select by assumption. reflexivity. }
  split; [reflexivity|]. split; [assumption|]. split; [assumption|].
  rewrite Htotal, Hrep.
  destruct custs as [|c custs]; simpl; [reflexivity|].
  destruct (decide (c :: custs = [])) as [|_]; [discriminate|].
  reflexivity.
Qed.

(** The rows of the report come from [report_row] on the columns of the
    table and the dates derived from its timestamps. *)
Lemma analyze_seller_repurchase_row raw report r W T sellers contacts :
  analyze_seller_repurchase py_repr parse_datetime (Some raw) = Ok (Some report) ->
  r ∈ report ->
  columns raw !! "주문일" = Some W ->
  to_datetime parse_datetime W = Ok T ->
  columns raw !! "셀러명" = Some sellers ->
  columns raw !! "주문자연락처" = Some contacts ->
  exists paid,
    report_row py_repr (values sellers) (values contacts)
      (map date_of_cell (values T)) paid (Report.Seller r) = Ok r.
Proof.
  intros Hrun Hr HW HT Hs Hc. revert Hrun.
  unfold analyze_seller_repurchase, mbind, result_bind, column.
  rewrite (has_column_Some _ _ _ HW), HW, HT.
  unfold dt_date. rewrite (to_datetime_dtype _ _ HT).
  set (day := mkSeries object (map date_of_cell (values T))).
  set (df := assign "Date" day (assign "OrderDate" T raw)).
  destruct (forallb (has_column df) required_cols); [|discriminate].
  assert (columns df !! "셀러명" = Some sellers) as ->.
  { unfold df. rewrite !lookup_assign_ne by discriminate. assumption. }
  assert (columns df !! "주문자연락처" = Some contacts) as ->.
  { unfold df. rewrite !lookup_assign_ne by discriminate. assumption. }
  assert (columns df !! "Date" = Some day) as -> by apply lookup_assign_eq.
  destruct (columns df !! "실결제 금액") as [paid|]; [|discriminate].
  destruct (traverse _ _) as [results|] eqn:Ht; [|discriminate].
  destruct results as [|r0 results]; [discriminate|].
  unfold mret, result_ret. intros [= <-].
  destruct (traverse_Ok_elem _ _ _ _ Ht Hr) as (k & _ & Hrow).
  exists paid. simpl in Hrow.
  assert (Report.Seller r = k) as ->; [|exact Hrow].
  revert Hrow. unfold report_row, mbind, result_bind.
  destruct (astype_float _); [|discriminate].
  destruct (sum_float64 _); [|discriminate].
  intros [= <-]. reflexivity.
Qed.

(** C10.  The two per-seller repurchase rates are not equivalent.
    [analyze_seller_repurchase] counts a customer of a seller as
    repurchasing when the customer has more than one distinct order date
    with that seller, whereas [calculate_seller_metrics] counts the rows
    of the customer (C3).  On [same_day_table], where one customer has
    two line items from seller X on one date, the former reports the rate
    0 for X and the latter, on the frame [load_data] makes of the same
    table, the rate 100. *)
Theorem repurchase_rates_differ :
  (forall raw report r W T sellers contacts custs,
     analyze_seller_repurchase py_repr parse_datetime (Some raw) = Ok (Some report) ->
     r ∈ report ->
     columns raw !! "주문일" = Some W ->
     to_datetime parse_datetime W = Ok T ->
     columns raw !! "셀러명" = Some sellers ->
     columns raw !! "주문자연락처" = Some contacts ->
     notna (Report.Seller r) = true ->
     NoDup custs ->
     (forall c, c ∈ custs <->
        notna c = true /\
        (Report.Seller r, c) ∈ zip (values sellers) (values contacts)) ->
     let distinct_dates c :=
       nunique (dates_with (values sellers) (values contacts)
                  (map date_of_cell (values T)) (Report.Seller r) c) in
     let repurchasing := List.filter (fun c => 1 <? distinct_dates c) custs in
     Report.RepurchaseRate r =
       if decide (custs = []) then F64.zero
       else percent (F64.of_Z (Z.of_nat (length repurchasing)))
              (F64.of_Z (Z.of_nat (length custs)))) /\
  (exists report loaded df' r1 r2,
     analyze_seller_repurchase py_repr parse_datetime (Some same_day_table)
       = Ok (Some report) /\
     load_data parse_datetime (Some same_day_table) = Ok (Some loaded) /\
     calculate_seller_metrics py_repr loaded df' (Ok [r2]) /\
     r1 ∈ report /\
     Report.Seller r1 = Str "X" /\ seller r2 = Str "X" /\
     Report.RepurchaseRate r1 = F64.zero /\
     RepurchaseRate r2 = F64.hundred /\
     Report.RepurchaseRate r1 <> RepurchaseRate r2).
Proof.
  split.
  - intros raw report r W T sellers contacts custs Hrun Hr HW HT Hs Hc Hk Hnd Hcusts.
    destruct (analyze_seller_repurchase_row _ _ _ _ _ _ _ Hrun Hr HW HT Hs Hc)
      as [paid Hrow].
    destruct (report_row_rate _ _ _ _ _ _ _ Hrow Hk Hnd Hcusts)
      as (_ & Htotal & Hrep & Hrate).
    simpl. rewrite Hrate, Htotal, Hrep. reflexivity.
  - eexists _, _, _, _, _.
    split; [vm_compute; reflexivity|].
    split; [vm_compute; reflexivity|].
    split.
    { eapply calculate_seller_metrics_intro; [vm_compute; reflexivity|].
      split; [reflexivity|]. repeat constructor. }
    split; [left|].
    vm_compute. repeat split; try reflexivity. discriminate.
Qed.

(** ** C2: the repurchase annotators *)

Lemma assoc_map (f : cell -> Z) l c :
  assoc c (map (fun k => (k, f k)) l) = if decide (c ∈ l) then Some (f c) else None.
Proof.
  induction l as [|k l IH]; simpl.
  - destruct (decide (c ∈ [])) as [[]%elem_of_nil|]; reflexivity.
  - destruct (bool_decide_reflect (k = c)) as [->|Hne].
    + destruct (decide (c ∈ c :: l)) as [|[]]; [reflexivity|left].
    + rewrite IH. destruct (decide (c ∈ l)), (decide (c ∈ k :: l)) as [Hin|Hnin];
        try reflexivity.
      * destruct Hnin. right. assumption.
      * apply elem_of_cons in Hin as [->|]; contradiction.
Qed.

Lemma notna_isna c : notna c = true <-> isna c = false.
Proof. unfold notna. apply negb_true_iff. Qed.

Lemma annotation_missing ks ds c : isna c = true -> annotation ks ds c = Int 0.
Proof.
  intros Hc. unfold annotation, groupby_nunique. rewrite assoc_map.
  destruct (decide (c ∈ group_keys ks)) as [[_ H]%elem_of_group_keys|]; [|reflexivity].
  apply notna_isna in H. congruence.
Qed.

Lemma annotation_present ks ds c dl :
  c ∈ ks -> isna c = false -> NoDup dl ->
  (forall d, d ∈ dl <-> notna d = true /\ (c, d) ∈ zip ks ds) ->
  annotation ks ds c = Int (Z.of_nat (length dl) - 1).
Proof.
  intros Hin Hc Hnd Hdl. unfold annotation, groupby_nunique. rewrite assoc_map.
  apply notna_isna in Hc.
  destruct (decide (c ∈ group_keys ks)) as [_|[]]; [|apply elem_of_group_keys; auto].
  rewrite (nunique_spec _ dl Hnd); [reflexivity|].
  intros d. rewrite Hdl, elem_of_select. section_tauto.
Qed.

Lemma repurchase_columns_run date out df K D :
  date <> "UserTotalOrders" -> date <> out ->
  out <> "주문자연락처" -> out <> "UserTotalOrders" ->
  columns df !! "주문자연락처" = Some K -> columns df !! date = Some D ->
  exists df'',
    repurchase_columns date out df = Ok df'' /\
    columns df'' !! "주문자연락처" = Some K /\
    columns df'' !! date = Some D /\
    columns df'' !! out =
      Some (mkSeries int64 (map (annotation (values K) (values D)) (values K))).
Proof.
  intros H1 H2 H3 H4 HK HD.
  unfold repurchase_columns, column, mbind, result_bind.
  rewrite HK, HD. simpl. rewrite !lookup_insert_eq.
  eexists. split; [reflexivity|]. simpl.
  rewrite insert_insert_eq, lookup_insert_eq.
  rewrite !lookup_insert_ne by congruence.
  split; [assumption|]. split; [assumption|].
  unfold map_lookup. rewrite !map_map. reflexivity.
Qed.

Lemma zip_seq_lookup (K D : list cell) s n e :
  e ∈ zip (zip K D) (seq s n) ->
  exists i, snd e = (s + i)%nat /\ K !! i = Some (fst (fst e)) /\
            D !! i = Some (snd (fst e)).
Proof.
  revert D s n. induction K as [|k K IH]; intros [|d D] s [|n]; simpl;
    try (intros []%elem_of_nil).
  intros [->|He]%elem_of_cons.
  - exists 0%nat. simpl. split; [lia|auto].
  - destruct (IH _ _ _ He) as (i & Hi & HK & HD).
    exists (S i). simpl. split; [lia|auto].
Qed.

Lemma take_rows_map {A} (g : A -> cell) (ix : A -> nat) (l : list A) vs :
  (forall e, e ∈ l -> vs !! ix e = Some (g e)) ->
  take_rows (map ix l) vs = map g l.
Proof.
  unfold take_rows. induction l as [|e l IH]; intros H; simpl; [reflexivity|].
  rewrite (H e) by left. simpl. f_equal. apply IH.
  intros e' He'. apply H. right. assumption.
Qed.

Lemma zip_map_fst {A} (l : list (cell * cell * A)) :
  zip (map (fun e => fst (fst e)) l) (map (fun e => snd (fst e)) l) = map fst l.
Proof.
  induction l as [|[[k d] i] l IH]; simpl; [reflexivity|]. rewrite IH. reflexivity.
Qed.

Lemma map_fst_zip_seq {A} (l : list A) s n :
  (length l <= n)%nat -> map fst (zip l (seq s n)) = l.
Proof.
  revert s n. induction l as [|x l IH]; intros s [|n] H; simpl in *; try reflexivity;
    try lia.
  rewrite IH by lia. reflexivity.
Qed.

(** Sorting by two keys rearranges the rows. *)
Lemma sort_values2_run a b df K D :
  columns df !! a = Some K -> columns df !! b = Some D ->
  exists sorted K' D',
    sort_values2 a b df = Ok sorted /\
    columns sorted !! a = Some K' /\
    columns sorted !! b = Some D' /\
    (forall c s, columns df !! c = Some s -> is_Some (columns sorted !! c)) /\
    zip (values K') (values D') ≡ₚ zip (values K) (values D).
Proof.
  intros HK HD. unfold sort_values2, column, mbind, result_bind.
  rewrite HK, HD. unfold mret, result_ret, reorder.
  eexists _, _, _. split; [reflexivity|]. simpl.
  rewrite !lookup_fmap, HK, HD. simpl.
  split; [reflexivity|]. split; [reflexivity|].
  split; [intros c s Hc; rewrite lookup_fmap, Hc; simpl; eauto|].
  unfold argsort2.
  set (rows := zip (zip (values K) (values D)) (seq 0 (length (values K)))).
  assert (Hrows : forall e, e ∈ sort_by lex_leb rows ->
            values K !! snd e = Some (fst (fst e)) /\
            values D !! snd e = Some (snd (fst e))).
  { intros e He. rewrite sort_by_Permutation in He.
    destruct (zip_seq_lookup _ _ _ _ _ He) as (i & -> & ? & ?). auto. }
  rewrite (take_rows_map (fun e => fst (fst e)) snd) by (intros; apply Hrows; assumption).
  rewrite (take_rows_map (fun e => snd (fst e)) snd) by (intros; apply Hrows; assumption).
  cbn [values]. rewrite zip_map_fst, sort_by_Permutation. unfold rows.
  rewrite map_fst_zip_seq; [reflexivity|]. apply zip_length_le.
Qed.

Lemma lookup_map {A B} (f : A -> B) (l : list A) i :
  map f l !! i = f <$> l !! i.
Proof.
  revert i. induction l as [|x l IH]; intros [|i]; simpl; try reflexivity. apply IH.
Qed.

Lemma elem_of_zip_Permutation {A B} (l1 l2 : list (A * B)) x :
  l1 ≡ₚ l2 -> x ∈ l1 <-> x ∈ l2.
Proof. intros H. rewrite H. reflexivity. Qed.

(** Sorting by identity and date and then annotating gives an annotated
    frame. *)
Lemma sort_and_annotate date out df K D :
  date <> "UserTotalOrders" -> date <> out ->
  out <> "주문자연락처" -> out <> "UserTotalOrders" ->
  columns df !! "주문자연락처" = Some K -> columns df !! date = Some D ->
  exists sorted df'' K' D' C',
    sort_values2 "주문자연락처" date df = Ok sorted /\
    repurchase_columns date out sorted = Ok df'' /\
    columns df'' !! "주문자연락처" = Some K' /\
    columns df'' !! date = Some D' /\
    columns df'' !! out = Some C' /\
    annotated (values K) (values D) (values K') (values D') (values C').
Proof.
  intros H1 H2 H3 H4 HK HD.
  destruct (sort_values2_run _ _ _ _ _ HK HD) as (sorted & K' & D' & Hs & HK' & HD' & _ & HP).
  destruct (repurchase_columns_run date out sorted K' D' H1 H2 H3 H4 HK' HD')
    as (df'' & Hr & HK'' & HD'' & HC).
  eexists sorted, df'', K', D', _. do 5 (split; [eassumption|]).
  split; [assumption|]. simpl. split; [apply length_map|].
  intros i c Hi.
  assert (Hc : c ∈ values K') by (apply list_elem_of_lookup; eauto).
  rewrite lookup_map, Hi. simpl.
  split; [|split].
  - intros Hna. rewrite annotation_missing by assumption. reflexivity.
  - intros Hna ds Hnd Hds. f_equal. apply annotation_present; try assumption.
    intros d. rewrite Hds, (elem_of_zip_Permutation _ _ (c, d) HP). reflexivity.
  - intros Hna d Hd Hin.
    set (dl := unique (dropna (select (eq_scalar (values K') c) (values D')))).
    assert (Hdl : forall x, x ∈ dl <-> notna x = true /\ (c, x) ∈ zip (values K') (values D')).
    { intros x. unfold dl. rewrite elem_of_unique, elem_of_dropna, elem_of_select.
      rewrite notna_isna. section_tauto. }
    rewrite (annotation_present _ _ _ dl Hc Hna (NoDup_unique _) Hdl).
    eexists. split; [reflexivity|].
    assert (d ∈ dl) as Hmem.
    { apply Hdl. split; [assumption|].
      apply (elem_of_zip_Permutation _ _ (c, d) HP). assumption. }
    destruct dl; [apply elem_of_nil in Hmem; destruct Hmem|simpl; lia].
Qed.

Lemma clean_price_col_frame df col df' :
  clean_price_col df col = Ok df' ->
  forall c, c <> col -> columns df' !! c = columns df !! c.
Proof.
  unfold clean_price_col. destruct (columns df !! col) as [s|]; [|intros [= <-]; auto].
  destruct (bool_decide (dtype s = object)); [|intros [= <-]; auto].
  unfold mbind, result_bind. destruct (astype_float _) as [s'|]; [|discriminate].
  intros [= <-] c Hc. apply lookup_assign_ne. congruence.
Qed.

Lemma for_each_clean_frame cols df df' :
  for_each clean_price_col cols df = Ok df' ->
  forall c, c ∉ cols -> columns df' !! c = columns df !! c.
Proof.
  revert df. induction cols as [|col cols IH]; simpl; intros df.
  - intros [= <-]. auto.
  - unfold mbind, result_bind.
    destruct (clean_price_col df col) as [df1|] eqn:E; [|discriminate].
    intros H c [Hc1 Hc2]%not_elem_of_cons.
    rewrite (IH _ H c Hc2). eapply clean_price_col_frame; eassumption.
Qed.



(* ===================================================================== *)
(** * Further properties of the scripts *)
(* ===================================================================== *)

(** ** Integer cells through the cleaning chains *)

Lemma traverse_map_Ok {A B C} (f : B -> result C) (g : A -> B) (h : A -> C) l :
  (forall x, f (g x) = Ok (h x)) -> traverse f (map g l) = Ok (map h l).
Proof.
  intros H. induction l as [|x l IH]; simpl; [reflexivity|].
  rewrite H, IH. reflexivity.
Qed.

Lemma to_int_cell_str_of_Z z :
  to_int_cell (Str (strip_non_numeric (str_of_Z z))) =
  if in_int64 z then Some z else None.
Proof.
  cbn [to_int_cell]. rewrite strip_non_numeric_str_of_Z, pd_parse_int_str_of_Z.
  reflexivity.
Qed.

Lemma mapM_to_int_cells zs zs' :
  mapM to_int_cell (map (fun z => Str (strip_non_numeric (str_of_Z z))) zs) = Some zs' ->
  zs' = zs.
Proof.
  intros H%mapM_Some_1. revert zs' H.
  induction zs as [|z zs IH]; intros zs' H; inversion H as [|? y ? ys Hy Hrest]; subst;
    [reflexivity|].
  rewrite to_int_cell_str_of_Z in Hy.
  destruct (in_int64 z); [|discriminate]. injection Hy as <-.
  f_equal. apply IH, Hrest.
Qed.

(** A column of integers comes out of [astype(str)], the removal of
    separators and the conversion to numbers with the value of each
    integer: as floats in line 66 of [seller_repurchase_analysis.py], and
    cell by cell, with no cell missing, in lines 96-97 of [app.py]. *)
Theorem integer_cells_survive_cleaning dt zs :
  astype_float (str_replace_commas (astype_str py_repr (mkSeries dt (map Int zs)))) =
    Ok (mkSeries float64 (map (fun z => Num (F64.of_Z z)) zs)) /\
  Forall2 (fun z c => to_f64 c = Ok (F64.of_Z z) /\ isna c = false) zs
    (values (fillna0 (to_numeric_coerce
       (str_replace_non_numeric (astype_str py_repr (mkSeries dt (map Int zs))))))).
Proof.
  split.
  - unfold astype_float, str_replace_commas, astype_str, mbind, result_bind.
    cbn [values]. rewrite !map_map.
    rewrite (traverse_map_Ok _ _ (fun z => Num (F64.of_Z z))); [reflexivity|].
    intros z. cbn [py_str astype_float_cell].
    rewrite remove_commas_str_of_Z. unfold py_float.
    rewrite parse_float_str_of_Z. reflexivity.
  - unfold fillna0, to_numeric_coerce, str_replace_non_numeric, astype_str.
    cbn [values dtype]. rewrite !map_map. cbn [py_str].
    destruct (mapM to_int_cell _) as [zs'|] eqn:E; cbn [values dtype].
    + apply mapM_to_int_cells in E as ->. rewrite map_map.
      clear. induction zs as [|z zs IH]; constructor; [|exact IH].
      split; reflexivity.
    + rewrite map_map. clear E.
      induction zs as [|z zs IH]; constructor; [|exact IH].
      cbn [to_float_cell]. rewrite strip_non_numeric_str_of_Z. unfold pd_parse.
      rewrite parse_float_str_of_Z. cbn [isna]. rewrite of_Z_not_nan.
      cbn [to_f64 isna]. rewrite of_Z_not_nan. split; reflexivity.
Qed.

(** ** The report of [analyze_seller_repurchase] *)

Lemma select_missing_key vs k xs : isna k = true -> select (eq_scalar vs k) xs = [].
Proof.
  intros Hk. unfold select, eq_scalar. revert xs.
  induction vs as [|c vs IH]; intros [|x xs]; simpl; try reflexivity.
  destruct (bool_decide_reflect (c = k)) as [->|].
  - unfold notna. rewrite Hk. simpl. apply IH.
  - rewrite andb_false_r. simpl. apply IH.
Qed.

Lemma report_row_missing_key sellers contacts dates paid k :
  isna k = true ->
  report_row py_repr sellers contacts dates paid k =
  Ok (Report.mk k 0 0 F64.zero F64.zero).
Proof.
  intros Hk. unfold report_row. rewrite !select_missing_key by assumption.
  reflexivity.
Qed.

Lemma traverse_Ok_image {A B} (f : A -> result B) l ys x :
  traverse f l = Ok ys -> x ∈ l -> exists y, y ∈ ys /\ f x = Ok y.
Proof.
  intros H%traverse_Ok_inv. induction H as [|x' y l ys' Hxy _ IH].
  - intros []%elem_of_nil.
  - intros [->|Hx]%elem_of_cons; [exists y; split; [left|assumption]|].
    destruct (IH Hx) as (y' & ? & ?). exists y'; split; [right|]; assumption.
Qed.

Lemma unique_nil vs : unique vs = [] -> vs = [].
Proof. destruct vs; [reflexivity|discriminate]. Qed.

(** The loop over [df['셀러명'].unique()] also runs for the missing seller
    name, which [unique] lists when some row has none: since no row
    compares equal to it, the report then holds a row for the missing
    seller with no customer, rate 0 and no revenue. *)
Theorem report_row_of_missing_seller df report sellers k :
  analyze_seller_repurchase py_repr parse_datetime (Some df) = Ok (Some report) ->
  columns df !! "셀러명" = Some sellers ->
  k ∈ values sellers ->
  isna k = true ->
  Report.mk k 0 0 F64.zero F64.zero ∈ report.
Proof.
  intros Hrun Hs Hk Hna. revert Hrun.
  unfold analyze_seller_repurchase, mbind, result_bind, column.
  destruct (has_column df "주문일"); [|discriminate].
  destruct (columns df !! "주문일") as [W|]; [|discriminate].
  destruct (to_datetime parse_datetime W) as [T|] eqn:HT; [|discriminate].
  unfold dt_date. rewrite (to_datetime_dtype _ _ HT).
  set (day := mkSeries object (map date_of_cell (values T))).
  set (df1 := assign "Date" day (assign "OrderDate" T df)).
  destruct (forallb (has_column df1) required_cols); [|discriminate].
  assert (columns df1 !! "셀러명" = Some sellers) as ->.
  { unfold df1. rewrite !lookup_assign_ne by discriminate. assumption. }
  destruct (columns df1 !! "주문자연락처") as [contacts|]; [|discriminate].
  destruct (columns df1 !! "Date") as [dates|]; [|discriminate].
  destruct (columns df1 !! "실결제 금액") as [paid|]; [|discriminate].
  destruct (traverse _ _) as [results|] eqn:Ht; [|discriminate].
  destruct results as [|r0 results]; [discriminate|].
  unfold mret, result_ret. intros [= <-].
  destruct (traverse_Ok_image _ _ _ k Ht) as (y & Hy & Hrow).
  { apply elem_of_unique. exact Hk. }
  rewrite report_row_missing_key in Hrow by assumption.
  injection Hrow as <-. exact Hy.
Qed.

Lemma nunique_nonneg vs : 0 <= nunique vs.
Proof. unfold nunique. lia. Qed.

Lemma groupby_nunique_length ks vs :
  Z.of_nat (length (groupby_nunique ks vs)) = nunique ks.
Proof.
  unfold groupby_nunique, group_keys, nunique.
  rewrite length_map. f_equal. apply Permutation_length, sort_by_Permutation.
Qed.

(** The customers of a seller who bought on several dates are among its
    customers. *)
Theorem repurchasing_customers_bound sellers contacts dates paid k r :
  report_row py_repr sellers contacts dates paid k = Ok r ->
  0 <= Report.RepurchasingCustomers r <= Report.TotalCustomers r.
Proof.
  unfold report_row, mbind, result_bind.
  destruct (astype_float _) as [amounts|]; [|discriminate].
  destruct (sum_float64 _) as [total|]; [|discriminate].
  intros [= <-]. cbn [Report.RepurchasingCustomers Report.TotalCustomers].
  split; [lia|].
  rewrite <- (groupby_nunique_length _ (select (eq_scalar sellers k) dates)).
  apply inj_le, filter_bool_length_le.
Qed.

(** ** Which exceptions the scripts raise *)

Lemma traverse_Raise {A B} (f : A -> result B) l e :
  traverse f l = Raise e -> exists x, x ∈ l /\ f x = Raise e.
Proof.
  induction l as [|x l IH]; simpl; [discriminate|].
  destruct (f x) as [y|e'] eqn:Hx.
  - destruct (traverse f l) as [ys|e'']; [discriminate|].
    intros [= ->]. destruct (IH eq_refl) as (x' & ? & ?).
    exists x'. split; [right|]; assumption.
  - intros [= ->]. exists x. split; [left|assumption].
Qed.

Lemma astype_float_Raise s e :
  astype_float s = Raise e -> e = ValueError \/ e = TypeError.
Proof.
  unfold astype_float, mbind, result_bind.
  destruct (traverse _ _) as [vs|e'] eqn:H; [discriminate|].
  intros [= ->]. apply traverse_Raise in H as (c & _ & Hc).
  destruct c; simpl in Hc; try discriminate; try (injection Hc as <-; auto).
  destruct (py_float s0); [discriminate|]. injection Hc as <-. auto.
Qed.

Lemma sum_float64_Raise vs e : sum_float64 vs = Raise e -> e = TypeError.
Proof.
  unfold sum_float64, mbind, result_bind.
  destruct (traverse _ _) as [fs|e'] eqn:H; [discriminate|].
  intros [= ->]. apply traverse_Raise in H as (c & _ & Hc).
  destruct c; simpl in Hc; try discriminate; injection Hc as <-; reflexivity.
Qed.

Lemma to_datetime_Raise s e :
  to_datetime parse_datetime s = Raise e -> e = ValueError \/ e = TypeError.
Proof.
  unfold to_datetime, mbind, result_bind.
  destruct (traverse _ _) as [vs|e'] eqn:H; [discriminate|].
  intros [= ->]. apply traverse_Raise in H as (c & _ & Hc).
  destruct c; simpl in Hc; try discriminate; try (injection Hc as <-; auto).
  destruct (parse_datetime s0); [discriminate|]. injection Hc as <-. auto.
Qed.

Lemma report_row_Raise sellers contacts dates paid k e :
  report_row py_repr sellers contacts dates paid k = Raise e ->
  e = ValueError \/ e = TypeError.
Proof.
  unfold report_row, mbind, result_bind.
  destruct (astype_float _) as [amounts|e'] eqn:Ha.
  - destruct (sum_float64 _) as [total|e''] eqn:Hs; [discriminate|].
    intros [= ->]. right. eapply sum_float64_Raise, Hs.
  - intros [= ->]. eapply astype_float_Raise, Ha.
Qed.

Lemma has_column_true df c : has_column df c = true -> exists s, columns df !! c = Some s.
Proof.
  unfold has_column. intros H%bool_decide_eq_true. destruct H as [s Hs]. eauto.
Qed.

Lemma traverse_Ok_nil {A B} (f : A -> result B) l :
  traverse f l = Ok [] -> l = [].
Proof.
  destruct l as [|x l]; [reflexivity|]. simpl.
  destruct (f x); [|discriminate]. destruct (traverse f l); discriminate.
Qed.

(** [analyze_seller_repurchase] checks for every column of the file it
    reads, so the only [KeyError] it can raise is that of line 79: it is
    raised exactly when the checks pass, the dates convert and the file
    has no row, so that the loop does not run and the report frame has no
    column; the error names ['TotalCustomers']. *)
Theorem analyze_seller_repurchase_key_error file c :
  analyze_seller_repurchase py_repr parse_datetime file = Raise (KeyError c) <->
  c = "TotalCustomers" /\
  exists df W T sellers,
    file = Some df /\
    columns df !! "주문일" = Some W /\
    to_datetime parse_datetime W = Ok T /\
    columns df !! "셀러명" = Some sellers /\ values sellers = [] /\
    is_Some (columns df !! "주문자연락처") /\
    is_Some (columns df !! "실결제 금액").
Proof.
  split.
  - unfold analyze_seller_repurchase. destruct file as [df|]; [|discriminate].
    destruct (has_column df "주문일") eqn:Hd; [|discriminate].
    apply has_column_true in Hd as [W HW].
    unfold column, mbind, result_bind. rewrite HW.
    destruct (to_datetime parse_datetime W) as [T|e] eqn:HT;
      [|intros [= ->]; apply to_datetime_Raise in HT as [[=]|[=]]].
    unfold dt_date. rewrite (to_datetime_dtype _ _ HT).
    set (day := mkSeries object (map date_of_cell (values T))).
    set (df1 := assign "Date" day (assign "OrderDate" T df)).
    destruct (forallb _ required_cols) eqn:Hreq; [|discriminate].
    cbn [required_cols forallb] in Hreq.
    apply andb_true_iff in Hreq as [[s1 H1]%has_column_true Hreq].
    apply andb_true_iff in Hreq as [[s2 H2]%has_column_true Hreq].
    apply andb_true_iff in Hreq as [[s3 H3]%has_column_true Hreq].
    apply andb_true_iff in Hreq as [[s4 H4]%has_column_true _].
    rewrite H1, H2, H3, H4.
    unfold df1 in H1, H2, H4. rewrite !lookup_assign_ne in H1, H2, H4 by discriminate.
    destruct (traverse _ _) as [results|e] eqn:Ht.
    + destruct results as [|r0 results]; [|discriminate].
      apply traverse_Ok_nil, unique_nil in Ht.
      intros [= <-]. split; [reflexivity|]. exists df, W, T, s1. eauto 10.
    + intros [= ->]. apply traverse_Raise in Ht as (k & _ & Hk).
      apply report_row_Raise in Hk as [[=]|[=]].
  - intros (-> & df & W & T & sellers & -> & HW & HT & Hs & Hnil & [contacts Hc] & [paid Hp]).
    unfold analyze_seller_repurchase, column, mbind, result_bind.
    rewrite (has_column_Some _ _ _ HW), HW, HT.
    unfold dt_date. rewrite (to_datetime_dtype _ _ HT).
    set (day := mkSeries object (map date_of_cell (values T))).
    set (df1 := assign "Date" day (assign "OrderDate" T df)).
    assert (H1 : columns df1 !! "셀러명" = Some sellers).
    { unfold df1. rewrite !lookup_assign_ne by discriminate. assumption. }
    assert (H2 : columns df1 !! "주문자연락처" = Some contacts).
    { unfold df1. rewrite !lookup_assign_ne by discriminate. assumption. }
    assert (H3 : columns df1 !! "Date" = Some day) by apply lookup_assign_eq.
    assert (H4 : columns df1 !! "실결제 금액" = Some paid).
    { unfold df1. rewrite !lookup_assign_ne by discriminate. assumption. }
    cbn [required_cols forallb].
    rewrite (has_column_Some _ _ _ H1), (has_column_Some _ _ _ H2),
      (has_column_Some _ _ _ H3), (has_column_Some _ _ _ H4).
    cbn [andb]. rewrite H1, H2, H3, H4, Hnil. reflexivity.
Qed.

(** ** What [calculate_seller_metrics] needs *)

Lemma column_Ok df c s : column df c = Ok s -> columns df !! c = Some s.
Proof. unfold column. destruct (columns df !! c); [intros [= ->]; reflexivity|discriminate]. Qed.

(** The aggregation returns only on a table that has the seller, paid
    amount, order number and quantity columns: these four are read without
    a check (a missing one is a [KeyError]); the supply price, the
    cancellation flag, the customer identity and the order date are
    optional. *)
Theorem summary_needs_four_columns df df' out :
  calculate_seller_metrics py_repr df df' (Ok out) ->
  is_Some (columns df !! "셀러명") /\
  is_Some (columns df !! "실결제 금액") /\
  is_Some (columns df !! "주문번호") /\
  is_Some (columns df !! "주문수량").
Proof.
  intros (stats & Hstats & _)%calculate_seller_metrics_inv.
  apply seller_stats_inv in Hstats as [Hclean Hsum].
  pose proof (clean_and_derive_run _ _ _ Hclean) as (_ & Hframe & Hok).
  destruct (Hok eq_refl) as (_ & _ & Hpaid).
  revert Hsum. unfold summarize, mbind, result_bind.
  destruct (column df' "셀러명") as [s|] eqn:Hs; [|discriminate].
  destruct (column df' "실결제 금액") as [p|] eqn:Hp; [|discriminate].
  destruct (column df' "Margin") as [m|] eqn:Hm; [|discriminate].
  destruct (column df' "주문번호") as [o|] eqn:Ho; [|discriminate].
  destruct (column df' "주문수량") as [q|] eqn:Hq; [|discriminate].
  intros _.
  apply column_Ok in Hs, Hp, Ho, Hq.
  rewrite (Hframe "셀러명") in Hs by not_assigned.
  rewrite (Hframe "주문번호") in Ho by not_assigned.
  rewrite (Hframe "주문수량") in Hq by not_assigned.
  rewrite Hpaid in Hp.
  repeat split; eauto.
  destruct (columns df !! "실결제 금액"); [eauto|discriminate].
Qed.

(** With those four columns, quantities that are numbers and an order
    date that is a datetime column when there is one, the aggregation
    returns a summary, whichever of the optional columns are there. *)
Theorem summary_returns_without_optional_columns df :
  aggregable df ->
  (forall od, columns df !! "OrderDate" = Some od -> dtype od = datetime64) ->
  exists df' out, calculate_seller_metrics py_repr df df' (Ok out).
Proof.
  intros Hagg Hod.
  destruct (clean_and_derive_returns df Hagg)
    as (df' & paid & margin & qty & Hclean & Hp & Hpn & Hm & Hmn & Hq & Hqn).
  pose proof (clean_and_derive_run _ _ _ Hclean) as (_ & Hframe & Hok).
  destruct (Hok eq_refl) as (_ & Hc & _).
  destruct Hagg as ([s Hs] & _ & [o Ho] & _).
  assert (exists stats, summarize df' = Ok stats) as [stats Hstats].
  { unfold summarize, column, mbind, result_bind.
    rewrite (Hframe "셀러명"), Hs by not_assigned.
    rewrite Hp, Hm.
    rewrite (Hframe "주문번호"), Ho by not_assigned.
    rewrite Hq, Hc.
    rewrite (Hframe "OrderDate") by not_assigned.
    destruct (columns df !! "OrderDate") as [od|] eqn:Hd.
    - rewrite (Hod od eq_refl). simpl.
      apply traverse_Ok_intro. intros k _. apply seller_row_returns; assumption.
    - apply traverse_Ok_intro. intros k _. apply seller_row_returns; assumption. }
  destruct (sort_values_desc_exists TotalRevenue stats) as [out Hout].
  exists df', out. eapply calculate_seller_metrics_intro; [|exact Hout].
  unfold seller_stats, mbind, M_bind, reading. rewrite Hclean, Hstats. reflexivity.
Qed.

(** ** Counting customers *)

Lemma nunique_select_le m vs : nunique (select m vs) <= nunique vs.
Proof.
  unfold nunique. apply inj_le, submseteq_length, NoDup_submseteq; [apply NoDup_unique|].
  intros x. rewrite !elem_of_unique, !elem_of_dropna.
  intros [Hx ?]. split; [eapply elem_of_select_sub, Hx|assumption].
Qed.

Lemma nunique_zero vs : nunique vs = 0 <-> Forall (fun c => isna c = true) vs.
Proof.
  unfold nunique. split.
  - intros H. assert (Hd : dropna vs = []).
    { apply unique_nil. destruct (unique (dropna vs)); [reflexivity|simpl in H; lia]. }
    apply Forall_forall. intros c Hc.
    destruct (isna c) eqn:Hna; [reflexivity|]. exfalso.
    assert (Hin : c ∈ dropna vs).
    { apply elem_of_dropna. split; [assumption|]. unfold notna. rewrite Hna. reflexivity. }
    rewrite Hd in Hin. apply elem_of_nil in Hin. exact Hin.
  - intros H. replace (dropna vs) with (@nil cell); [reflexivity|].
    symmetry. unfold dropna. induction H as [|c vs Hc _ IH]; [reflexivity|].
    simpl. unfold notna. rewrite Hc. simpl. exact IH.
Qed.

Lemma repurchasing_customers_inv count df re :
  repurchasing_customers count df = Ok re ->
  exists rc mask contact,
    columns df !! count = Some rc /\
    traverse gt_zero (values rc) = Ok mask /\
    columns df !! "주문자연락처" = Some contact /\
    re = nunique (select mask (values contact)).
Proof.
  unfold repurchasing_customers, mbind, result_bind.
  destruct (column df count) as [rc|] eqn:Hrc; [|discriminate].
  destruct (traverse gt_zero (values rc)) as [mask|] eqn:Hm; [|discriminate].
  destruct (column df "주문자연락처") as [contact|] eqn:Hc; [|discriminate].
  intros [= <-]. apply column_Ok in Hrc, Hc. eauto 10.
Qed.

Lemma gt_zero_Raise vs e : traverse gt_zero vs = Raise e -> e = TypeError.
Proof.
  intros (c & _ & Hc)%traverse_Raise.
  destruct c; simpl in Hc; try discriminate; injection Hc as <-; reflexivity.
Qed.

(** The overview of the dashboard: the number of customers is the number
    of distinct identities, 0 without the identity column; the rate is 0
    without the annotation or without customers, and otherwise the share
    of the customers that have a row with a positive count, who are never
    more than the customers.  The only exception is the [TypeError] of a
    count that is not a number. *)
Theorem overview_repurchase_spec df :
  (forall total rate,
     overview_repurchase df = Ok (total, rate) ->
     total = match columns df !! "주문자연락처" with
             | Some contact => nunique (values contact)
             | None => 0
             end /\
     ((rate = F64.zero /\ (columns df !! "RepurchaseCount" = None \/ total = 0)) \/
      (exists re,
         repurchasing_customers "RepurchaseCount" df = Ok re /\
         0 <= re <= total /\ 0 < total /\
         rate = percent (F64.of_Z re) (F64.of_Z total)))) /\
  (forall e, overview_repurchase df = Raise e -> e = TypeError).
Proof.
  unfold overview_repurchase.
  set (total_users := match columns df !! "주문자연락처" with
                      | Some contact => nunique (values contact)
                      | None => 0
                      end).
  assert (Hnn : 0 <= total_users).
  { subst total_users. destruct (columns df !! "주문자연락처"); [apply nunique_nonneg|lia]. }
  destruct (has_column df "RepurchaseCount") eqn:Hrc; simpl.
  - destruct (Z.ltb_spec 0 total_users) as [Hpos|Hzero].
    + unfold mbind, result_bind.
      destruct (repurchasing_customers "RepurchaseCount" df) as [re|e'] eqn:Hre.
      * split; [|discriminate]. intros total rate [= <- <-].
        split; [reflexivity|]. right. exists re. split; [reflexivity|].
        split; [|split; [assumption|reflexivity]].
        apply repurchasing_customers_inv in Hre
          as (rc & mask & contact & _ & _ & Hc & ->).
        subst total_users. rewrite Hc.
        split; [apply nunique_nonneg|apply nunique_select_le].
      * split; [discriminate|]. intros e [= <-]. revert Hre.
        unfold repurchasing_customers, mbind, result_bind, column.
        apply has_column_true in Hrc as [rc ->].
        destruct (traverse gt_zero (values rc)) as [mask|e''] eqn:Hm;
          [|intros [= <-]; eapply gt_zero_Raise, Hm].
        subst total_users.
        destruct (columns df !! "주문자연락처"); [discriminate|lia].
    + split; [|discriminate]. intros total rate [= <- <-].
      split; [reflexivity|]. left. split; [reflexivity|]. right. lia.
  - split; [|discriminate]. intros total rate [= <- <-].
    split; [reflexivity|]. left. split; [reflexivity|]. left.
    unfold has_column in Hrc. apply bool_decide_eq_false in Hrc.
    destruct (columns df !! "RepurchaseCount"); [exfalso; apply Hrc; eauto|reflexivity].
Qed.

(** The closing lines of [main] divide by the number of customers
    without a check: they end in [ZeroDivisionError] exactly on an
    annotated table in which no row has a customer identity. *)
Theorem customer_insight_divides_by_zero df :
  customer_insight df = ZeroDivisionError <->
  exists contact rc mask,
    columns df !! "주문자연락처" = Some contact /\
    columns df !! "재구매 횟수" = Some rc /\
    traverse gt_zero (values rc) = Ok mask /\
    Forall (fun c => isna c = true) (values contact).
Proof.
  unfold customer_insight, column. split.
  - destruct (columns df !! "주문자연락처") as [contact|] eqn:Hc; [|discriminate].
    destruct (has_column df "재구매 횟수") eqn:Hrc; [|discriminate].
    destruct (repurchasing_customers "재구매 횟수" df) as [re|] eqn:Hre; [|discriminate].
    destruct (Z.eqb_spec (nunique (values contact)) 0) as [Hz|]; [|discriminate].
    intros _.
    apply repurchasing_customers_inv in Hre as (rc & mask & contact' & H1 & H2 & _).
    exists contact, rc, mask. repeat split; try assumption. apply nunique_zero, Hz.
  - intros (contact & rc & mask & Hc & Hrc & Hm & Hna).
    rewrite Hc, (has_column_Some _ _ _ Hrc).
    unfold repurchasing_customers, column, mbind, result_bind.
    rewrite Hrc, Hm, Hc. cbn [mret result_ret].
    apply nunique_zero in Hna. rewrite Hna. reflexivity.
Qed.

(** On a table in which no row has a customer identity the overview of
    the dashboard shows no customer and rate 0. *)
Theorem overview_without_customers df contact :
  columns df !! "주문자연락처" = Some contact ->
  Forall (fun c => isna c = true) (values contact) ->
  overview_repurchase df = Ok (0, F64.zero).
Proof.
  intros Hc Hna. unfold overview_repurchase. rewrite Hc.
  apply nunique_zero in Hna. rewrite Hna, andb_false_r. reflexivity.
Qed.

(** ** Lifecycle counts *)

(** [churn_risk_count] counts the sellers whose last sale is more than 30
    days old and also the sellers without [RecencyDays], which the table
    of sellers at risk does not list. *)
Theorem churn_risk_count_spec metrics :
  churn_risk_count metrics =
  Z.of_nat (length (risk_sellers metrics)) +
  Z.of_nat (length (List.filter (fun r => bool_decide (RecencyDays r = None)) metrics)).
Proof.
  unfold churn_risk_count, active_count, risk_sellers.
  induction metrics as [|r metrics IH]; [reflexivity|].
  cbn [List.filter length].
  destruct (RecencyDays r) as [n|]; cbn [within_30 beyond_30].
  - rewrite bool_decide_eq_false_2 by discriminate.
    destruct (Z.leb_spec n 30), (Z.ltb_spec 30 n); try lia; cbn [length]; lia.
  - rewrite bool_decide_eq_true_2 by reflexivity. cbn [length]. lia.
Qed.

(** ** [load_data] and [load_and_preprocess] *)

Lemma clean_price_col_Raise df col e :
  clean_price_col df col = Raise e -> e = ValueError \/ e = TypeError.
Proof.
  unfold clean_price_col. destruct (columns df !! col) as [s|]; [|discriminate].
  destruct (bool_decide (dtype s = object)); [|discriminate].
  unfold mbind, result_bind.
  destruct (astype_float _) as [s'|e'] eqn:Ha; [discriminate|].
  intros [= ->]. eapply astype_float_Raise, Ha.
Qed.

Lemma for_each_clean_Raise cols df e :
  for_each clean_price_col cols df = Raise e -> e = ValueError \/ e = TypeError.
Proof.
  revert df. induction cols as [|col cols IH]; simpl; intros df; [discriminate|].
  unfold mbind, result_bind.
  destruct (clean_price_col df col) as [df1|e'] eqn:E.
  - apply IH.
  - intros [= ->]. eapply clean_price_col_Raise, E.
Qed.

Lemma not_price_col c :
  c = "주문자연락처" \/ c = "주문일" \/ c = "OrderDate" \/ c = "Date" \/ c = "우편번호" ->
  c ∉ price_cols.
Proof.
  intros H. unfold price_cols. rewrite !not_elem_of_cons.
  repeat split; try apply not_elem_of_nil;
    intros ->; repeat (destruct H as [H|H]; try discriminate H).
Qed.

Lemma has_column_eq df df' c :
  columns df' !! c = columns df !! c -> has_column df' c = has_column df c.
Proof. intros H. unfold has_column. rewrite H. reflexivity. Qed.

(** [load_data] sorts by ['Date'] after checking for ['OrderDate']: it
    raises [KeyError] exactly on a file without ['주문일'] that has the
    identity column and an ['OrderDate'] column but no ['Date'] column
    (and whose price columns convert); the error names ['Date']. *)
Theorem load_data_key_error raw c :
  load_data parse_datetime (Some raw) = Raise (KeyError c) <->
  c = "Date" /\
  columns raw !! "주문일" = None /\
  is_Some (columns raw !! "주문자연락처") /\
  is_Some (columns raw !! "OrderDate") /\
  columns raw !! "Date" = None /\
  exists df, for_each clean_price_col price_cols raw = Ok df.
Proof.
  unfold load_data. destruct (columns raw !! "주문일") as [W|] eqn:HW.
  - split; [|intros (_ & [=] & _)].
    rewrite (has_column_Some _ _ _ HW). unfold column, mbind, result_bind. rewrite HW.
    destruct (to_datetime parse_datetime W) as [T|e] eqn:HT;
      [|intros [= ->]; apply to_datetime_Raise in HT as [[=]|[=]]].
    unfold dt_date. rewrite (to_datetime_dtype _ _ HT). cbn [mret result_ret].
    set (day := mkSeries object (map date_of_cell (values T))).
    set (df1 := assign "Date" day (assign "OrderDate" T raw)).
    destruct (for_each clean_price_col price_cols df1) as [df2|e] eqn:H2;
      [|intros [= ->]; apply for_each_clean_Raise in H2 as [[=]|[=]]].
    pose proof (for_each_clean_frame _ _ _ H2) as Hframe.
    destruct (has_column df2 "주문자연락처") eqn:HK; [|discriminate].
    apply has_column_true in HK as [K HK]. cbn [andb].
    destruct (has_column df2 "OrderDate"); [|discriminate].
    assert (HD2 : columns df2 !! "Date" = Some day).
    { rewrite Hframe by (apply not_price_col; tauto). apply lookup_assign_eq. }
    destruct (sort_and_annotate "Date" "RepurchaseCount" df2 K day)
      as (sorted & df'' & K' & D' & C' & Hs & Hr & _); try discriminate; try assumption.
    rewrite Hs, Hr. discriminate.
  - rewrite (has_column_None _ _ HW). unfold mbind, result_bind.
    destruct (for_each clean_price_col price_cols raw) as [df2|e] eqn:H2.
    + pose proof (for_each_clean_frame _ _ _ H2) as Hframe.
      rewrite (has_column_eq raw df2 "주문자연락처"),
        (has_column_eq raw df2 "OrderDate") by (apply Hframe, not_price_col; tauto).
      unfold has_column.
      destruct (columns raw !! "주문자연락처") as [K|] eqn:HK.
      2:{ rewrite bool_decide_eq_false_2 by (intros [? [=]]). cbn [andb].
          split; [discriminate|]. intros (_ & _ & [? [=]] & _). }
      rewrite bool_decide_eq_true_2 by eauto. cbn [andb].
      destruct (columns raw !! "OrderDate") as [O|] eqn:HO.
      2:{ rewrite bool_decide_eq_false_2 by (intros [? [=]]).
          split; [discriminate|]. intros (_ & _ & _ & [? [=]] & _). }
      rewrite bool_decide_eq_true_2 by eauto.
      assert (HK2 : columns df2 !! "주문자연락처" = Some K).
      { rewrite Hframe by (apply not_price_col; tauto). assumption. }
      destruct (columns raw !! "Date") as [D|] eqn:HD.
      * assert (HD2 : columns df2 !! "Date" = Some D).
        { rewrite Hframe by (apply not_price_col; tauto). assumption. }
        destruct (sort_and_annotate "Date" "RepurchaseCount" df2 K D)
          as (sorted & df'' & K' & D' & C' & Hs & Hr & _); try discriminate; try assumption.
        rewrite Hs, Hr. split; [discriminate|]. intros (_ & _ & _ & _ & [=] & _).
      * assert (HD2 : columns df2 !! "Date" = None).
        { rewrite Hframe by (apply not_price_col; tauto). assumption. }
        unfold sort_values2, column, mbind, result_bind. rewrite HK2, HD2.
        split; [intros [= <-]; eauto 10|]. intros (-> & _). reflexivity.
    + split.
      * intros [= ->]. apply for_each_clean_Raise in H2 as [[=]|[=]].
      * intros (_ & _ & _ & _ & _ & df & [=]).
Qed.

Lemma calculate_repurchase_run df K W :
  columns df !! "주문자연락처" = Some K ->
  columns df !! "주문일" = Some W ->
  dtype W = datetime64 ->
  exists out K' D' C',
    snd (calculate_repurchase df) = Ok out /\
    columns out !! "주문자연락처" = Some K' /\
    columns out !! "OrderDate" = Some D' /\
    columns out !! "재구매 횟수" = Some C' /\
    annotated (values K) (map date_of_cell (values W))
      (values K') (values D') (values C').
Proof.
  intros HK HW Hdt.
  unfold calculate_repurchase, mbind, M_bind, contains, getitem, column, lift,
    setitem, reading.
  rewrite (has_column_Some _ _ _ HK), (has_column_Some _ _ _ HW). simpl.
  rewrite HW. simpl. unfold dt_date. rewrite Hdt.
  set (day := mkSeries object (map date_of_cell (values W))).
  destruct (sort_and_annotate "OrderDate" "재구매 횟수" (assign "OrderDate" day df) K day)
    as (sorted & df'' & K' & D' & C' & Hs & Hr & HK' & HD' & HC' & Hann);
    try discriminate.
  { rewrite lookup_assign_ne by discriminate. assumption. }
  { apply lookup_assign_eq. }
  cbn [snd]. rewrite Hs. simpl. rewrite Hr.
  exists df'', K', D', C'. auto.
Qed.

Lemma calculate_repurchase_skips df :
  has_column df "주문자연락처" && has_column df "주문일" = false ->
  snd (calculate_repurchase df) = Ok df.
Proof.
  intros H. unfold calculate_repurchase, mbind, M_bind, contains, reading.
  destruct (has_column df "주문자연락처"), (has_column df "주문일");
    try discriminate H; reflexivity.
Qed.

Lemma fill_cat_col_frame df col c :
  c <> col -> columns (fill_cat_col df col) !! c = columns df !! c.
Proof.
  intros Hc. unfold fill_cat_col. destruct (columns df !! col); [|reflexivity].
  apply lookup_assign_ne. congruence.
Qed.

Lemma map_region_columns_frame df c :
  c <> "MappedRegion" -> c <> "광역지역" ->
  columns (map_region_columns df) !! c = columns df !! c.
Proof.
  intros H1 H2. unfold map_region_columns.
  destruct (columns df !! "우편번호") as [z|]; [|reflexivity].
  rewrite lookup_assign_eq, !lookup_assign_ne by congruence. reflexivity.
Qed.

Lemma preprocess_tail_frame df c :
  c ∉ ["MappedRegion"; "광역지역"] ++ cat_cols ->
  columns (fill_cat_col (fill_cat_col (fill_cat_col (map_region_columns df)
             "주문경로") "감귤 세부") "품종") !! c =
  columns df !! c.
Proof.
  unfold cat_cols. cbn [app]. rewrite !not_elem_of_cons.
  intros (H1 & H2 & H3 & H4 & H5 & _).
  rewrite !fill_cat_col_frame, map_region_columns_frame by assumption. reflexivity.
Qed.

Ltac not_in_tail :=
  unfold cat_cols; cbn [app]; rewrite !not_elem_of_cons;
  repeat split; try discriminate; apply not_elem_of_nil.

(** [load_and_preprocess] converts ['주문일'] before it calls
    [calculate_repurchase], so the frame it returns carries the repurchase
    annotation, counted on the calendar dates of the converted column. *)
Theorem load_and_preprocess_annotates raw out K W :
  load_and_preprocess parse_datetime raw = Ok out ->
  columns raw !! "주문자연락처" = Some K ->
  columns raw !! "주문일" = Some W ->
  exists T K' D' C',
    to_datetime parse_datetime W = Ok T /\
    columns out !! "주문자연락처" = Some K' /\
    columns out !! "OrderDate" = Some D' /\
    columns out !! "재구매 횟수" = Some C' /\
    annotated (values K) (map date_of_cell (values T))
      (values K') (values D') (values C').
Proof.
  intros Hrun HK HW. revert Hrun.
  unfold load_and_preprocess, mbind, result_bind, column.
  rewrite (has_column_Some _ _ _ HW), HW.
  destruct (to_datetime parse_datetime W) as [T|] eqn:HT; [|discriminate].
  cbn [mret result_ret].
  destruct (for_each clean_price_col price_cols (assign "주문일" T raw))
    as [df2|] eqn:H2; [|discriminate].
  pose proof (for_each_clean_frame _ _ _ H2) as Hframe.
  assert (HK2 : columns df2 !! "주문자연락처" = Some K).
  { rewrite Hframe by (apply not_price_col; tauto).
    rewrite lookup_assign_ne by discriminate. assumption. }
  assert (HW2 : columns df2 !! "주문일" = Some T).
  { rewrite Hframe by (apply not_price_col; tauto). apply lookup_assign_eq. }
  destruct (calculate_repurchase_run df2 K T HK2 HW2 (to_datetime_dtype _ _ HT))
    as (df3 & K' & D' & C' & -> & HK' & HD' & HC' & Hann).
  intros [= <-]. exists T, K', D', C'.
  rewrite !preprocess_tail_frame by not_in_tail. auto.
Qed.

(** The region columns are computed after the sort: on the frame that
    [load_and_preprocess] returns, ['MappedRegion'] and ['광역지역'] hold
    on every row the region of that row's postal code, whatever
    ['광역지역'] held in the file. *)
Theorem load_and_preprocess_regions raw out z :
  load_and_preprocess parse_datetime raw = Ok out ->
  columns out !! "우편번호" = Some z ->
  columns out !! "MappedRegion" = Some (map_regions z) /\
  columns out !! "광역지역" = Some (map_regions z).
Proof.
  unfold load_and_preprocess, mbind, result_bind.
  destruct (if has_column raw "주문일" then _ else _) as [df1|]; [|discriminate].
  destruct (for_each clean_price_col price_cols df1) as [df2|]; [|discriminate].
  destruct (snd (calculate_repurchase df2)) as [df3|]; [|discriminate].
  intros [= <-]. rewrite preprocess_tail_frame by not_in_tail. intros Hz.
  rewrite !fill_cat_col_frame by discriminate.
  unfold map_region_columns. rewrite Hz, lookup_assign_eq.
  rewrite lookup_assign_ne by discriminate.
  rewrite !lookup_assign_eq. auto.
Qed.

(** [load_and_preprocess] reads every column under a check for its
    presence, and [calculate_repurchase] returns early when a key column
    is missing: it never raises [KeyError]. *)
Theorem load_and_preprocess_no_key_error raw c :
  load_and_preprocess parse_datetime raw <> Raise (KeyError c).
Proof.
  unfold load_and_preprocess, mbind, result_bind, column.
  destruct (columns raw !! "주문일") as [W|] eqn:HW.
  - rewrite (has_column_Some _ _ _ HW).
    destruct (to_datetime parse_datetime W) as [T|e'] eqn:HT;
      [|intros [= ->]; apply to_datetime_Raise in HT as [[=]|[=]]].
    cbn [mret result_ret].
    destruct (for_each clean_price_col price_cols (assign "주문일" T raw))
      as [df2|e'] eqn:H2;
      [|intros [= ->]; apply for_each_clean_Raise in H2 as [[=]|[=]]].
    pose proof (for_each_clean_frame _ _ _ H2) as Hframe.
    assert (HW2 : columns df2 !! "주문일" = Some T).
    { rewrite Hframe by (apply not_price_col; tauto). apply lookup_assign_eq. }
    destruct (columns df2 !! "주문자연락처") as [K|] eqn:HK2.
    + destruct (calculate_repurchase_run df2 K T HK2 HW2 (to_datetime_dtype _ _ HT))
        as (df3 & _ & _ & _ & -> & _). discriminate.
    + rewrite calculate_repurchase_skips; [discriminate|].
      rewrite (has_column_None _ _ HK2). reflexivity.
  - rewrite (has_column_None _ _ HW).
    destruct (for_each clean_price_col price_cols raw)
      as [df2|e'] eqn:H2;
      [|intros [= ->]; apply for_each_clean_Raise in H2 as [[=]|[=]]].
    pose proof (for_each_clean_frame _ _ _ H2) as Hframe.
    rewrite calculate_repurchase_skips; [discriminate|].
    rewrite (has_column_eq raw df2 "주문일") by (apply Hframe, not_price_col; tauto).
    rewrite (has_column_None _ _ HW). apply andb_false_r.
Qed.

(** ** Sorting keeps the rows *)

Lemma map_snd_zip_seq {A} (l : list A) s n :
  (n <= length l)%nat -> map snd (zip l (seq s n)) = seq s n.
Proof.
  revert s n. induction l as [|x l IH]; intros s [|n] Hn; simpl in *; try reflexivity; try lia.
  rewrite IH by lia. reflexivity.
Qed.

Lemma argsort2_Permutation K D :
  length D = length K -> argsort2 K D ≡ₚ seq 0 (length K).
Proof.
  intros Hlen. unfold argsort2.
  rewrite sort_by_Permutation.
  rewrite map_snd_zip_seq; [reflexivity|].
  rewrite length_zip_with. lia.
Qed.

Lemma repurchase_columns_frame date out df df'' :
  repurchase_columns date out df = Ok df'' ->
  forall c, c <> "UserTotalOrders" -> c <> out ->
    columns df'' !! c = columns df !! c.
Proof.
  unfold repurchase_columns, mbind, result_bind.
  destruct (column df "주문자연락처") as [K|]; [|discriminate].
  destruct (column df date) as [D|]; [|discriminate].
  destruct (column _ "UserTotalOrders") as [U|]; [|discriminate].
  destruct (column _ out) as [C|]; [|discriminate].
  intros [= <-] c H1 H2. rewrite !lookup_assign_ne by congruence. reflexivity.
Qed.

Lemma take_rows_lookup idx vs i j :
  (forall k, k ∈ idx -> (k < length vs)%nat) ->
  idx !! i = Some j -> take_rows idx vs !! i = vs !! j.
Proof.
  unfold take_rows. revert i. induction idx as [|k idx IH]; intros i Hin Hi.
  - rewrite lookup_nil in Hi. discriminate.
  - destruct (lookup_lt_is_Some_2 vs k (Hin k ltac:(left))) as [v Hv].
    cbn [omap list_omap]. rewrite Hv.
    destruct i as [|i]; cbn [lookup list_lookup] in *.
    + injection Hi as <-. symmetry. exact Hv.
    + apply IH; [|exact Hi]. intros k' Hk'. apply Hin. right. exact Hk'.
Qed.

Lemma take_rows_length idx vs :
  (forall k, k ∈ idx -> (k < length vs)%nat) -> length (take_rows idx vs) = length idx.
Proof.
  unfold take_rows. induction idx as [|k idx IH]; intros Hin; [reflexivity|].
  destruct (lookup_lt_is_Some_2 vs k (Hin k ltac:(left))) as [v Hv].
  cbn [omap list_omap]. rewrite Hv. cbn [length]. f_equal.
  apply IH. intros k' Hk'. apply Hin. right. exact Hk'.
Qed.

Lemma elem_of_index_permutation idx n k :
  idx ≡ₚ seq 0 n -> k ∈ idx -> (k < n)%nat.
Proof.
  intros H Hk. rewrite H in Hk. apply list_elem_of_In, in_seq in Hk. lia.
Qed.

(** [sort_values] moves whole rows: the sorted frame is the frame it was
    given with its rows taken in the order of one arrangement [idx] of
    the row numbers. *)
Lemma sort_values2_rows a b df sorted :
  sort_values2 a b df = Ok sorted ->
  well_formed df ->
  exists idx,
    idx ≡ₚ seq 0 (nrows df) /\ nrows sorted = nrows df /\
    forall c s, columns df !! c = Some s ->
      exists s', columns sorted !! c = Some s' /\
        dtype s' = dtype s /\ length (values s') = nrows df /\
        forall i j, idx !! i = Some j -> values s' !! i = values s !! j.
Proof.
  unfold sort_values2, mbind, result_bind.
  destruct (column df a) as [K|] eqn:HK; [|discriminate].
  destruct (column df b) as [D|] eqn:HD; [|discriminate].
  apply column_Ok in HK, HD. intros [= <-] Hwf.
  pose proof (Hwf _ _ HK) as HlK. pose proof (Hwf _ _ HD) as HlD.
  set (idx := argsort2 (values K) (values D)).
  assert (Hperm : idx ≡ₚ seq 0 (nrows df)).
  { subst idx. rewrite <- HlK. apply argsort2_Permutation. congruence. }
  assert (Hlen : length idx = nrows df).
  { rewrite Hperm. apply length_seq. }
  exists idx. split; [exact Hperm|]. split; [exact Hlen|].
  intros c s Hc. unfold reorder. cbn [columns]. rewrite lookup_fmap, Hc.
  eexists. split; [reflexivity|]. cbn [dtype values].
  assert (Hin : forall k, k ∈ idx -> (k < length (values s))%nat).
  { intros k Hk. rewrite (Hwf _ _ Hc). eapply elem_of_index_permutation; eassumption. }
  split; [reflexivity|]. split.
  - rewrite take_rows_length by exact Hin. exact Hlen.
  - intros i j Hi. apply take_rows_lookup; assumption.
Qed.

Lemma repurchase_columns_nrows date out df df'' :
  repurchase_columns date out df = Ok df'' -> nrows df'' = nrows df.
Proof.
  unfold repurchase_columns, mbind, result_bind.
  destruct (column df "주문자연락처") as [K|]; [|discriminate].
  destruct (column df date) as [D|]; [|discriminate].
  destruct (column _ "UserTotalOrders") as [U|]; [|discriminate].
  destruct (column _ out) as [C|]; [|discriminate].
  intros [= <-]. reflexivity.
Qed.

(** [calculate_repurchase] loses no row and keeps every row whole: the
    frame it returns has the rows of its argument in the order of one
    arrangement [idx] of the row numbers, and row [i] of every column it
    does not assign holds the cell of row [idx !! i] of the argument. *)
Theorem calculate_repurchase_keeps_rows df df1 out :
  calculate_repurchase df = (df1, Ok out) ->
  well_formed df ->
  exists idx,
    idx ≡ₚ seq 0 (nrows df) /\ nrows out = nrows df /\
    forall c s,
      c ∉ ["OrderDate"; "UserTotalOrders"; "재구매 횟수"] ->
      columns df !! c = Some s ->
      exists s', columns out !! c = Some s' /\
        dtype s' = dtype s /\ length (values s') = nrows df /\
        forall i j, idx !! i = Some j -> values s' !! i = values s !! j.
Proof.
  intros Hrun Hwf. revert Hrun.
  unfold calculate_repurchase, mbind, M_bind, contains, getitem, lift, setitem, reading.
  destruct (negb (has_column df "주문자연락처") || negb (has_column df "주문일")).
  { intros [= _ <-]. exists (seq 0 (nrows df)).
    split; [reflexivity|]. split; [reflexivity|].
    intros c s _ Hc. exists s. split; [assumption|]. split; [reflexivity|].
    split; [apply (Hwf _ _ Hc)|].
    intros i j [-> _]%lookup_seq. reflexivity. }
  destruct (column df "주문일") as [W|] eqn:HW; [|discriminate].
  destruct (dt_date W) as [day|] eqn:Hday; [|discriminate].
  destruct (sort_values2 _ _ _) as [sorted|] eqn:Hs; [|discriminate].
  cbn [mbind result_bind]. intros [= _ Hout].
  apply column_Ok in HW.
  assert (Hwf1 : well_formed (assign "OrderDate" day df)).
  { intros c' s'. unfold assign. cbn [columns nrows].
    destruct (decide (c' = "OrderDate")) as [->|Hne].
    - rewrite lookup_insert_eq. intros [= <-]. revert Hday. unfold dt_date.
      destruct (dtype W); try discriminate. intros [= <-]. cbn [values].
      rewrite length_map. apply (Hwf _ _ HW).
    - rewrite lookup_insert_ne by congruence. apply Hwf. }
  destruct (sort_values2_rows _ _ _ _ Hs Hwf1) as (idx & Hperm & Hn & Hrows).
  exists idx. split; [exact Hperm|].
  split; [rewrite (repurchase_columns_nrows _ _ _ _ Hout); exact Hn|].
  intros c s Hnot Hc. rewrite !not_elem_of_cons in Hnot. destruct Hnot as (H1 & H2 & H3 & _).
  destruct (Hrows c s) as (s' & Hs' & Hrest).
  { rewrite lookup_assign_ne by congruence. assumption. }
  exists s'. rewrite (repurchase_columns_frame _ _ _ _ Hout) by congruence. auto.
Qed.

(** In the frame of its caller [calculate_repurchase] assigns the column
    ['OrderDate'] and nothing else: the sort and the counts are on the
    frame it returns. *)
Theorem calculate_repurchase_assigns_order_date df df1 r :
  calculate_repurchase df = (df1, r) ->
  nrows df1 = nrows df /\
  (forall c, c <> "OrderDate" -> columns df1 !! c = columns df !! c) /\
  (forall W, has_column df "주문자연락처" = true ->
     columns df !! "주문일" = Some W -> dtype W = datetime64 ->
     columns df1 !! "OrderDate" = Some (mkSeries object (map date_of_cell (values W)))).
Proof.
  unfold calculate_repurchase, mbind, M_bind, contains, getitem, lift, setitem, reading.
  destruct (has_column df "주문자연락처") eqn:HK; cbn [negb orb].
  2:{ intros [= <- _]. repeat split; auto. discriminate. }
  destruct (has_column df "주문일") eqn:HW; cbn [negb].
  2:{ intros [= <- _]. repeat split; auto.
      intros W _ HW'. rewrite (has_column_Some _ _ _ HW') in HW. discriminate. }
  apply has_column_true in HW as [W HW]. unfold column. rewrite HW.
  unfold dt_date. destruct (dtype W) eqn:Hdt;
    try (intros [= <- _]; repeat split; auto; intros W' _ [= <-]; congruence).
  intros [= <- _]. split; [reflexivity|]. split.
  - intros c Hc. apply lookup_assign_ne. congruence.
  - intros W' _ [= <-] _. apply lookup_assign_eq.
Qed.


(** ** When [calculate_repurchase] raises *)

(** [calculate_repurchase] raises exactly when both key columns are there
    and ['주문일'] is not a datetime column: the exception is the
    [AttributeError] of [.dt], and the frame is left as it was. *)
Theorem calculate_repurchase_raises df df1 e :
  calculate_repurchase df = (df1, Raise e) <->
  df1 = df /\ e = AttributeError /\
  has_column df "주문자연락처" = true /\
  exists W, columns df !! "주문일" = Some W /\ dtype W <> datetime64.
Proof.
  unfold calculate_repurchase, mbind, M_bind, contains, getitem, lift, setitem, reading.
  destruct (has_column df "주문자연락처") eqn:HK; cbn [negb orb].
  2:{ split; [discriminate|]. intros (_ & _ & [=] & _). }
  destruct (columns df !! "주문일") as [W|] eqn:HW.
  2:{ rewrite (has_column_None _ _ HW). cbn [negb].
      split; [discriminate|]. intros (_ & _ & _ & W & [=] & _). }
  rewrite (has_column_Some _ _ _ HW). cbn [negb]. unfold column. rewrite HW.
  apply has_column_true in HK as [K HK].
  unfold dt_date. destruct (dtype W) eqn:Hdt.
  4:{ set (day := mkSeries object (map date_of_cell (values W))).
      destruct (sort_and_annotate "OrderDate" "재구매 횟수" (assign "OrderDate" day df) K day)
        as (sorted & df'' & K' & D' & C' & Hs & Hr & _); try discriminate.
      { rewrite lookup_assign_ne by discriminate. assumption. }
      { apply lookup_assign_eq. }
      rewrite Hs. cbn [mbind result_bind]. rewrite Hr.
      split; [discriminate|]. intros (_ & _ & _ & W' & [= <-] & Hne). congruence. }
  all: split; [intros [= <- <-]; repeat split; eauto; exists W; split; congruence
              |intros (-> & -> & _); reflexivity].
Qed.

(** ** The two annotators agree *)

Lemma sort_then_annotate_exact date out df K D :
  date <> "UserTotalOrders" -> date <> out ->
  out <> "주문자연락처" -> out <> "UserTotalOrders" ->
  columns df !! "주문자연락처" = Some K -> columns df !! date = Some D ->
  exists sorted df'',
    sort_values2 "주문자연락처" date df = Ok sorted /\
    repurchase_columns date out sorted = Ok df'' /\
    columns df'' !! out =
      Some (mkSeries int64
        (map (annotation
                (take_rows (argsort2 (values K) (values D)) (values K))
                (take_rows (argsort2 (values K) (values D)) (values D)))
           (take_rows (argsort2 (values K) (values D)) (values K)))).
Proof.
  intros H1 H2 H3 H4 HK HD.
  unfold sort_values2, column, mbind, result_bind. rewrite HK, HD.
  cbn [mret result_ret].
  set (idx := argsort2 (values K) (values D)).
  destruct (repurchase_columns_run date out (reorder idx df)
              (mkSeries (dtype K) (take_rows idx (values K)))
              (mkSeries (dtype D) (take_rows idx (values D))) H1 H2 H3 H4)
    as (df'' & Hr & _ & _ & Hout).
  { unfold reorder. cbn [columns]. rewrite lookup_fmap, HK. reflexivity. }
  { unfold reorder. cbn [columns]. rewrite lookup_fmap, HD. reflexivity. }
  exists (reorder idx df), df''. split; [reflexivity|]. split; [exact Hr|exact Hout].
Qed.

(** The dashboard and the batch script attach the same counts in the
    same order: on one file, the ['RepurchaseCount'] column of [load_data]
    and the ['재구매 횟수'] column of [load_and_preprocess] are equal. *)
Theorem annotators_agree raw out1 out2 :
  load_data parse_datetime (Some raw) = Ok (Some out1) ->
  load_and_preprocess parse_datetime raw = Ok out2 ->
  is_Some (columns raw !! "주문자연락처") ->
  is_Some (columns raw !! "주문일") ->
  exists C,
    columns out1 !! "RepurchaseCount" = Some C /\
    columns out2 !! "재구매 횟수" = Some C.
Proof.
  intros Hd Hp [K HK] [W HW]. revert Hd Hp.
  unfold load_data, load_and_preprocess, mbind, result_bind, column.
  rewrite (has_column_Some _ _ _ HW), HW.
  destruct (to_datetime parse_datetime W) as [T|] eqn:HT; [|discriminate].
  unfold dt_date at 1. rewrite (to_datetime_dtype _ _ HT). cbn [mret result_ret].
  set (day := mkSeries object (map date_of_cell (values T))).
  destruct (for_each clean_price_col price_cols (assign "Date" day (assign "OrderDate" T raw)))
    as [df2|] eqn:H2; [|discriminate].
  pose proof (for_each_clean_frame _ _ _ H2) as Hframe.
  assert (HK2 : columns df2 !! "주문자연락처" = Some K).
  { rewrite Hframe by (apply not_price_col; tauto).
    rewrite !lookup_assign_ne by discriminate. assumption. }
  assert (HO2 : columns df2 !! "OrderDate" = Some T).
  { rewrite Hframe by (apply not_price_col; tauto).
    rewrite lookup_assign_ne by discriminate. apply lookup_assign_eq. }
  assert (HD2 : columns df2 !! "Date" = Some day).
  { rewrite Hframe by (apply not_price_col; tauto). apply lookup_assign_eq. }
  rewrite (has_column_Some _ _ _ HK2), (has_column_Some _ _ _ HO2). cbn [andb].
  destruct (sort_then_annotate_exact "Date" "RepurchaseCount" df2 K day)
    as (sorted & df'' & Hs & Hr & Hout); try discriminate; try assumption.
  rewrite Hs, Hr. intros [= <-].
  destruct (for_each clean_price_col price_cols (assign "주문일" T raw))
    as [df3|] eqn:H3; [|discriminate].
  pose proof (for_each_clean_frame _ _ _ H3) as Hframe3.
  assert (HK3 : columns df3 !! "주문자연락처" = Some K).
  { rewrite Hframe3 by (apply not_price_col; tauto).
    rewrite lookup_assign_ne by discriminate. assumption. }
  assert (HW3 : columns df3 !! "주문일" = Some T).
  { rewrite Hframe3 by (apply not_price_col; tauto). apply lookup_assign_eq. }
  unfold calculate_repurchase, mbind, M_bind, contains, getitem, column, lift,
    setitem, reading.
  rewrite (has_column_Some _ _ _ HK3), (has_column_Some _ _ _ HW3). cbn [negb orb].
  rewrite HW3. unfold dt_date. rewrite (to_datetime_dtype _ _ HT). fold day.
  destruct (sort_then_annotate_exact "OrderDate" "재구매 횟수"
              (assign "OrderDate" day df3) K day)
    as (sorted' & df''' & Hs' & Hr' & Hout'); try discriminate.
  { rewrite lookup_assign_ne by discriminate. assumption. }
  { apply lookup_assign_eq. }
  cbn [snd]. rewrite Hs'. cbn [mbind result_bind]. rewrite Hr'. intros [= <-].
  eexists. split; [exact Hout|].
  rewrite preprocess_tail_frame by not_in_tail. exact Hout'.
Qed.

(** ** Categories without missing values *)

Lemma fillna_unknown_notna s : Forall (fun c => notna c = true) (values (fillna_unknown s)).
Proof.
  unfold fillna_unknown. cbn [values]. apply Forall_forall. intros c Hc.
  apply list_elem_of_In, in_map_iff in Hc as (x & <- & _).
  destruct (isna x) eqn:Hx; [reflexivity|]. unfold notna. rewrite Hx. reflexivity.
Qed.

(** In the frame [load_and_preprocess] returns no cell of the category
    columns ['주문경로'], ['감귤 세부'] and ['품종'] is missing. *)
Theorem load_and_preprocess_fills_categories raw out c s :
  load_and_preprocess parse_datetime raw = Ok out ->
  c ∈ cat_cols ->
  columns out !! c = Some s ->
  Forall (fun x => notna x = true) (values s).
Proof.
  unfold load_and_preprocess, mbind, result_bind.
  destruct (if has_column raw "주문일" then _ else _) as [df1|]; [|discriminate].
  destruct (for_each clean_price_col price_cols df1) as [df2|]; [|discriminate].
  destruct (snd (calculate_repurchase df2)) as [df3|]; [|discriminate].
  intros [= <-]. unfold cat_cols. rewrite !elem_of_cons.
  set (d0 := map_region_columns df3).
  intros [->|[->|[->|[]%elem_of_nil]]].
  - rewrite !fill_cat_col_frame by discriminate. unfold fill_cat_col.
    destruct (columns d0 !! "주문경로") as [s0|] eqn:H0; [|rewrite H0; discriminate].
    rewrite lookup_assign_eq. intros [= <-]. apply fillna_unknown_notna.
  - rewrite fill_cat_col_frame by discriminate.
    set (d1 := fill_cat_col d0 "주문경로"). unfold fill_cat_col at 1.
    destruct (columns d1 !! "감귤 세부") as [s0|] eqn:H0; [|rewrite H0; discriminate].
    rewrite lookup_assign_eq. intros [= <-]. apply fillna_unknown_notna.
  - set (d2 := fill_cat_col (fill_cat_col d0 "주문경로") "감귤 세부").
    unfold fill_cat_col at 1.
    destruct (columns d2 !! "품종") as [s0|] eqn:H0; [|rewrite H0; discriminate].
    rewrite lookup_assign_eq. intros [= <-]. apply fillna_unknown_notna.
Qed.


End Properties.

(* ===================================================================== *)
(** * The claims on the example tables *)
(* ===================================================================== *)

Ltac solve_sorted :=
  repeat first
    [ apply Sorted_nil | apply HdRel_nil
    | apply Sorted_cons | apply HdRel_cons
    | (left; vm_compute; reflexivity)
    | (right; split; vm_compute; reflexivity) ].

(** The run on [rates_table]: seller A has a zero margin rate on a
    non-zero revenue, seller B an infinite margin rate on a zero revenue,
    seller C a NaN cancellation rate on an order count of 0. *)
Lemma rates_table_run :
  exists df' a b c,
    calculate_seller_metrics repr0 rates_table df' (Ok [a; b; c]) /\
    (F64.is_zero (TotalRevenue a) = false /\ MarginRate a = S754_zero false) /\
    (TotalRevenue b = S754_zero false /\ MarginRate b = S754_infinity true) /\
    (OrderCount c = 0 /\ CancelRate c = S754_nan).
Proof.
  destruct (seller_stats repr0 rates_table) as [d [stats|e]] eqn:E;
    vm_compute in E; [|discriminate].
  injection E as <- <-.
  do 4 eexists. split.
  - eapply calculate_seller_metrics_intro; [vm_compute; reflexivity|].
    split; [reflexivity|]. solve_sorted.
  - vm_compute. auto 10.
Qed.

(** C1, on [rates_table].  Whatever the order of the summary, seller B,
    who was paid nothing for goods that cost 500, has a revenue of 0 and
    a margin rate of minus infinity, which [fillna(0)] does not replace;
    seller C, whose rows carry no order id, has an order count of 0 and a
    cancellation rate that is NaN: unlike the margin rate, the
    cancellation rate is not passed through [fillna] at all. *)
Theorem rates_undefined_on_examples :
  (exists df' out, calculate_seller_metrics repr0 rates_table df' (Ok out)) /\
  forall df' out,
    calculate_seller_metrics repr0 rates_table df' (Ok out) ->
    exists b c,
      b ∈ out /\ seller b = Str "B" /\
      F64.is_zero (TotalRevenue b) = true /\ MarginRate b = S754_infinity true /\
      c ∈ out /\ seller c = Str "C" /\
      OrderCount c = 0 /\ CancelRate c = S754_nan.
Proof.
  split.
  { destruct rates_table_run as (df' & a & b & c & Hrun & _). eauto. }
  intros df' out (stats & Hstats & Hperm & _)%calculate_seller_metrics_inv.
  vm_compute in Hstats. injection Hstats as _ <-.
  eexists _, _.
  split; [rewrite <- Hperm; apply list_elem_of_further, list_elem_of_here|].
  split; [reflexivity|]. split; [reflexivity|]. split; [reflexivity|].
  split; [rewrite <- Hperm; do 2 apply list_elem_of_further; apply list_elem_of_here|].
  split; [reflexivity|]. split; reflexivity.
Qed.

(** C5, counterexample: with nothing stored, the call on [rates_table]
    leaves the table with columns it did not have. *)
Lemma no_side_effects_counterexample : ~ spec_no_side_effects digest0 repr0 rates_table.
Proof.
  intros H.
  destruct rates_table_run as (df' & a & b & c & Hrun & _).
  assert (df' = rates_table) as ->.
  { apply (H ∅ (<[digest0 rates_table := [a; b; c]]> ∅) df' (Ok [a; b; c])).
    unfold cached_calculate_seller_metrics. rewrite lookup_empty.
    split; [exact Hrun|reflexivity]. }
  destruct (calculate_seller_metrics_frame repr0 _ _ _ Hrun) as (r0 & Hclean & Hok).
  apply clean_and_derive_run in Hclean as (_ & _ & Hcols).
  destruct (Hcols (Hok _ eq_refl)) as ([m Hm] & _).
  vm_compute in Hm. discriminate.
Qed.

(** The run on [ties_table] with the quicksort kernel of numpy: the
    kernel sorts the 24 revenues, and the summary lists seller I, the
    ninth of the aggregation, before seller E, the fifth, both with a
    revenue of 300. *)
Lemma ties_table_run :
  exists df' stats out e i,
    seller_stats repr0 ties_table = (df', Ok stats) /\
    calculate_seller_metrics_with repr0 numpy.argsort ties_table = (df', Ok out) /\
    numpy.aquicksort (rev (TotalRevenue <$> stats)) =
      Some [11; 2; 3; 20; 8; 22; 13; 16; 1; 21; 5; 6; 10; 12; 18; 17; 19; 0; 14; 9; 7; 4;
            15; 23]%nat /\
    stats !! 4%nat = Some e /\ stats !! 8%nat = Some i /\
    TotalRevenue e = TotalRevenue i /\ seller e = Str "E" /\ seller i = Str "I" /\
    seller <$> out =
      [Str "A"; Str "I"; Str "T"; Str "Q"; Str "O"; Str "J"; Str "X"; Str "E";
       Str "G"; Str "F"; Str "L"; Str "N"; Str "R"; Str "S"; Str "C"; Str "W";
       Str "H"; Str "K"; Str "B"; Str "P"; Str "D"; Str "U"; Str "V"; Str "M"].
Proof.
  eexists _, _, _, _, _.
  split; [vm_compute; reflexivity|].
  split; [vm_compute; reflexivity|].
  split; [vm_compute; reflexivity|].
  split; [reflexivity|]. split; [reflexivity|].
  vm_compute. auto.
Qed.

(** C6, counterexample: on [ties_table] the summary is sorted by
    revenue, but sellers E and I, of equal revenue, have changed
    places. *)
Lemma sorted_stable_counterexample : ~ spec_sorted_stable numpy.argsort repr0 ties_table.
Proof.
  intros H.
  destruct ties_table_run
    as (df' & stats & out & e & i & Hstats & Hrun & _ & He & Hi & Heq & Hse & Hsi & Hout).
  destruct (H _ _ _ Hstats Hrun) as [_ Hstable].
  destruct (Hstable e i Heq) as (p & q & Hpq & Hp & Hq).
  { exists 4%nat, 8%nat. auto with lia. }
  apply (f_equal (fmap seller)) in Hp, Hq.
  rewrite <- list_lookup_fmap, Hout in Hp, Hq.
  cbn [fmap option_fmap option_map] in Hp, Hq. rewrite Hse in Hp. rewrite Hsi in Hq.
  clear - Hpq Hp Hq.
  do 24 (try (destruct q as [|q];
              [try discriminate Hq|cbn [lookup list_lookup] in Hq]));
    try discriminate Hq.
  do 24 (try (destruct p as [|p];
              [try discriminate Hp|cbn [lookup list_lookup] in Hp]));
    try discriminate Hp.
  lia.
Qed.

(** C4, on the example cells.  [load_data] reads ["12,345"] as 12345.0
    but raises [ValueError] on a price column that holds ["abc"]; the
    cleaning of [calculate_seller_metrics] reads the same two cells as
    12345.0 and 0. *)
Lemma currency_cleaning_on_examples :
  (exists df,
     load_data parse0 (Some price_table) = Ok (Some df) /\
     columns df !! "결제금액" = Some (mkSeries float64 [Num (F64.of_Z 12345)])) /\
  load_data parse0 (Some bad_price_table) = Raise ValueError /\
  cleaned_paid_amount repr0 (mkSeries object [Str "12,345"; Str "abc"]) =
    mkSeries float64 [Num (F64.of_Z 12345); Num F64.zero].
Proof.
  split; [|split].
  - destruct (load_data parse0 (Some price_table)) as [[df|]|e] eqn:E;
      vm_compute in E; try discriminate.
    injection E as <-. eexists. split; [reflexivity|]. vm_compute. reflexivity.
  - vm_compute. reflexivity.
  - vm_compute. reflexivity.
Qed.

(** C2, on [undated_table] and [two_customers_table].  The customer of
    [undated_table], whose only order has no date, gets the count -1 from
    both annotators: [nunique] skips the missing date, so the customer
    has 0 distinct dates, and [fillna(0)] only catches the rows without
    identity, as the last row of [two_customers_table], which gets 0. *)
Theorem repurchase_count_negative_on_examples :
  (exists df1 out,
     calculate_repurchase undated_table = (df1, Ok out) /\
     columns out !! "주문자연락처" = Some (mkSeries object [Str "A"]) /\
     columns out !! "재구매 횟수" = Some (mkSeries int64 [Int (-1)])) /\
  (exists out,
     load_data parse0 (Some undated_table) = Ok (Some out) /\
     columns out !! "주문자연락처" = Some (mkSeries object [Str "A"]) /\
     columns out !! "RepurchaseCount" = Some (mkSeries int64 [Int (-1)])) /\
  (exists df1 out,
     calculate_repurchase two_customers_table = (df1, Ok out) /\
     columns out !! "주문자연락처" =
       Some (mkSeries object [Str "A"; Str "A"; Str "B"; Str "B"; NA]) /\
     columns out !! "재구매 횟수" =
       Some (mkSeries int64 [Int 0; Int 0; Int 1; Int 1; Int 0])).
Proof.
  split; [|split].
  - destruct (calculate_repurchase undated_table) as [df1 [out|e]] eqn:E;
      vm_compute in E; [|discriminate].
    injection E as <- <-. eexists _, _. split; [reflexivity|].
    split; vm_compute; reflexivity.
  - destruct (load_data parse0 (Some undated_table)) as [[out|]|e] eqn:E;
      vm_compute in E; try discriminate.
    injection E as <-. eexists. split; [reflexivity|].
    split; vm_compute; reflexivity.
  - destruct (calculate_repurchase two_customers_table) as [df1 [out|e]] eqn:E;
      vm_compute in E; [|discriminate].
    injection E as <- <-. eexists _, _. split; [reflexivity|].
    split; vm_compute; reflexivity.
Qed.

(** ** The theorems at work on the example tables *)

Ltac run_metrics :=
  eapply calculate_seller_metrics_intro;
  [ vm_compute; reflexivity | split; [reflexivity | solve_sorted] ].

Ltac solve_elem :=
  cbn; repeat first [ apply list_elem_of_here | apply list_elem_of_further ].

(** Case analysis on the membership of a pair in a list written out. *)
Ltac elem_cases H :=
  vm_compute in H;
  repeat (apply elem_of_cons in H as [H|H]);
  try (apply elem_of_nil in H; destruct H);
  try discriminate H;
  try (injection H as H);
  subst.

Lemma rates_undefined_on_examples_witness :
  exists df' out b,
    calculate_seller_metrics repr0 rates_table df' (Ok out) /\
    b ∈ out /\ MarginRate b = S754_infinity true.
Proof.
  destruct rates_table_run as (df' & a & b0 & c0 & Hrun & _).
  destruct (proj2 rates_undefined_on_examples df' _ Hrun)
    as (b & c & Hb & _ & _ & Hrate & _).
  exists df', [a; b0; c0], b. auto.
Defined.

Lemma repurchase_rate_counts_rows_witness :
  exists df' out r,
    calculate_seller_metrics repr0 same_day_table df' (Ok out) /\ r ∈ out /\
    RepurchaseRate r = F64.hundred.
Proof.
  eexists _, _, _. split; [run_metrics|]. split; [left|].
  etransitivity.
  - eapply (proj1 (repurchase_rate_counts_rows repr0 same_day_table _ _ _ _
                     ltac:(run_metrics) ltac:(left) ltac:(vm_compute; reflexivity))
              _ [Str "010-1234-5678"]).
    + vm_compute. reflexivity.
    + repeat constructor; apply not_elem_of_nil.
    + intros c. split.
      * intros ->%list_elem_of_singleton. split; [reflexivity|solve_elem].
      * intros [_ H]. elem_cases H; left.
  - vm_compute. reflexivity.
Defined.

Lemma order_count_is_distinct_order_ids_witness :
  exists df' out r,
    calculate_seller_metrics repr0 same_day_table df' (Ok out) /\ r ∈ out /\
    OrderCount r = 1.
Proof.
  eexists _, _, _. split; [run_metrics|]. split; [left|].
  eapply (order_count_is_distinct_order_ids repr0 same_day_table _ _ _ _ _ [Str "o1"]).
  - run_metrics.
  - left.
  - vm_compute. reflexivity.
  - vm_compute. reflexivity.
  - repeat constructor; apply not_elem_of_nil.
  - intros x. split.
    + intros ->%list_elem_of_singleton. split; [reflexivity|solve_elem].
    + intros [_ H]. elem_cases H; left.
Defined.

Lemma cancel_count_is_rows_flagged_Y_witness :
  exists df' out r,
    calculate_seller_metrics repr0 cancel_table df' (Ok out) /\ r ∈ out /\
    CancelCount r = 1.
Proof.
  eexists _, _, _. split; [run_metrics|]. split; [left|].
  edestruct (cancel_count_is_rows_flagged_Y repr0 cancel_table) as (_ & _ & H & _).
  - run_metrics.
  - left.
  - vm_compute. reflexivity.
  - vm_compute. reflexivity.
  - rewrite (H _ ltac:(vm_compute; reflexivity)). vm_compute. reflexivity.
Defined.

Lemma assigns_only_derived_columns_witness :
  exists cache' df' out,
    cached_calculate_seller_metrics repr0 digest0 ∅ rates_table cache' df' (Ok out) /\
    nrows df' = nrows rates_table /\
    columns df' !! "셀러명" = columns rates_table !! "셀러명" /\
    columns df' !! "실결제 금액" = Some (mkSeries int64 [Int 1000; Int 0; Int 0]) /\
    cached_calculate_seller_metrics repr0 digest0 cache' rates_table
      cache' rates_table (Ok out).
Proof.
  destruct rates_table_run as (df' & a & b & c & Hrun & _).
  assert (Hcall : cached_calculate_seller_metrics repr0 digest0 ∅ rates_table
                    (<[digest0 rates_table := [a; b; c]]> ∅) df' (Ok [a; b; c])).
  { unfold cached_calculate_seller_metrics. rewrite lookup_empty.
    split; [exact Hrun|reflexivity]. }
  destruct (assigns_only_derived_columns repr0 digest0 _ _ _ _ _ Hcall)
    as (H1 & H2 & _ & H4).
  destruct (H4 (lookup_empty _) _ eq_refl) as (_ & _ & Hpaid & _).
  eexists _, _, _. split; [exact Hcall|].
  split; [exact H1|]. split.
  - apply H2. unfold assigned_columns. rewrite !not_elem_of_cons.
    repeat split; try discriminate. apply not_elem_of_nil.
  - split; [rewrite Hpaid; vm_compute; reflexivity|].
    unfold cached_calculate_seller_metrics. rewrite lookup_insert_eq. auto.
Defined.

Lemma output_sorted_by_revenue_witness :
  exists df' out a b,
    calculate_seller_metrics_with repr0 argsort_stable rates_table = (df', Ok out) /\
    out !! 0%nat = Some a /\ out !! 1%nat = Some b /\
    (F64.is_nan (TotalRevenue b) = true \/
     (F64.is_nan (TotalRevenue a) = false /\
      F64.geb (TotalRevenue a) (TotalRevenue b) = true)).
Proof.
  eexists _, _, _, _. split; [vm_compute; reflexivity|].
  split; [reflexivity|]. split; [reflexivity|].
  eapply (proj2 (output_sorted_by_revenue repr0 argsort_stable rates_table _ _
                   argsort_stable_ok ltac:(vm_compute; reflexivity)) 0%nat 1%nat).
  - lia.
  - reflexivity.
  - reflexivity.
Defined.

Lemma tenure_and_recency_witness :
  exists df' out r,
    calculate_seller_metrics repr0 lifecycle_table df' (Ok out) /\ r ∈ out /\
    seller r = Str "X" /\
    TenureDays r = Some 3 /\ RecencyDays r = Some 3.
Proof.
  eexists _, _, _. split; [run_metrics|]. split; [left|]. split; [reflexivity|].
  edestruct (proj1 (tenure_and_recency repr0 lifecycle_table)) as [H1 H2].
  - run_metrics.
  - left.
  - vm_compute. reflexivity.
  - vm_compute. reflexivity.
  - instantiate (1 := 19723 * ns_per_day + 12 * 3600 * 10 ^ 9). solve_elem.
  - intros t H. elem_cases H; vm_compute; discriminate.
  - instantiate (1 := 19726 * ns_per_day + 9 * 3600 * 10 ^ 9). solve_elem.
  - intros t H. elem_cases H; vm_compute; discriminate.
  - instantiate (1 := 19730 * ns_per_day). solve_elem.
  - intros t H. elem_cases H; vm_compute; discriminate.
  - rewrite H1, H2. vm_compute. split; reflexivity.
Defined.

Lemma repurchase_rates_differ_witness :
  exists report r,
    analyze_seller_repurchase repr0 parse0 (Some same_day_table) = Ok (Some report) /\
    r ∈ report /\
    Report.RepurchaseRate r = F64.zero.
Proof.
  eexists _, _. split; [vm_compute; reflexivity|]. split; [left|].
  etransitivity.
  - eapply (proj1 (repurchase_rates_differ repr0 parse0) same_day_table _ _ _ _ _ _
              [Str "010-1234-5678"]).
    + vm_compute. reflexivity.
    + left.
    + vm_compute. reflexivity.
    + vm_compute. reflexivity.
    + vm_compute. reflexivity.
    + vm_compute. reflexivity.
    + reflexivity.
    + repeat constructor; apply not_elem_of_nil.
    + intros c. split.
      * intros ->%list_elem_of_singleton. split; [reflexivity|solve_elem].
      * intros [_ H]. elem_cases H; left.
  - vm_compute. reflexivity.
Defined.

(* ===================================================================== *)
(** * The further properties on the example tables *)
(* ===================================================================== *)

Lemma region_of_short_code_witness :
  get_region_from_zipcode (Int 6234) = "서울".
Proof.
  etransitivity; [apply (region_of_short_code 6234); lia|reflexivity].
Defined.




Lemma region_of_float_code_witness :
  get_region_from_zipcode (Num (F64.of_Z 48000)) = "부산".
Proof.
  etransitivity; [apply (region_of_float_code 48000); simpl; lia|reflexivity].
Defined.

Lemma report_row_of_missing_seller_witness :
  exists report,
    analyze_seller_repurchase repr0 parse0 (Some nameless_table) = Ok (Some report) /\
    Report.mk NA 0 0 F64.zero F64.zero ∈ report.
Proof.
  eexists. split; [vm_compute; reflexivity|].
  eapply (report_row_of_missing_seller repr0 parse0 nameless_table).
  - vm_compute. reflexivity.
  - vm_compute. reflexivity.
  - apply list_elem_of_further, list_elem_of_here.
  - reflexivity.
Defined.

Lemma repurchasing_customers_bound_witness :
  exists r,
    report_row repr0 [Str "X"; Str "X"; Str "X"] [Str "A"; Str "B"; Str "A"]
      [Day 19723; Day 19723; Day 19730]
      (mkSeries object [Str "1,000"; Str "2,000"; Str "500"]) (Str "X") = Ok r /\
    0 <= Report.RepurchasingCustomers r <= Report.TotalCustomers r.
Proof.
  eexists. split; [vm_compute; reflexivity|].
  eapply (repurchasing_customers_bound repr0
            [Str "X"; Str "X"; Str "X"] [Str "A"; Str "B"; Str "A"]
            [Day 19723; Day 19723; Day 19730]
            (mkSeries object [Str "1,000"; Str "2,000"; Str "500"]) (Str "X")).
  vm_compute. reflexivity.
Defined.

Lemma analyze_seller_repurchase_key_error_witness :
  analyze_seller_repurchase repr0 parse0 (Some header_only_table) =
  Raise (KeyError "TotalCustomers").
Proof.
  apply (proj2 (analyze_seller_repurchase_key_error repr0 parse0
                  (Some header_only_table) "TotalCustomers")).
  split; [reflexivity|]. eexists _, _, _, _.
  split; [reflexivity|]. split; [vm_compute; reflexivity|].
  split; [vm_compute; reflexivity|]. split; [vm_compute; reflexivity|].
  split; [reflexivity|]. split; eexists; vm_compute; reflexivity.
Defined.

Lemma summary_needs_four_columns_witness :
  exists df' out,
    calculate_seller_metrics repr0 rates_table df' (Ok out) /\
    is_Some (columns rates_table !! "주문수량").
Proof.
  eexists _, _. split; [run_metrics|].
  edestruct (summary_needs_four_columns repr0 rates_table) as (_ & _ & _ & H);
    [run_metrics|exact H].
Defined.

Lemma summary_returns_without_optional_columns_witness :
  exists df' out, calculate_seller_metrics repr0 lifecycle_table df' (Ok out).
Proof.
  apply (summary_returns_without_optional_columns repr0 lifecycle_table).
  - unfold aggregable.
    split; [eexists; vm_compute; reflexivity|].
    split; [eexists; vm_compute; reflexivity|].
    split; [eexists; vm_compute; reflexivity|].
    eexists. split; vm_compute; reflexivity.
  - intros od H. vm_compute in H. injection H as <-. reflexivity.
Defined.

Lemma overview_repurchase_spec_witness :
  exists total rate,
    overview_repurchase returning_table = Ok (total, rate) /\
    total = 2 /\ rate <> F64.zero.
Proof.
  eexists _, _. split; [vm_compute; reflexivity|].
  edestruct (proj1 (overview_repurchase_spec returning_table)) as [H1 H2];
    [vm_compute; reflexivity|].
  split; [rewrite H1; vm_compute; reflexivity|].
  vm_compute. discriminate.
Defined.

Lemma customer_insight_divides_by_zero_witness :
  customer_insight anonymous_table = ZeroDivisionError.
Proof.
  apply (proj2 (customer_insight_divides_by_zero anonymous_table)).
  eexists _, _, _. split; [vm_compute; reflexivity|].
  split; [vm_compute; reflexivity|]. split; [vm_compute; reflexivity|].
  repeat constructor.
Defined.

Lemma overview_without_customers_witness :
  overview_repurchase anonymous_table = Ok (0, F64.zero).
Proof.
  eapply (overview_without_customers anonymous_table);
    [vm_compute; reflexivity|repeat constructor].
Defined.

Lemma load_data_key_error_witness :
  load_data parse0 (Some stale_table) = Raise (KeyError "Date").
Proof.
  apply (proj2 (load_data_key_error parse0 stale_table "Date")).
  split; [reflexivity|]. split; [vm_compute; reflexivity|].
  split; [eexists; vm_compute; reflexivity|].
  split; [eexists; vm_compute; reflexivity|].
  split; [vm_compute; reflexivity|].
  eexists. vm_compute. reflexivity.
Defined.

Lemma load_and_preprocess_annotates_witness :
  exists out K' C',
    load_and_preprocess parse0 postal_table = Ok out /\
    columns out !! "주문자연락처" = Some K' /\
    columns out !! "재구매 횟수" = Some C' /\
    length (values C') = length (values K').
Proof.
  destruct (load_and_preprocess parse0 postal_table) as [out|e] eqn:E.
  2:{ vm_compute in E. discriminate E. }
  destruct (load_and_preprocess_annotates parse0 postal_table out _ _ E
              ltac:(vm_compute; reflexivity) ltac:(vm_compute; reflexivity))
    as (T & K' & D' & C' & _ & HK & _ & HC & _ & Hlen & _).
  exists out, K', C'. auto.
Defined.

Lemma load_and_preprocess_regions_witness :
  exists out z,
    load_and_preprocess parse0 postal_table = Ok out /\
    columns out !! "우편번호" = Some z /\
    columns out !! "광역지역" = Some (map_regions z).
Proof.
  eexists _, _. split; [vm_compute; reflexivity|].
  split; [vm_compute; reflexivity|].
  eapply proj2, (load_and_preprocess_regions parse0 postal_table);
    vm_compute; reflexivity.
Defined.

Lemma frame_well_formed n cols :
  Forall (fun p => length (values (snd p)) = n) cols -> well_formed (frame n cols).
Proof.
  intros H c s Hc. unfold frame in Hc. cbn [columns nrows] in *.
  apply elem_of_list_to_map_2 in Hc.
  rewrite Forall_forall in H. apply (H (c, s)), Hc.
Qed.

Lemma calculate_repurchase_keeps_rows_witness :
  exists df1 out idx s',
    calculate_repurchase two_customers_table = (df1, Ok out) /\
    idx ≡ₚ seq 0 5 /\
    columns out !! "주문자연락처" = Some s' /\
    forall i j, idx !! i = Some j ->
      values s' !! i = [Str "B"; Str "A"; NA; Str "A"; Str "B"] !! j.
Proof.
  destruct (calculate_repurchase two_customers_table) as [df1 [out|e]] eqn:E.
  2:{ vm_compute in E. discriminate E. }
  destruct (calculate_repurchase_keeps_rows two_customers_table df1 out E)
    as (idx & Hperm & _ & Hrows).
  { apply frame_well_formed. repeat constructor. }
  destruct (Hrows "주문자연락처"
              (mkSeries object [Str "B"; Str "A"; NA; Str "A"; Str "B"]))
    as (s' & Hs & _ & _ & Hcells).
  - rewrite !not_elem_of_cons. repeat split; try discriminate. apply not_elem_of_nil.
  - vm_compute. reflexivity.
  - exists df1, out, idx, s'. auto.
Defined.

Lemma calculate_repurchase_assigns_order_date_witness :
  exists df1 r,
    calculate_repurchase two_customers_table = (df1, r) /\
    columns df1 !! "주문자연락처" = columns two_customers_table !! "주문자연락처".
Proof.
  eexists _, _. split; [vm_compute; reflexivity|].
  edestruct (calculate_repurchase_assigns_order_date two_customers_table) as (_ & H & _);
    [vm_compute; reflexivity|].
  apply H. discriminate.
Defined.

Lemma region_table_has_no_gap_witness : region_of_prefix 64 = "기타".
Proof. apply (proj2 (region_table_has_no_gap 64)). lia. Defined.

Lemma calculate_repurchase_raises_witness :
  calculate_repurchase text_dates_table = (text_dates_table, Raise AttributeError).
Proof.
  apply (proj2 (calculate_repurchase_raises text_dates_table text_dates_table
                  AttributeError)).
  split; [reflexivity|]. split; [reflexivity|]. split; [vm_compute; reflexivity|].
  eexists. split; [vm_compute; reflexivity|]. discriminate.
Defined.

Lemma annotators_agree_witness :
  exists out1 out2 C,
    load_data parse0 (Some postal_table) = Ok (Some out1) /\
    load_and_preprocess parse0 postal_table = Ok out2 /\
    columns out1 !! "RepurchaseCount" = Some C /\
    columns out2 !! "재구매 횟수" = Some C.
Proof.
  destruct (load_data parse0 (Some postal_table)) as [o1|e1] eqn:E1.
  2:{ vm_compute in E1. discriminate E1. }
  destruct o1 as [out1|].
  2:{ vm_compute in E1. discriminate E1. }
  destruct (load_and_preprocess parse0 postal_table) as [out2|e2] eqn:E2.
  2:{ vm_compute in E2. discriminate E2. }
  destruct (annotators_agree parse0 postal_table out1 out2 E1 E2) as (C & H1 & H2).
  - eexists. vm_compute. reflexivity.
  - eexists. vm_compute. reflexivity.
  - exists out1, out2, C. auto.
Defined.

Lemma load_and_preprocess_fills_categories_witness :
  exists out s,
    load_and_preprocess parse0 postal_table = Ok out /\
    columns out !! "주문경로" = Some s /\
    Forall (fun x => notna x = true) (values s).
Proof.
  eexists _, _. split; [vm_compute; reflexivity|].
  split; [vm_compute; reflexivity|].
  eapply (load_and_preprocess_fills_categories parse0 postal_table _ "주문경로").
  - vm_compute. reflexivity.
  - unfold cat_cols. apply list_elem_of_here.
  - vm_compute. reflexivity.
Defined.
